(** * proj2_nps: national park sites with file-backed caches

    A shallow embedding of [proj2_nps.py] and the properties of its
    fetch-or-cache pipeline.

    - Python values that travel through the cache files are JSON documents
      ([json]); dictionaries are insertion-ordered association lists with
      unique keys, as [dict] is.
    - [json.dump] / [json.load] are embedded as a printer ([dumps]) and a
      parser ([loads]) over the text of the file.
    - [BeautifulSoup] trees are [node]s; [find], [findAll], [.text] and
      attribute access are functions over the tree.  The tree builder itself
      and the remote servers are parameters of the development.
    - The file system, the log of network requests and the standard output
      form the [world] that every function threads.

    Text is [string], one [ascii] per character (code points 0 to 255).
    JSON numbers are the integers.  Floating-point literals and escapes of
    characters above 255 are outside the embedding: [loads] answers
    [Beyond] on them, which is neither a value nor the decoder's error. *)

From Stdlib Require Import ZArith String Ascii List Lia Bool.
From Stdlib Require Import DecimalString DecimalZ DecimalFacts DecimalPos.
From stdpp Require Import gmap strings.

Local Open Scope Z_scope.

(** ** Characters and strings, as [str] has them *)

Module Py.

Definition dquote : ascii := "034"%char.
Definition backslash : ascii := "092"%char.

(** [str.isspace] on one character (code points below 256). *)
Definition isspace (c : ascii) : bool :=
  let n := N_of_ascii c in
  ((9 <=? n) && (n <=? 13) || (28 <=? n) && (n <=? 32)
   || (n =? 133) || (n =? 160))%N.

Fixpoint lstrip (s : string) : string :=
  match s with
  | String c s' => if isspace c then lstrip s' else s
  | EmptyString => EmptyString
  end.

(** Drops the trailing whitespace: a character is kept when it is not a
    space or when something is kept after it. *)
Fixpoint rstrip (s : string) : string :=
  match s with
  | String c s' =>
      match rstrip s' with
      | EmptyString => if isspace c then EmptyString else String c EmptyString
      | r => String c r
      end
  | EmptyString => EmptyString
  end.

(** [s.strip()] *)
Definition strip (s : string) : string := rstrip (lstrip s).

(** [str.lower] on one character: A-Z, and the Latin-1 capitals. *)
Definition lower_char (c : ascii) : ascii :=
  let n := N_of_ascii c in
  if ((65 <=? n) && (n <=? 90)
      || (192 <=? n) && (n <=? 222) && negb (n =? 215))%N
  then ascii_of_N (n + 32) else c.

Fixpoint lower (s : string) : string :=
  match s with
  | String c s' => String (lower_char c) (lower s')
  | EmptyString => EmptyString
  end.

(** [s.startswith(p)] *)
Definition startswith (s p : string) : bool := String.prefix p s.

(** [sep.join(l)] *)
Fixpoint join (sep : string) (l : list string) : string :=
  match l with
  | [] => EmptyString
  | [x] => x
  | x :: l' => x +:+ sep +:+ join sep l'
  end.

(** The maximal runs of non-space characters ([re.findall(r"\S+", s)]).
    [cur] is the run being read, reversed. *)
Fixpoint split_ws_aux (cur : list ascii) (s : string) : list string :=
  let flush rest :=
    match cur with
    | [] => rest
    | _ => string_of_list_ascii (rev cur) :: rest
    end in
  match s with
  | EmptyString => flush []
  | String c s' =>
      if isspace c then flush (split_ws_aux [] s')
      else split_ws_aux (c :: cur) s'
  end.

Definition split_ws (s : string) : list string := split_ws_aux [] s.

(** [str(n)] for an integer. *)
Definition str_of_int (n : Z) : string := NilZero.string_of_int (Z.to_int n).

End Py.

(** ** JSON documents *)

#[warnings="-register-all"]
Inductive json : Type :=
| JNull
| JBool (b : bool)
| JInt (n : Z)
| JStr (s : string)
| JArr (l : list json)
| JObj (d : list (string * json)).

(** *** Dictionaries: [k in d], [d[k]], [d[k] = v] *)

Section Dict.
Context {V : Type}.

Fixpoint dict_get (k : string) (d : list (string * V)) : option V :=
  match d with
  | [] => None
  | (k', v) :: d' => if String.eqb k k' then Some v else dict_get k d'
  end.

Definition dict_mem (k : string) (d : list (string * V)) : bool :=
  match dict_get k d with Some _ => true | None => false end.

(** Assignment keeps the position of a key already present and appends a
    new key at the end. *)
Fixpoint dict_set (k : string) (v : V) (d : list (string * V))
  : list (string * V) :=
  match d with
  | [] => [(k, v)]
  | (k', v') :: d' =>
      if String.eqb k k' then (k', v) :: d' else (k', v') :: dict_set k v d'
  end.

(** [dict(pairs)]: later pairs override earlier ones. *)
Definition dict_of_pairs (l : list (string * V)) : list (string * V) :=
  fold_left (fun d kv => dict_set (fst kv) (snd kv) d) l [].

End Dict.

(** Keys are unique at every level: the invariant of a Python [dict]. *)
Fixpoint wf (j : json) : bool :=
  match j with
  | JArr l => forallb wf l
  | JObj d =>
      bool_decide (NoDup (map fst d))
      && forallb (fun kv => let '(_, v) := kv in wf v) d
  | _ => true
  end.

(** *** [json.dumps] (default separators, [ensure_ascii]) *)

Module Json.

Definition hex_digit (n : N) : ascii :=
  (if n <? 10 then ascii_of_N (48 + n) else ascii_of_N (87 + n))%N.

(** One character of a string literal, as [encode_basestring_ascii]
    writes it. *)
Definition escape_char (c : ascii) : string :=
  let n := N_of_ascii c in
  if Ascii.eqb c Py.dquote then String Py.backslash (String Py.dquote EmptyString)
  else if Ascii.eqb c Py.backslash then String Py.backslash (String Py.backslash EmptyString)
  else if (n =? 8)%N then String Py.backslash "b"
  else if (n =? 12)%N then String Py.backslash "f"
  else if (n =? 10)%N then String Py.backslash "n"
  else if (n =? 13)%N then String Py.backslash "r"
  else if (n =? 9)%N then String Py.backslash "t"
  else if ((n <? 32) || (126 <? n))%N then
    String Py.backslash
      (String "u" (String "0" (String "0"
         (String (hex_digit (n / 16)) (String (hex_digit (n mod 16)) EmptyString)))))
  else String c EmptyString.

Fixpoint escape (s : string) : string :=
  match s with
  | EmptyString => EmptyString
  | String c s' => escape_char c +:+ escape s'
  end.

Definition encode_str (s : string) : string :=
  String Py.dquote (escape s +:+ String Py.dquote EmptyString).

Fixpoint dumps (j : json) : string :=
  match j with
  | JNull => "null"
  | JBool true => "true"
  | JBool false => "false"
  | JInt n => Py.str_of_int n
  | JStr s => encode_str s
  | JArr l => "[" +:+ Py.join ", " (map dumps l) +:+ "]"
  | JObj d =>
      "{" +:+ Py.join ", "
                (map (fun kv => let '(k, v) := kv in
                                encode_str k +:+ ": " +:+ dumps v) d)
          +:+ "}"
  end.

(** *** [json.loads] *)

Definition is_ws (c : ascii) : bool :=
  let n := N_of_ascii c in ((n =? 32) || (n =? 9) || (n =? 10) || (n =? 13))%N.

Fixpoint skip_ws (s : string) : string :=
  match s with
  | String c s' => if is_ws c then skip_ws s' else s
  | EmptyString => EmptyString
  end.

Definition hex_val (c : ascii) : option N :=
  let n := N_of_ascii c in
  (if (48 <=? n) && (n <=? 57) then Some (n - 48)
   else if (97 <=? n) && (n <=? 102) then Some (n - 87)
   else if (65 <=? n) && (n <=? 70) then Some (n - 55)
   else None)%N.

(** The character an escape stands for; [None] for an unknown escape. *)
Definition unescape (c : ascii) : option ascii :=
  if Ascii.eqb c Py.dquote then Some Py.dquote
  else if Ascii.eqb c Py.backslash then Some Py.backslash
  else match c with
       | "/" => Some "/"
       | "b" => Some "008"
       | "f" => Some "012"
       | "n" => Some "010"
       | "r" => Some "013"
       | "t" => Some "009"
       | _ => None
       end%char.

(** What reading a piece of text gives: a value; [Malformed], where the
    decoder raises its error; or [Beyond], where the text has a literal the
    embedding has no value for (a float, a character above 255) and
    nothing is said about the decoder. *)
Inductive reading (A : Type) : Type :=
| Read (a : A)
| Malformed
| Beyond.
Arguments Read {A} a.
Arguments Malformed {A}.
Arguments Beyond {A}.

Definition and_then {A B} (r : reading A) (k : A -> reading B) : reading B :=
  match r with
  | Read a => k a
  | Malformed => Malformed
  | Beyond => Beyond
  end.

(** The body of a string literal, after its opening quote (strict mode:
    a raw control character is an error). *)
Fixpoint scan_string (s : string) : reading (string * string) :=
  match s with
  | EmptyString => Malformed
  | String c s' =>
      if Ascii.eqb c Py.dquote then Read (EmptyString, s')
      else if Ascii.eqb c Py.backslash then
        match s' with
        | String "u" (String h3 (String h2 (String h1 (String h0 s'')))) =>
            match hex_val h3, hex_val h2, hex_val h1, hex_val h0 with
            | Some a, Some b, Some c1, Some d =>
                let n := (((a * 16 + b) * 16 + c1) * 16 + d)%N in
                if (n <? 256)%N then
                  and_then (scan_string s'') (fun '(r, rest) =>
                  Read (String (ascii_of_N n) r, rest))
                else Beyond
            | _, _, _, _ => Malformed
            end
        | String e s'' =>
            match unescape e with
            | Some c' =>
                and_then (scan_string s'') (fun '(r, rest) =>
                Read (String c' r, rest))
            | None => Malformed
            end
        | EmptyString => Malformed
        end
      else if (N_of_ascii c <? 32)%N then Malformed
      else
        and_then (scan_string s') (fun '(r, rest) => Read (String c r, rest))
  end.

Definition digit_of (c : ascii) : option (Decimal.uint -> Decimal.uint) :=
  match c with
  | "0" => Some Decimal.D0 | "1" => Some Decimal.D1 | "2" => Some Decimal.D2
  | "3" => Some Decimal.D3 | "4" => Some Decimal.D4 | "5" => Some Decimal.D5
  | "6" => Some Decimal.D6 | "7" => Some Decimal.D7 | "8" => Some Decimal.D8
  | "9" => Some Decimal.D9 | _ => None
  end%char.

(** The longest run of decimal digits at the head of [s]. *)
Fixpoint read_digits (s : string) : Decimal.uint * string :=
  match s with
  | String c s' =>
      match digit_of c with
      | Some d => let '(u, r) := read_digits s' in (d u, r)
      | None => (Decimal.Nil, s)
      end
  | EmptyString => (Decimal.Nil, EmptyString)
  end.

(** The rest of [s] after the character [c], when [s] starts with it. *)
Definition expect (c : ascii) (s : string) : option string :=
  match s with
  | String c' r => if Ascii.eqb c' c then Some r else None
  | EmptyString => None
  end.

(** The rest of [s] after the word [p], when [s] starts with it. *)
Fixpoint strip_prefix (p s : string) : option string :=
  match p with
  | EmptyString => Some s
  | String c p' =>
      match expect c s with
      | Some s' => strip_prefix p' s'
      | None => None
      end
  end.

Definition starts_float_tail (r : string) : bool :=
  match r with
  | String c _ => Ascii.eqb c "." || Ascii.eqb c "e" || Ascii.eqb c "E"
  | EmptyString => false
  end.

(** An integer literal: a lone zero, or digits that start with a non-zero
    one.  A fraction or an exponent after it makes the literal a float. *)
Definition scan_uint (s : string) : reading (Decimal.uint * string) :=
  let '(u, r) := read_digits s in
  match u with
  | Decimal.Nil => Malformed
  | Decimal.D0 Decimal.Nil =>
      if starts_float_tail r then Beyond else Read (u, r)
  | Decimal.D0 _ => Malformed
  | _ => if starts_float_tail r then Beyond else Read (u, r)
  end.

Definition scan_number (s : string) : reading (json * string) :=
  match expect "-" s with
  | Some s' =>
      match strip_prefix "Infinity" s' with
      | Some _ => Beyond
      | None =>
          and_then (scan_uint s') (fun '(u, r) =>
          Read (JInt (Z.of_int (Decimal.Neg u)), r))
      end
  | None =>
      and_then (scan_uint s) (fun '(u, r) =>
      Read (JInt (Z.of_int (Decimal.Pos u)), r))
  end.

Definition scan_literal (s : string) : reading (json * string) :=
  match strip_prefix "null" s with
  | Some r => Read (JNull, r)
  | None =>
      match strip_prefix "true" s with
      | Some r => Read (JBool true, r)
      | None =>
          match strip_prefix "false" s with
          | Some r => Read (JBool false, r)
          | None =>
              match strip_prefix "NaN" s, strip_prefix "Infinity" s with
              | None, None => scan_number s
              | _, _ => Beyond
              end
          end
      end
  end.

(** [scan_once], [JSONArray] and [JSONObject]; [fuel] bounds the nesting
    and the number of items. *)
Fixpoint parse_value (fuel : nat) (s : string) : reading (json * string) :=
  match fuel with
  | O => Beyond
  | S fuel =>
      match s with
      | EmptyString => Malformed
      | String c s' =>
          if Ascii.eqb c Py.dquote then
            and_then (scan_string s') (fun '(str, r) => Read (JStr str, r))
          else if Ascii.eqb c "[" then
            let s1 := skip_ws s' in
            match expect "]" s1 with
            | Some r => Read (JArr [], r)
            | None =>
                and_then (parse_elems fuel s1) (fun '(l, r) =>
                Read (JArr l, r))
            end
          else if Ascii.eqb c "{" then
            let s1 := skip_ws s' in
            match expect "}" s1 with
            | Some r => Read (JObj [], r)
            | None =>
                and_then (parse_members fuel s1) (fun '(l, r) =>
                Read (JObj (dict_of_pairs l), r))
            end
          else scan_literal s
      end
  end
with parse_elems (fuel : nat) (s : string) : reading (list json * string) :=
  match fuel with
  | O => Beyond
  | S fuel =>
      and_then (parse_value fuel s) (fun '(v, s1) =>
      let s2 := skip_ws s1 in
      match expect "]" s2 with
      | Some r => Read ([v], r)
      | None =>
          match expect "," s2 with
          | Some r =>
              and_then (parse_elems fuel (skip_ws r)) (fun '(l, r') =>
              Read (v :: l, r'))
          | None => Malformed
          end
      end)
  end
with parse_members (fuel : nat) (s : string)
  : reading (list (string * json) * string) :=
  match fuel with
  | O => Beyond
  | S fuel =>
      match expect Py.dquote s with
      | Some s0 =>
          and_then (scan_string s0) (fun '(k, s1) =>
          match expect ":" (skip_ws s1) with
          | Some s2 =>
              and_then (parse_value fuel (skip_ws s2)) (fun '(v, s3) =>
              let s4 := skip_ws s3 in
              match expect "}" s4 with
              | Some r => Read ([(k, v)], r)
              | None =>
                  match expect "," s4 with
                  | Some r =>
                      and_then (parse_members fuel (skip_ws r))
                        (fun '(l, r') => Read ((k, v) :: l, r'))
                  | None => Malformed
                  end
              end)
          | None => Malformed
          end)
      | None => Malformed
      end
  end.

(** [json.loads]: one value, whitespace around it, nothing else. *)
Definition loads (s : string) : reading json :=
  and_then (parse_value (S (String.length s)) (skip_ws s)) (fun '(j, r) =>
  match skip_ws r with
  | EmptyString => Read j
  | _ => Malformed
  end).

(** The fuel [parse_value] needs to read back [dumps j]. *)
Fixpoint weight (j : json) : nat :=
  match j with
  | JArr l => S (fold_right (fun x acc => S (weight x + acc)) O l)
  | JObj d =>
      S (fold_right (fun kv acc => let '(_, v) := kv in S (weight v + acc)) O d)
  | _ => 1
  end.

Definition elems_weight (l : list json) : nat :=
  fold_right (fun x acc => S (weight x + acc)) O l.

Definition members_weight (d : list (string * json)) : nat :=
  fold_right (fun kv acc => let '(_, v) := kv in S (weight v + acc)) O d.

(** One member of a printed object. *)
Definition dump_member (kv : string * json) : string :=
  let '(k, v) := kv in encode_str k +:+ ": " +:+ dumps v.

(** What can follow a value in a printed document. *)
Definition closes (rest : string) : Prop :=
  match rest with
  | EmptyString => True
  | String c _ => c = ","%char \/ c = "]"%char \/ c = "}"%char
  end.

(** A string that does not start with a digit. *)
Definition no_digit (rest : string) : Prop :=
  match rest with
  | EmptyString => True
  | String c _ => digit_of c = None
  end.

(** A printed integer starts with a sign or a digit. *)
Definition starts_number (s : string) : Prop :=
  match s with
  | EmptyString => False
  | String c _ => c = "-"%char \/ digit_of c <> None
  end.

(** The first character of [s] starts a value: it is no whitespace and no
    delimiter. *)
Definition opens (s : string) : Prop :=
  match s with
  | EmptyString => False
  | String c _ =>
      is_ws c = false /\ c <> "]"%char /\ c <> "}"%char /\ c <> ","%char
  end.

(** [parse_value] reads [x] back from its printed form, whatever follows. *)
Definition reads_back (x : json) : Prop :=
  wf x = true ->
  forall n rest, (weight x <= n)%nat -> closes rest ->
  parse_value n (dumps x +:+ rest) = Read (x, rest).

End Json.

(** ** Outcomes and the world *)

(** The exceptions the program can meet.  [JSONDecodeError] and
    [UnicodeDecodeError] are subclasses of [ValueError] in Python.
    [OutsideModel] is no exception of Python: it marks the runs the
    embedding does not follow (a document with a literal that has no value
    here, a postal code that is no text). *)
Inductive exn : Type :=
| JSONDecodeError | UnicodeDecodeError | ValueError
| TypeError | KeyError | IndexError | AttributeError
| URLError | OutsideModel.

Inductive result (A : Type) : Type :=
| Ok (a : A)
| Raise (e : exn).
Arguments Ok {A} a.
Arguments Raise {A} e.

(** [files]: the text of every file that exists; [requests]: the URLs
    opened so far, oldest first; [stdout]: the lines printed so far. *)
Record world : Type := World {
  files : gmap string string;
  requests : list string;
  stdout : list string
}.

Definition set_files (f : gmap string string) (w : world) : world :=
  {| files := f; requests := requests w; stdout := stdout w |}.

(** Computations: an outcome and the world they leave, which keeps the
    effects made before an exception. *)
Definition M (A : Type) : Type := world -> result A * world.

Definition ret {A} (a : A) : M A := fun w => (Ok a, w).
Definition raise {A} (e : exn) : M A := fun w => (Raise e, w).
Definition lift {A} (r : result A) : M A := fun w => (r, w).
Definition bind {A B} (m : M A) (k : A -> M B) : M B :=
  fun w =>
    match m w with
    | (Ok a, w') => k a w'
    | (Raise e, w') => (Raise e, w')
    end.

Notation "x <- m ;; k" := (bind m (fun x => k))
  (at level 100, m at next level, right associativity).
Notation "m ;;; k" := (bind m (fun _ => k))
  (at level 100, right associativity).

Definition rbind {A B} (r : result A) (k : A -> result B) : result B :=
  match r with
  | Ok a => k a
  | Raise e => Raise e
  end.

(** [print(line)] *)
Definition print (line : string) : M unit :=
  fun w => (Ok tt, {| files := files w; requests := requests w;
                      stdout := stdout w ++ [line] |}).

(** ** Python operations on documents *)

(** [len(x)] *)
Definition py_len (x : json) : result Z :=
  match x with
  | JObj d => Ok (Z.of_nat (length d))
  | JArr l => Ok (Z.of_nat (length l))
  | JStr s => Ok (Z.of_nat (String.length s))
  | _ => Raise TypeError
  end.

(** [p in s] on strings. *)
Fixpoint is_substring (p s : string) : bool :=
  String.prefix p s
  || match s with
     | EmptyString => false
     | String _ s' => is_substring p s'
     end.

Definition is_str (k : string) (x : json) : bool :=
  match x with
  | JStr s => String.eqb s k
  | _ => false
  end.

(** [k in x] for a string [k]: a key of a dictionary, an element of a
    list, a substring of a string. *)
Definition py_contains (k : string) (x : json) : result bool :=
  match x with
  | JObj d => Ok (dict_mem k d)
  | JArr l => Ok (existsb (is_str k) l)
  | JStr s => Ok (is_substring k s)
  | _ => Raise TypeError
  end.

(** [x[k]] for a string [k]. *)
Definition py_getitem (x : json) (k : string) : result json :=
  match x with
  | JObj d =>
      match dict_get k d with
      | Some v => Ok v
      | None => Raise KeyError
      end
  | _ => Raise TypeError
  end.

(** [x[k] = v] for a string [k]; the updated object. *)
Definition py_setitem (x : json) (k : string) (v : json) : result json :=
  match x with
  | JObj d => Ok (JObj (dict_set k v d))
  | _ => Raise TypeError
  end.

(** [l[i]] on a list: a negative index counts from the end. *)
Definition list_getitem {A} (l : list A) (i : Z) : result A :=
  let n := Z.of_nat (length l) in
  let i' := if i <? 0 then i + n else i in
  if (i' <? 0) || (n <=? i') then Raise IndexError
  else match l !! Z.to_nat i' with
       | Some a => Ok a
       | None => Raise IndexError
       end.

Definition digit_val (c : ascii) : option Z :=
  let n := N_of_ascii c in
  if ((48 <=? n) && (n <=? 57))%N then Some (Z.of_N n - 48) else None.

(** The digits of an integer literal, single underscores allowed between
    digits.  [after_digit] tells whether the previous character was a
    digit. *)
Fixpoint int_digits (acc : Z) (after_digit : bool) (s : string) : option Z :=
  match s with
  | EmptyString => if after_digit then Some acc else None
  | String c s' =>
      match digit_val c with
      | Some d => int_digits (acc * 10 + d) true s'
      | None =>
          if Ascii.eqb c "_" && after_digit then int_digits acc false s'
          else None
      end
  end.

(** [int(s)]: [None] stands for [ValueError]. *)
Definition py_int (s : string) : option Z :=
  match Py.strip s with
  | String "-" s' => option_map Z.opp (int_digits 0 false s')
  | String "+" s' => int_digits 0 false s'
  | s' => int_digits 0 false s'
  end.

(** ** The class [NationalSite] *)

Record NationalSite : Type := mkNationalSite {
  category : json;
  name : json;
  address : json;
  zipcode : json;
  phone : json
}.

(** [a + b] on strings; any other operand is a [TypeError]. *)
Definition py_add (a : result json) (b : json) : result json :=
  match a, b with
  | Ok (JStr x), JStr y => Ok (JStr (x +:+ y))
  | Raise e, _ => Raise e
  | _, _ => Raise TypeError
  end.

Definition info (self : NationalSite) : result json :=
  py_add (py_add (py_add (py_add (py_add
    (py_add (Ok (name self)) (JStr " (")) (category self)) (JStr "): "))
    (address self)) (JStr " ")) (zipcode self).

(** ** Parsed pages *)

#[warnings="-register-all"]
Inductive node : Type :=
| Text (s : string)
| Tag (tname : string) (attrs : list (string * string)) (contents : list node).

Module Bs4.

Definition children (n : node) : list node :=
  match n with
  | Tag _ _ kids => kids
  | Text _ => []
  end.

(** Everything below [n], in document order. *)
Fixpoint descendants (n : node) : list node :=
  match n with
  | Text _ => []
  | Tag _ _ kids => flat_map (fun k => k :: descendants k) kids
  end.

Definition descendants_of (forest : list node) : list node :=
  flat_map (fun k => k :: descendants k) forest.

(** [n.text]: the strings below [n], concatenated. *)
Fixpoint text (n : node) : string :=
  match n with
  | Text s => s
  | Tag _ _ kids => fold_right (fun k acc => text k +:+ acc) EmptyString kids
  end.

(** [n.get(k)] *)
Definition get (n : node) (k : string) : option string :=
  match n with
  | Tag _ a _ => dict_get k a
  | Text _ => None
  end.

(** One attribute constraint.  [class] is a multi-valued attribute: the
    wanted value matches one of the classes, or all of them joined by a
    space. *)
Definition attr_matches (n : node) (kv : string * string) : bool :=
  let '(k, want) := kv in
  match get n k with
  | None => false
  | Some val =>
      if String.eqb k "class" then
        let tokens := Py.split_ws val in
        existsb (String.eqb want) tokens
        || String.eqb (Py.join " " tokens) want
      else String.eqb val want
  end.

Definition matches (tn : string) (flt : list (string * string)) (n : node)
  : bool :=
  match n with
  | Tag nm _ _ => String.eqb nm tn && forallb (attr_matches n) flt
  | Text _ => false
  end.

(** [findAll(tn, flt)] and [find(tn, flt)] below a forest. *)
Definition find_all (tn : string) (flt : list (string * string))
  (forest : list node) : list node :=
  List.filter (matches tn flt) (descendants_of forest).

Definition find (tn : string) (flt : list (string * string))
  (forest : list node) : option node :=
  head (find_all tn flt forest).

End Bs4.

(** [x.find(...)] where [x] may be [None]. *)
Definition find_in (x : option node) (tn : string)
  (flt : list (string * string)) : result (option node) :=
  match x with
  | Some n => Ok (Bs4.find tn flt (Bs4.children n))
  | None => Raise AttributeError
  end.

(** [x.text] where [x] may be [None]. *)
Definition text_of (x : option node) : result string :=
  match x with
  | Some n => Ok (Bs4.text n)
  | None => Raise AttributeError
  end.

(** [x[k]] on a tag, where [x] may be [None]. *)
Definition attr_of (x : option node) (k : string) : result string :=
  match x with
  | Some n =>
      match Bs4.get n k with
      | Some v => Ok v
      | None => Raise KeyError
      end
  | None => Raise TypeError
  end.

(** ** The program *)

(** What the program takes from outside: the tree builder of
    [BeautifulSoup(markup, features)], the servers (the answer to a request
    may depend on the requests made before it; it is the decoded body or
    the exception the request ends in) and [secrets.API_KEY]. *)
Class Env : Type := {
  BeautifulSoup : option string -> string -> list node;
  remote : list string -> string -> result string;
  API_KEY : string
}.

(** *** The cache files *)

Definition openCache (filename : string) : M json :=
  fun w =>
    match files w !! filename with
    | None => (Ok (JObj []), w)
    | Some doc =>
        match Json.loads doc with
        | Json.Read j => (Ok j, w)
        | Json.Malformed => (Raise JSONDecodeError, w)
        | Json.Beyond => (Raise OutsideModel, w)
        end
    end.

(** [open(filename, "w")] creates the file or empties it. *)
Definition open_w (filename : string) (fs : gmap string string)
  : gmap string string :=
  <[filename := EmptyString]> fs.

(** [f.write(chunk)] appends to the file. *)
Definition write (filename chunk : string) (fs : gmap string string)
  : gmap string string :=
  <[filename := default EmptyString (fs !! filename) +:+ chunk]> fs.

Definition closeCache (cache : json) (filename : string) : M unit :=
  fun w =>
    (Ok tt,
     set_files (write filename (Json.dumps cache) (open_w filename (files w))) w).

(** The file system when [closeCache] stops after the file was opened and
    the first [k] characters of the document were written. *)
Definition closeCache_interrupted (k : nat) (cache : json) (filename : string)
  (fs : gmap string string) : gmap string string :=
  write filename (String.substring 0 k (Json.dumps cache)) (open_w filename fs).

Section Program.
Context `{env : Env}.

(** [urlopen(url)], [read()] and [decode("utf-8")]. *)
Definition urlopen_read (url : string) : M string :=
  fun w =>
    (remote (requests w) url,
     {| files := files w; requests := requests w ++ [url];
        stdout := stdout w |}).

(** *** build_state_url_dict *)

Definition STATE_URL_DICT : string := "STATE_URL_DICT.json".
Definition TARGET_URL : string := "https://www.nps.gov/findapark/index.htm".
Definition BASE_URL : string := "https://www.nps.gov".

(** The loop over the [area] tags. *)
Fixpoint state_links (areas : list node) (rd : list (string * json))
  : result (list (string * json)) :=
  match areas with
  | [] => Ok rd
  | area :: rest =>
      rbind (attr_of (Some area) "alt") (fun alt =>
      rbind (attr_of (Some area) "href") (fun href =>
      state_links rest (dict_set (Py.lower alt) (JStr (BASE_URL +:+ href)) rd)))
  end.

Definition build_state_url_dict : M json :=
  cache <- openCache STATE_URL_DICT ;;
  n <- lift (py_len cache) ;;
  if negb (n =? 0) then
    print "Using cache" ;;;
    ret cache
  else
    print "Fetching" ;;;
    html <- urlopen_read TARGET_URL ;;
    let bs := BeautifulSoup (Some "html.parser"%string) html in
    rd <- lift (state_links (Bs4.find_all "area" [] bs) []) ;;
    closeCache (JObj rd) STATE_URL_DICT ;;;
    ret (JObj rd).

(** *** get_site_instance *)

Definition SITE_URL_DICT : string := "SITE_URL_DICT.json".

Definition get_site_instance (site_url : string) : M (option NationalSite) :=
  cache <- openCache SITE_URL_DICT ;;
  hit <- lift (py_contains site_url cache) ;;
  if hit : bool then
    c <- lift (py_getitem cache site_url) ;;
    print "Using Cache" ;;;
    c_category <- lift (py_getitem c "category") ;;
    c_name <- lift (py_getitem c "name") ;;
    c_address <- lift (py_getitem c "address") ;;
    c_zipcode <- lift (py_getitem c "zipcode") ;;
    c_phone <- lift (py_getitem c "phone") ;;
    ret (Some (mkNationalSite c_category c_name c_address c_zipcode c_phone))
  else
    print "Fetching" ;;;
    html <- urlopen_read site_url ;;
    let bs := BeautifulSoup (Some "html.parser"%string) html in
    let titleContainer :=
      Bs4.find "div" [("class", "Hero-titleContainer clearfix")]%string bs in
    title_a <- lift (find_in titleContainer "a" []) ;;
    name <- lift (text_of title_a) ;;
    designation <-
      lift (find_in titleContainer "span" [("class", "Hero-designation")]%string) ;;
    category <- lift (text_of designation) ;;
    let address_p := Bs4.find "p" [("class", "adr")]%string bs in
    match address_p with
    | None => ret None
    | Some _ =>
        addr <- lift (find_in address_p "span"
                        [("itemprop", "addressLocality")]%string) ;;
        state <- lift (find_in address_p "span"
                         [("itemprop", "addressRegion")]%string) ;;
        postalCode <- lift (find_in address_p "span"
                              [("itemprop", "postalCode")]%string) ;;
        postal_text <- lift (text_of postalCode) ;;
        let zip_code := Py.strip postal_text in
        addr_text <- lift (text_of addr) ;;
        state_text <- lift (text_of state) ;;
        let address := addr_text +:+ ", " +:+ Py.strip state_text in
        phone_text <-
          lift (text_of (Bs4.find "span" [("itemprop", "telephone")]%string bs)) ;;
        let telephone := Py.strip phone_text in
        let ns := mkNationalSite (JStr category) (JStr name) (JStr address)
                    (JStr zip_code) (JStr telephone) in
        cache' <- lift (py_setitem cache site_url
                          (JObj [("category", JStr category);
                                 ("name", JStr name);
                                 ("address", JStr address);
                                 ("zipcode", JStr zip_code);
                                 ("phone", JStr telephone)]%string)) ;;
        closeCache cache' SITE_URL_DICT ;;;
        ret (Some ns)
    end.

(** *** get_sites_for_state *)

(** The loop over the blocks; [nationalSites] is the list built so far. *)
Fixpoint sites_of_blocks (blocks : list node)
  (nationalSites : list NationalSite) : M (list NationalSite) :=
  match blocks with
  | [] => ret nationalSites
  | block :: rest =>
      match Bs4.get block "id" with
      | None => sites_of_blocks rest nationalSites
      | Some id =>
          if negb (Py.startswith id "asset") then
            sites_of_blocks rest nationalSites
          else
            div <- lift (find_in (Some block) "div" []) ;;
            h3 <- lift (find_in div "h3" []) ;;
            a <- lift (find_in h3 "a" []) ;;
            href <- lift (attr_of a "href") ;;
            let park_url := BASE_URL +:+ href in
            nationalSite <- get_site_instance park_url ;;
            match nationalSite with
            | Some ns => sites_of_blocks rest (nationalSites ++ [ns])
            | None => sites_of_blocks rest nationalSites
            end
      end
  end.

Definition get_sites_for_state (state_url : string) : M (list NationalSite) :=
  html <- urlopen_read state_url ;;
  let bs := BeautifulSoup None html in
  let blocks := Bs4.find_all "li" [("class", "clearfix")]%string bs in
  sites_of_blocks blocks [].

(** *** get_nearby_places *)

Definition NEARBY_PLACES : string := "NEARBY_PLACES.json".
Definition RADIUS_URL : string := "http://www.mapquestapi.com/search/v2/radius".

Definition radius_request (origin : string) : string :=
  RADIUS_URL +:+ "?" +:+ "key=" +:+ API_KEY
    +:+ "&maxMatches=" +:+ Py.str_of_int 10
    +:+ "&origin=" +:+ origin
    +:+ "&radius=" +:+ Py.str_of_int 10
    +:+ "&ambiguities=" +:+ "ignore" +:+ "&outFormat=" +:+ "json".

(** The postal code of the site is text (the class has it a string).  With
    any other value as the key the embedding stops. *)
Definition get_nearby_places (site_object : NationalSite) : M json :=
  match zipcode site_object with
  | JStr origin =>
      cache <- openCache NEARBY_PLACES ;;
      hit <- lift (py_contains origin cache) ;;
      if hit : bool then
        print "Using Cache" ;;;
        lift (py_getitem cache origin)
      else
        print "Fetching" ;;;
        js <- urlopen_read (radius_request origin) ;;
        match Json.loads js with
        | Json.Malformed => raise JSONDecodeError
        | Json.Beyond => raise OutsideModel
        | Json.Read d =>
            cache' <- lift (py_setitem cache origin d) ;;
            closeCache cache' NEARBY_PLACES ;;;
            ret d
        end
  | _ => raise OutsideModel
  end.

(** *** main: the choice of a site *)

(** The [except ValueError] clause of the selection loop. *)
Definition caught_by_main (e : exn) : bool :=
  match e with
  | ValueError | JSONDecodeError | UnicodeDecodeError => true
  | _ => false
  end.

(** Lines 235-238: [id = int(token)], the upper check and the lookup. *)
Definition main_select (token : string) (nationalStates : list NationalSite)
  : result NationalSite :=
  match py_int token with
  | None => Raise ValueError
  | Some id =>
      if Z.of_nat (length nationalStates) <? id then Raise ValueError
      else list_getitem nationalStates (id - 1)
  end.

End Program.

(** ** Notions the properties are stated with *)

(** The world after [closeCache] ran to its end. *)
Definition written (cache : json) (filename : string) (w : world) : world :=
  snd (closeCache cache filename w).

(** The world after a request to [url]. *)
Definition requested (url : string) (w : world) : world :=
  {| files := files w; requests := requests w ++ [url]; stdout := stdout w |}.

(** The world after [line] was printed. *)
Definition printed (line : string) (w : world) : world :=
  {| files := files w; requests := requests w; stdout := stdout w ++ [line] |}.

Fixpoint last_char (c : ascii) (s : string) : ascii :=
  match s with
  | EmptyString => c
  | String c' s' => last_char c' s'
  end.

(** No whitespace at either end. *)
Definition is_trimmed (s : string) : bool :=
  match s with
  | EmptyString => true
  | String c r => negb (Py.isspace c) && negb (Py.isspace (last_char c r))
  end.

(** The five fields a site is stored with. *)
Definition site_fields (ns : NationalSite) : json :=
  JObj [("category", category ns); ("name", name ns);
        ("address", address ns); ("zipcode", zipcode ns);
        ("phone", phone ns)]%string.

(** A list entry of a state page carries the asset marker. *)
Definition is_asset (block : node) : bool :=
  match Bs4.get block "id" with
  | Some id => Py.startswith id "asset"
  | None => false
  end.

(** The detail-page link nested in an entry. *)
Definition park_link (block : node) : result string :=
  rbind (find_in (Some block) "div" []) (fun div =>
  rbind (find_in div "h3" []) (fun h3 =>
  rbind (find_in h3 "a" []) (fun a =>
  rbind (attr_of a "href") (fun href =>
  Ok (BASE_URL +:+ href))))).

Fixpoint park_links (blocks : list node) : result (list string) :=
  match blocks with
  | [] => Ok []
  | block :: rest =>
      rbind (park_link block) (fun u =>
      rbind (park_links rest) (fun us => Ok (u :: us)))
  end.

(** The postal code [z] is a key of the nearby-places cache of [w]. *)
Definition zip_cached (z : string) (w : world) : bool :=
  match fst (openCache NEARBY_PLACES w) with
  | Ok c =>
      match py_contains z c with
      | Ok b => b
      | Raise _ => false
      end
  | Raise _ => false
  end.

Section Resolution.
Context `{env : Env}.

(** The detail pages resolved one after the other, in order. *)
Fixpoint resolve_each (urls : list string) : M (list (option NationalSite)) :=
  match urls with
  | [] => ret []
  | u :: us =>
      r <- get_site_instance u ;;
      rs <- resolve_each us ;;
      ret (r :: rs)
  end.

End Resolution.

(** ** What a computation does to the world *)

(** [m] leaves every file as it was. *)
Definition reads_only {A} (m : M A) : Prop :=
  forall w, files (snd (m w)) = files w.

(** [m] leaves every file as it was whenever it ends in an exception. *)
Definition fails_clean {A} (m : M A) : Prop :=
  forall w e, fst (m w) = Raise e -> files (snd (m w)) = files w.

(** [m] changes no file but [filename]. *)
Definition writes_only (filename : string) {A} (m : M A) : Prop :=
  forall w g, g <> filename -> files (snd (m w)) !! g = files w !! g.

(** [m] keeps what was requested and printed and only adds to it. *)
Definition log_grows {A} (m : M A) : Prop :=
  forall w,
    requests w `prefix_of` requests (snd (m w))
    /\ stdout w `prefix_of` stdout (snd (m w)).

(** [m] opens no URL. *)
Definition offline {A} (m : M A) : Prop :=
  forall w, requests (snd (m w)) = requests w.

(** The stored entry [c] has the five fields of [ns]. *)
Definition holds_site (c : json) (ns : NationalSite) : Prop :=
  py_getitem c "category" = Ok (category ns)
  /\ py_getitem c "name" = Ok (name ns)
  /\ py_getitem c "address" = Ok (address ns)
  /\ py_getitem c "zipcode" = Ok (zipcode ns)
  /\ py_getitem c "phone" = Ok (phone ns).

(** ** main *)

(** [str(x)] for a text, as [print] applies it to its arguments.  The
    program prints no other value: on one the embedding stops. *)
Definition py_str_text (x : json) : result string :=
  match x with
  | JStr s => Ok s
  | _ => Raise OutsideModel
  end.

(** [for item in x]: the elements of a list, the keys of a dictionary,
    the characters of a string. *)
Fixpoint chars_of (s : string) : list json :=
  match s with
  | EmptyString => []
  | String c s' => JStr (String c EmptyString) :: chars_of s'
  end.

Definition py_iter (x : json) : result (list json) :=
  match x with
  | JArr l => Ok l
  | JObj d => Ok (map (fun kv => JStr (fst kv)) d)
  | JStr s => Ok (chars_of s)
  | _ => Raise TypeError
  end.

Definition SEPERATOR : string := "----------------------------------".

(** Lines 249-261: the value of [fields[key]], or [placeholder] when the
    key is missing or its value is the empty string or [None]. *)
Definition field_or (fields : json) (key placeholder : string) : result json :=
  rbind (py_contains key fields) (fun present =>
  if negb present then Ok (JStr placeholder)
  else
    rbind (py_getitem fields key) (fun v =>
    if is_str EmptyString v then Ok (JStr placeholder)
    else match v with
         | JNull => Ok (JStr placeholder)
         | _ => Ok v
         end)).

(** Lines 248-266: the text shown for one search result. *)
Definition place_line (res : json) : result json :=
  rbind (py_getitem res "fields") (fun fields =>
  rbind (field_or fields "group_sic_code_name" "no category") (fun category =>
  rbind (field_or fields "address" "no address") (fun address =>
  rbind (field_or fields "city" "no city") (fun city =>
  rbind (py_add (py_add (Ok address) (JStr ", ")) city) (fun street_address =>
  rbind (py_getitem res "name") (fun name =>
  py_add (py_add (py_add (py_add (Ok name) (JStr " (")) category)
            (JStr "): ")) street_address)))))).

(** The loop over the search results: one line per result. *)
Fixpoint print_places (results : list json) : M unit :=
  match results with
  | [] => ret tt
  | res :: rest =>
      info <- lift (place_line res) ;;
      text <- lift (py_str_text info) ;;
      print ("- " +:+ text) ;;;
      print_places rest
  end.

(** The loop over the sites of a state: site [i] is shown with the
    number [i + 1]. *)
Fixpoint print_sites (i : Z) (nationalStates : list NationalSite) : M unit :=
  match nationalStates with
  | [] => ret tt
  | ns :: rest =>
      line <- lift (info ns) ;;
      text <- lift (py_str_text line) ;;
      print ("[" +:+ Py.str_of_int (i + 1) +:+ "]" +:+ " " +:+ text) ;;;
      print_sites (i + 1) rest
  end.

(** How [main] ends: it returns, an exception leaves it, or [input] finds
    no line to read ([EOFError]). *)
Inductive ending : Type :=
| Returned
| Uncaught (e : exn)
| EndOfInput.

Section Main.
Context `{env : Env}.

(** Lines 221-227: the sites of the chosen state, fetched and listed. *)
Definition list_state (state_dict : json) (token : string)
  : M (list NationalSite) :=
  state_url <- lift (py_getitem state_dict token) ;;
  nationalStates <-
    match state_url with
    | JStr url => get_sites_for_state url
    | _ => raise OutsideModel
    end ;;
  print SEPERATOR ;;;
  print ("List of national sites in" +:+ " " +:+ token) ;;;
  print SEPERATOR ;;;
  print_sites 0 nationalStates ;;;
  ret nationalStates.

(** Lines 239-267: the nearby places of the chosen site. *)
Definition search_near (ns : NationalSite) : M unit :=
  nearJsDict <- get_nearby_places ns ;;
  print SEPERATOR ;;;
  shown_name <- lift (py_str_text (name ns)) ;;
  print ("Places near" +:+ " " +:+ shown_name) ;;;
  print SEPERATOR ;;;
  found <- lift (py_contains "searchResults" nearJsDict) ;;
  if negb found then
    print "No such near results" ;;;
    print SEPERATOR
  else
    searchResults <- lift (py_getitem nearJsDict "searchResults") ;;
    results <- lift (py_iter searchResults) ;;
    print_places results.

(** Lines 235-267: the body of the [try]. *)
Definition detail_search (token : string) (nationalStates : list NationalSite)
  : M unit :=
  ns <- lift (main_select token nationalStates) ;;
  search_near ns.

(** Lines 234-271: the [try] with its [except ValueError] clause. *)
Definition try_detail_search (token : string)
  (nationalStates : list NationalSite) : M unit :=
  fun w =>
    match detail_search token nationalStates w with
    | (Raise e, w') =>
        if caught_by_main e then
          (print "[Error] Invalid input" ;;;
           print EmptyString ;;;
           print SEPERATOR) w'
        else (Raise e, w')
    | (Ok u, w') => (Ok u, w')
    end.

(** The two nested loops of [main], one line of input per turn.  [listed]
    is [None] at the prompt for a state and holds the sites of the chosen
    state at the prompt for a number.  The prompts themselves are not
    recorded in [stdout]. *)
Fixpoint main_loop (state_dict : json) (listed : option (list NationalSite))
  (inputs : list string) (w : world) : ending * world :=
  match inputs with
  | [] => (EndOfInput, w)
  | line :: rest =>
      let token := Py.lower (Py.strip line) in
      match listed with
      | None =>
          if String.eqb token "exit" then (Returned, w)
          else
            match py_contains token state_dict with
            | Raise e => (Uncaught e, w)
            | Ok false =>
                main_loop state_dict None rest
                  (snd (print "[Error] Enter proper state name" w))
            | Ok true =>
                match list_state state_dict token w with
                | (Ok nationalStates, w') =>
                    main_loop state_dict (Some nationalStates) rest w'
                | (Raise e, w') => (Uncaught e, w')
                end
            end
      | Some nationalStates =>
          if String.eqb token "back" then main_loop state_dict None rest w
          else if String.eqb token "exit" then (Returned, w)
          else
            match try_detail_search token nationalStates w with
            | (Ok _, w') => main_loop state_dict (Some nationalStates) rest w'
            | (Raise e, w') => (Uncaught e, w')
            end
      end
  end.

(** [main()], run on the lines [inputs] typed at its prompts. *)
Definition main (inputs : list string) (w : world) : ending * world :=
  match build_state_url_dict w with
  | (Ok state_dict, w') => main_loop state_dict None inputs w'
  | (Raise e, w') => (Uncaught e, w')
  end.

End Main.

(** The world after the [lines] were printed. *)
Definition printed_all (lines : list string) (w : world) : world :=
  {| files := files w; requests := requests w; stdout := stdout w ++ lines |}.

(** The three lines of the [except ValueError] clause. *)
Definition invalid_input_lines : list string :=
  ["[Error] Invalid input"; EmptyString; SEPERATOR]%string.

(** What is shown for the field [key] of a search result: its text, or
    [placeholder] when there is none. *)
Definition slot (fields : list (string * json)) (key placeholder : string)
  : string :=
  match dict_get key fields with
  | Some (JStr (String c s)) => String c s
  | _ => placeholder
  end.

(** The field [key] is missing, [None] or a text. *)
Definition textual (fields : list (string * json)) (key : string) : Prop :=
  match dict_get key fields with
  | None | Some JNull | Some (JStr _) => True
  | Some _ => False
  end.

(** ** A small web to run the program on *)

Module Examples.

Definition span (prop txt : string) : node :=
  Tag "span" [("itemprop", prop)] [Text txt].

Definition title_block (nm designation : string) : node :=
  Tag "div" [("class", "Hero-titleContainer clearfix")]%string
    [Tag "a" [("href", "/")]%string [Text nm];
     Tag "span" [("class", "Hero-designation")]%string [Text designation]].

Definition address_block (city region zip : string) : node :=
  Tag "p" [("class", "adr")]%string
    [span "addressLocality" city; span "addressRegion" region;
     span "postalCode" zip].

(** A complete detail page; the region and the postal code come with
    spaces around them. *)
Definition isro_page : list node :=
  [Tag "html" []
     [title_block "Isle Royale" "National Park";
      Tag "div" [("class", "vcard")]%string
        [address_block "Houghton" " MI " " 49931 ";
         span "telephone" " (906) 482-0984 "]]].

Definition kewe_page : list node :=
  [Tag "html" []
     [title_block "Keweenaw" "National Historical Park";
      address_block "Calumet" "MI" "49913";
      span "telephone" "(906) 337-3168"]].

(** A title and no address block. *)
Definition noco_page : list node :=
  [Tag "html" [] [title_block "North Country" "National Scenic Trail"]].

(** An address block and a telephone, and no title block. *)
Definition untitled_page : list node :=
  [Tag "html" []
     [address_block "Houghton" "MI" "49931"; span "telephone" "555"]].

(** A title and an address block, and no telephone. *)
Definition silent_page : list node :=
  [Tag "html" []
     [title_block "Isle Royale" "National Park";
      address_block "Houghton" "MI" "49931"]].

(** Neither a title nor an address block. *)
Definition bare_page : list node := [Tag "html" [] [Text "moved"]].

Definition entry (id href : string) : node :=
  Tag "li" [("class", "clearfix"); ("id", id)]%string
    [Tag "div" [] [Tag "h3" [] [Tag "a" [("href", href)]%string [Text href]]]].

(** Three asset entries, the second of them without an address block on its
    detail page, and one entry without the marker. *)
Definition mi_page : list node :=
  [Tag "ul" []
     [entry "asset-1" "/isro/index.htm";
      Tag "li" [("class", "clearfix")]%string [Text "notice"];
      entry "asset-2" "/noco/index.htm";
      entry "asset-3" "/kewe/index.htm"]].

Definition isro_url : string := "https://www.nps.gov/isro/index.htm".
Definition kewe_url : string := "https://www.nps.gov/kewe/index.htm".
Definition noco_url : string := "https://www.nps.gov/noco/index.htm".
Definition untitled_url : string := "https://www.nps.gov/untitled/index.htm".
Definition silent_url : string := "https://www.nps.gov/silent/index.htm".
Definition bare_url : string := "https://www.nps.gov/bare/index.htm".
Definition mi_url : string := "https://www.nps.gov/state/mi/index.htm".

Definition web : list (string * list node) :=
  [(isro_url, isro_page); (kewe_url, kewe_page); (noco_url, noco_page);
   (untitled_url, untitled_page); (silent_url, silent_page);
   (bare_url, bare_page); (mi_url, mi_page)].

(** The answer of the radius search. *)
Definition places : json :=
  JObj [("searchResults",
         JArr [JObj [("name", JStr "Ranger Station");
                     ("fields", JObj [("city", JStr "Houghton")])]])]%string.

(** Every page of [web] is served under its address (the markup stands
    for itself and the tree builder looks it up); any other address is
    answered by the radius search. *)
Definition env0 : Env := {|
  BeautifulSoup := fun _ html => default [] (dict_get html web);
  remote := fun _ url =>
    if dict_mem url web then Ok url else Ok (Json.dumps places);
  API_KEY := "KEY"
|}.

(** No file yet, nothing requested, nothing printed. *)
Definition fresh : world := World ∅ [] [].

Definition michigan : json := JObj [("michigan", JStr mi_url)]%string.

Definition isro : NationalSite :=
  mkNationalSite (JStr "National Park") (JStr "Isle Royale")
    (JStr "Houghton, MI") (JStr "49931") (JStr "(906) 482-0984").

Definition kewe : NationalSite :=
  mkNationalSite (JStr "National Historical Park") (JStr "Keweenaw")
    (JStr "Calumet, MI") (JStr "49913") (JStr "(906) 337-3168").

(** A visitor centre with the postal code of [isro]. *)
Definition centre : NationalSite :=
  mkNationalSite (JStr "Visitor Center") (JStr "Houghton")
    (JStr "Houghton, MI") (JStr "49931") (JStr "555").

(** The state directory is cached. *)
Definition with_states : world :=
  World {[ STATE_URL_DICT := Json.dumps michigan ]} [] [].

(** The detail of [isro] is cached. *)
Definition with_isro : world :=
  World {[ SITE_URL_DICT := Json.dumps (JObj [(isro_url, site_fields isro)]) ]}
    [] [].

(** The places near 49931 are cached. *)
Definition with_places : world :=
  World {[ NEARBY_PLACES := Json.dumps (JObj [("49931"%string, places)]) ]}
    [] [].

(** The site cache holds a list, not a mapping. *)
Definition with_list : world := World {[ SITE_URL_DICT := "[1]"%string ]} [] [].

End Examples.

(** ** More pages and worlds *)

Module Sessions.
Import Examples.

Definition area (alt href : string) : node :=
  Tag "area" [("alt", alt); ("href", href)]%string [].

(** The directory page: a map with two areas. *)
Definition directory_page : list node :=
  [Tag "map" []
     [area "Michigan" "/state/mi/index.htm";
      area "Ohio" "/state/oh/index.htm"]].

(** The second area has no link. *)
Definition broken_areas : list node :=
  [area "Michigan" "/state/mi/index.htm";
   Tag "area" [("alt", "Ohio")]%string []].

(** A state page with two asset entries. *)
Definition up_page : list node :=
  [Tag "ul" []
     [entry "asset-1" "/isro/index.htm"; entry "asset-2" "/kewe/index.htm"]].

Definition up_url : string := "https://www.nps.gov/state/up/index.htm".
Definition oh_url : string := "https://www.nps.gov/state/oh/index.htm".

(** The web of [env0] with the directory page and [up_page] added. *)
Definition env1 : Env := {|
  BeautifulSoup := fun features html =>
    if String.eqb html TARGET_URL then directory_page
    else if String.eqb html up_url then up_page
    else BeautifulSoup (Env := env0) features html;
  remote := fun history url =>
    if String.eqb url TARGET_URL || String.eqb url up_url then Ok url
    else remote (Env := env0) history url;
  API_KEY := "KEY"
|}.

Definition directory : list (string * json) :=
  [("michigan", JStr mi_url); ("ohio", JStr oh_url)]%string.

(** The details of [isro] and [kewe] are cached. *)
Definition both : list (string * json) :=
  [(isro_url, site_fields isro); (kewe_url, site_fields kewe)].

Definition with_both : world :=
  World {[ SITE_URL_DICT := Json.dumps (JObj both) ]} [] [].

(** None of the three cache files holds a JSON document. *)
Definition with_broken_caches : world :=
  World (<[ STATE_URL_DICT := "{"%string ]>
           (<[ SITE_URL_DICT := "[1,"%string ]>
              {[ NEARBY_PLACES := "nul"%string ]})) [] [].

(** A search result with a category, an empty address and no city. *)
Definition diner_fields : list (string * json) :=
  [("address", JStr EmptyString); ("city", JNull);
   ("group_sic_code_name", JStr "Food")]%string.

Definition diner : list (string * json) :=
  [("name", JStr "Diner"); ("fields", JObj diner_fields)]%string.

(** A search result whose address is a number. *)
Definition odd_fields : list (string * json) :=
  [("address", JInt 3)]%string.

Definition odd : list (string * json) :=
  [("name", JStr "Odd"); ("fields", JObj odd_fields)]%string.

(** The places cached for 49931: [diner], then [odd]. *)
Definition odd_places : list (string * json) :=
  [("searchResults", JArr [JObj diner; JObj odd])]%string.

Definition with_odd_places : world :=
  World {[ NEARBY_PLACES
           := Json.dumps (JObj [("49931"%string, JObj odd_places)]) ]}
    [] [].

End Sessions.

(** * Properties *)

(** ** Strings *)

Lemma app_String c s t : String c s +:+ t = String c (s +:+ t).
Proof. reflexivity. Qed.

Lemma app_empty_l t : EmptyString +:+ t = t.
Proof. reflexivity. Qed.

Lemma app_empty_r s : s +:+ EmptyString = s.
Proof.
  induction s as [|c s IH]; [reflexivity|].
  rewrite app_String, IH. reflexivity.
Qed.

Lemma app_assoc' s t u : (s +:+ t) +:+ u = s +:+ (t +:+ u).
Proof.
  induction s as [|c s IH]; [reflexivity|].
  rewrite !app_String, IH. reflexivity.
Qed.

Lemma length_app' s t :
  String.length (s +:+ t) = (String.length s + String.length t)%nat.
Proof.
  induction s as [|c s IH]; [reflexivity|].
  rewrite app_String. simpl. rewrite IH. reflexivity.
Qed.

(** ** The printer and the parser *)

Lemma json_ind' (P : json -> Prop) :
  P JNull -> (forall b, P (JBool b)) -> (forall n, P (JInt n)) ->
  (forall s, P (JStr s)) ->
  (forall l, Forall P l -> P (JArr l)) ->
  (forall d, Forall (fun kv => P (snd kv)) d -> P (JObj d)) ->
  forall j, P j.
Proof.
  intros Hnull Hbool Hint Hstr Harr Hobj.
  fix IH 1. intros [|b|n|s|l|d].
  - exact Hnull.
  - apply Hbool.
  - apply Hint.
  - apply Hstr.
  - apply Harr. induction l as [|x l IHl]; constructor; [apply IH | exact IHl].
  - apply Hobj.
    induction d as [|[k v] d IHd]; constructor; [apply IH | exact IHd].
Qed.

Module JsonFacts.
Import Json.

Ltac all_chars c := destruct c as [[] [] [] [] [] [] [] []].

(** *** String literals *)

Lemma scan_escape_char c tail :
  scan_string (escape_char c +:+ tail) =
  and_then (scan_string tail) (fun '(r, rest) => Read (String c r, rest)).
Proof. all_chars c; reflexivity. Qed.

Lemma scan_string_escape s rest :
  scan_string (escape s +:+ String Py.dquote rest) = Read (s, rest).
Proof.
  induction s as [|c s IH]; [reflexivity|].
  simpl escape. rewrite app_assoc', scan_escape_char, IH. reflexivity.
Qed.

(** *** Integer literals *)

Lemma read_digits_stop rest :
  no_digit rest -> read_digits rest = (Decimal.Nil, rest).
Proof.
  destruct rest as [|c r]; simpl; [reflexivity|]. intros ->. reflexivity.
Qed.

Lemma read_digits_print u rest :
  no_digit rest ->
  read_digits (NilEmpty.string_of_uint u +:+ rest) = (u, rest).
Proof.
  intros Hr. induction u; simpl NilEmpty.string_of_uint;
    rewrite ?app_String; simpl; rewrite ?IHu; try reflexivity.
  apply read_digits_stop, Hr.
Qed.

Lemma nzhead_not_D0 u v : Decimal.nzhead u <> Decimal.D0 v.
Proof. induction u; simpl; congruence. Qed.

Lemma unorm_D0_inv u v : Decimal.unorm u = Decimal.D0 v -> v = Decimal.Nil.
Proof.
  unfold Decimal.unorm. pose proof (nzhead_not_D0 u) as H.
  destruct (Decimal.nzhead u); congruence.
Qed.

Lemma to_uint_unorm p : Decimal.unorm (Pos.to_uint p) = Pos.to_uint p.
Proof.
  rewrite <- (DecimalPos.Unsigned.to_of (Pos.to_uint p)),
    DecimalPos.Unsigned.of_to.
  reflexivity.
Qed.

Lemma to_uint_head p v : Pos.to_uint p <> Decimal.D0 v.
Proof.
  intros H. pose proof (to_uint_unorm p) as Hn. rewrite H in Hn.
  apply unorm_D0_inv in Hn. subst v.
  exact (DecimalPos.Unsigned.to_uint_nonzero p H).
Qed.

Lemma closes_no_digit rest : closes rest -> no_digit rest.
Proof.
  destruct rest as [|c r]; simpl; [tauto|].
  intros [->|[->| ->]]; reflexivity.
Qed.

Lemma closes_no_float rest : closes rest -> starts_float_tail rest = false.
Proof.
  destruct rest as [|c r]; simpl; [reflexivity|].
  intros [->|[->| ->]]; reflexivity.
Qed.

Lemma string_of_uint_nonnil u :
  u <> Decimal.Nil -> NilZero.string_of_uint u = NilEmpty.string_of_uint u.
Proof. destruct u; [congruence | reflexivity ..]. Qed.

Lemma scan_uint_print p rest :
  closes rest ->
  scan_uint (NilZero.string_of_uint (Pos.to_uint p) +:+ rest)
  = Read (Pos.to_uint p, rest).
Proof.
  intros Hr. unfold scan_uint.
  rewrite string_of_uint_nonnil by apply DecimalPos.Unsigned.to_uint_nonnil.
  rewrite read_digits_print by (apply closes_no_digit, Hr).
  rewrite closes_no_float by exact Hr.
  pose proof (to_uint_head p) as Hh.
  pose proof (DecimalPos.Unsigned.to_uint_nonnil p) as Hn.
  destruct (Pos.to_uint p) as [|u| | | | | | | | |];
    try reflexivity; congruence.
Qed.

Lemma digits_not_word u rest w c :
  u <> Decimal.Nil -> digit_of c = None ->
  strip_prefix (String c w) (NilEmpty.string_of_uint u +:+ rest) = None.
Proof.
  intros Hu Hc. destruct u; try congruence; simpl;
    all_chars c; simpl in Hc; try congruence; reflexivity.
Qed.

Lemma str_of_int_head n rest : starts_number (Py.str_of_int n +:+ rest).
Proof.
  unfold Py.str_of_int. destruct n as [|p|p]; simpl Z.to_int.
  - right. discriminate.
  - change (NilZero.string_of_int (Decimal.Pos ?u))
      with (NilZero.string_of_uint u).
    rewrite string_of_uint_nonnil by apply DecimalPos.Unsigned.to_uint_nonnil.
    pose proof (DecimalPos.Unsigned.to_uint_nonnil p).
    destruct (Pos.to_uint p); try congruence; right; discriminate.
  - left. reflexivity.
Qed.

Lemma digit_not_minus c s :
  digit_of c <> None -> expect "-" (String c s) = None.
Proof. intros H. all_chars c; simpl in H; try congruence; reflexivity. Qed.

Lemma scan_number_print n rest :
  closes rest -> scan_number (Py.str_of_int n +:+ rest) = Read (JInt n, rest).
Proof.
  intros Hr. unfold Py.str_of_int, scan_number.
  pose proof (DecimalZ.of_to n) as Hz.
  destruct n as [|p|p]; simpl Z.to_int in *.
  - change (NilZero.string_of_int (Decimal.Pos (Decimal.D0 Decimal.Nil)))
      with "0"%string.
    rewrite app_String, app_empty_l. unfold scan_uint. simpl.
    rewrite read_digits_stop by (apply closes_no_digit, Hr).
    rewrite closes_no_float by exact Hr. reflexivity.
  - change (NilZero.string_of_int (Decimal.Pos ?u))
      with (NilZero.string_of_uint u).
    assert (expect "-" (NilZero.string_of_uint (Pos.to_uint p) +:+ rest) = None)
      as ->.
    { rewrite string_of_uint_nonnil
        by apply DecimalPos.Unsigned.to_uint_nonnil.
      pose proof (DecimalPos.Unsigned.to_uint_nonnil p).
      destruct (Pos.to_uint p); try congruence; reflexivity. }
    rewrite scan_uint_print by exact Hr. cbn [and_then]. rewrite Hz.
    reflexivity.
  - change (NilZero.string_of_int (Decimal.Neg ?u))
      with (String "-" (NilZero.string_of_uint u)).
    rewrite app_String.
    change (expect "-" (String "-" ?t)) with (Some t). cbv beta iota.
    rewrite string_of_uint_nonnil
      by apply DecimalPos.Unsigned.to_uint_nonnil.
    rewrite digits_not_word
      by (try apply DecimalPos.Unsigned.to_uint_nonnil; reflexivity).
    rewrite <- string_of_uint_nonnil
      by apply DecimalPos.Unsigned.to_uint_nonnil.
    rewrite scan_uint_print by exact Hr. cbn [and_then]. rewrite Hz.
    reflexivity.
Qed.

(** *** Values *)

Lemma dumps_arr l :
  dumps (JArr l) = "[" +:+ Py.join ", " (map dumps l) +:+ "]".
Proof. reflexivity. Qed.

Lemma dumps_obj d :
  dumps (JObj d) = "{" +:+ Py.join ", " (map dump_member d) +:+ "}".
Proof. reflexivity. Qed.

Lemma join_cons2 sep x y l :
  Py.join sep (x :: y :: l) = x +:+ sep +:+ Py.join sep (y :: l).
Proof. reflexivity. Qed.

Lemma starts_number_opens s : starts_number s -> opens s.
Proof.
  destruct s as [|c s]; simpl; [tauto|]. intros [->|Hc].
  - repeat split; discriminate.
  - all_chars c; simpl in Hc; try congruence; repeat split; discriminate.
Qed.

Lemma dumps_opens j rest : opens (dumps j +:+ rest).
Proof.
  destruct j as [|[]|n|s|l|d];
    try (simpl; repeat split; discriminate).
  apply starts_number_opens, str_of_int_head.
Qed.

Lemma dump_member_opens kv rest : opens (dump_member kv +:+ rest).
Proof. destruct kv as [k v]. simpl. repeat split; discriminate. Qed.

Lemma join_dumps_opens l rest :
  l <> [] -> opens (Py.join ", " (map dumps l) +:+ rest).
Proof.
  destruct l as [|x [|y l]]; [congruence| |]; intros _.
  - apply dumps_opens.
  - change (map dumps (x :: y :: l))
      with (dumps x :: dumps y :: map dumps l).
    rewrite join_cons2, app_assoc'. apply dumps_opens.
Qed.

Lemma join_members_opens d rest :
  d <> [] -> opens (Py.join ", " (map dump_member d) +:+ rest).
Proof.
  destruct d as [|kv [|kv' d]]; [congruence| |]; intros _.
  - apply dump_member_opens.
  - change (map dump_member (kv :: kv' :: d))
      with (dump_member kv :: dump_member kv' :: map dump_member d).
    rewrite join_cons2, app_assoc'. apply dump_member_opens.
Qed.

Lemma skip_ws_opens s : opens s -> skip_ws s = s.
Proof. destruct s as [|c s]; simpl; [tauto|]. intros [-> _]. reflexivity. Qed.

Lemma expect_opens c s :
  opens s -> (c = "]" \/ c = "}" \/ c = ",")%char -> expect c s = None.
Proof.
  destruct s as [|c' s]; simpl; [tauto|]. intros (_ & H1 & H2 & H3) Hc.
  destruct (Ascii.eqb_spec c' c); [|reflexivity]. subst c'.
  intuition congruence.
Qed.

Lemma expect_String c c' r :
  expect c (String c' r) = if Ascii.eqb c' c then Some r else None.
Proof. reflexivity. Qed.

Lemma skip_comma r : skip_ws (String "," r) = String "," r.
Proof. reflexivity. Qed.

Lemma skip_colon r : skip_ws (String ":" r) = String ":" r.
Proof. reflexivity. Qed.

Lemma skip_space r : skip_ws (String " " r) = skip_ws r.
Proof. reflexivity. Qed.

Lemma scan_literal_number s :
  starts_number s -> scan_literal s = scan_number s.
Proof.
  destruct s as [|c s]; simpl; [tauto|]. intros [->|Hc]; [reflexivity|].
  all_chars c; simpl in Hc; try congruence; reflexivity.
Qed.

Lemma parse_value_number n s :
  starts_number s -> parse_value (S n) s = scan_number s.
Proof.
  intros Hs. rewrite <- scan_literal_number by exact Hs.
  destruct s as [|c s]; simpl in Hs; [tauto|]. destruct Hs as [->|Hc].
  - reflexivity.
  - all_chars c; simpl in Hc; try congruence; reflexivity.
Qed.

Lemma parse_value_scalar n j rest :
  match j with JArr _ | JObj _ => False | _ => True end ->
  closes rest ->
  parse_value (S n) (dumps j +:+ rest) = Read (j, rest).
Proof.
  intros Hj Hr. destruct j as [|[]|z|s| |]; try tauto; try reflexivity.
  - simpl dumps. rewrite parse_value_number by apply str_of_int_head.
    apply scan_number_print, Hr.
  - simpl dumps. unfold encode_str. rewrite app_String.
    cbn [parse_value]. change (Ascii.eqb Py.dquote Py.dquote) with true.
    cbv iota. rewrite app_assoc', app_String, scan_string_escape.
    reflexivity.
Qed.

Lemma parse_elems_dumps l :
  Forall reads_back l -> forallb wf l = true -> l <> [] ->
  forall n rest, (elems_weight l <= n)%nat ->
  parse_elems n (Py.join ", " (map dumps l) +:+ String "]" rest)
  = Read (l, rest).
Proof.
  induction 1 as [|x l Hx Hl IH]; [congruence|].
  intros Hwf _ n rest Hn. simpl in Hwf.
  apply andb_true_iff in Hwf as [Hwx Hwl].
  simpl in Hn. destruct n as [|n]; [lia|].
  destruct l as [|y l].
  - simpl map. simpl Py.join. cbn [parse_elems].
    rewrite (Hx Hwx n (String "]" rest)) by (simpl; try lia; auto).
    reflexivity.
  - change (map dumps (x :: y :: l)) with (dumps x :: dumps y :: map dumps l).
    rewrite join_cons2, !app_assoc'. cbn [parse_elems].
    change (", " +:+ ?t) with (String "," (String " " t)).
    rewrite (Hx Hwx n) by (simpl; try lia; auto).
    cbn [and_then]. cbv zeta. rewrite skip_comma, !expect_String.
    change (Ascii.eqb "," "]") with false.
    change (Ascii.eqb "," ",") with true.
    cbv iota. rewrite skip_space, skip_ws_opens
      by (apply (join_dumps_opens (y :: l)); congruence).
    change (dumps y :: map dumps l) with (map dumps (y :: l)).
    rewrite IH; [reflexivity|exact Hwl|congruence|].
    unfold elems_weight in *. simpl in *. lia.
Qed.

Lemma parse_member_head n k v tail :
  parse_members (S n) (dump_member (k, v) +:+ tail) =
  and_then (parse_value n (dumps v +:+ tail)) (fun '(v', s3) =>
  let s4 := skip_ws s3 in
  match expect "}" s4 with
  | Some r => Read ([(k, v')], r)
  | None =>
      match expect "," s4 with
      | Some r =>
          and_then (parse_members n (skip_ws r)) (fun '(l, r') =>
          Read ((k, v') :: l, r'))
      | None => Malformed
      end
  end).
Proof.
  unfold dump_member, encode_str.
  rewrite !app_assoc', !app_String, !app_assoc', !app_String, !app_empty_l.
  cbn [parse_members].
  rewrite expect_String. change (Ascii.eqb Py.dquote Py.dquote) with true.
  cbv iota. rewrite scan_string_escape. cbn [and_then].
  rewrite skip_colon, expect_String. change (Ascii.eqb ":" ":") with true.
  cbv iota. rewrite skip_space, skip_ws_opens by apply dumps_opens.
  reflexivity.
Qed.

Lemma parse_members_dumps d :
  Forall (fun kv => reads_back (snd kv)) d ->
  forallb (fun kv => let '(_, v) := kv in wf v) d = true -> d <> [] ->
  forall n rest, (members_weight d <= n)%nat ->
  parse_members n (Py.join ", " (map dump_member d) +:+ String "}" rest)
  = Read (d, rest).
Proof.
  induction 1 as [|[k v] d Hv Hd IH]; [congruence|].
  intros Hwf _ n rest Hn. simpl in Hwf.
  apply andb_true_iff in Hwf as [Hwv Hwd].
  simpl in Hn. destruct n as [|n]; [lia|]. simpl in Hv.
  destruct d as [|kv d].
  - change (Py.join ", " (map dump_member [(k, v)]))
      with (dump_member (k, v)).
    rewrite parse_member_head.
    rewrite (Hv Hwv n (String "}" rest)) by (simpl; try lia; auto).
    reflexivity.
  - change (map dump_member ((k, v) :: kv :: d))
      with (dump_member (k, v) :: dump_member kv :: map dump_member d).
    rewrite join_cons2, !app_assoc', parse_member_head.
    change (", " +:+ ?t) with (String "," (String " " t)).
    rewrite (Hv Hwv n) by (simpl; try lia; auto).
    cbn [and_then]. cbv zeta. rewrite skip_comma, !expect_String.
    change (Ascii.eqb "," "}") with false.
    change (Ascii.eqb "," ",") with true.
    cbv iota. rewrite skip_space, skip_ws_opens
      by (apply (join_members_opens (kv :: d)); congruence).
    change (dump_member kv :: map dump_member d)
      with (map dump_member (kv :: d)).
    rewrite IH; [reflexivity|exact Hwd|congruence|].
    unfold members_weight in *. simpl in *. lia.
Qed.

End JsonFacts.

(** ** Dictionaries *)

Section DictFacts.
Context {V : Type}.
Implicit Types (d : list (string * V)) (k : string) (v : V).

Lemma dict_get_None k d : dict_get k d = None <-> k ∉ map fst d.
Proof.
  induction d as [|[k' v'] d IH]; simpl.
  - split; [intros _; apply not_elem_of_nil | reflexivity].
  - rewrite not_elem_of_cons. destruct (String.eqb_spec k k').
    + split; [discriminate | intros [? _]; congruence].
    + rewrite IH. tauto.
Qed.

Lemma dict_mem_false k d : dict_mem k d = false <-> k ∉ map fst d.
Proof.
  rewrite <- dict_get_None. unfold dict_mem.
  destruct (dict_get k d); split; congruence.
Qed.

Lemma dict_set_fresh k v d :
  k ∉ map fst d -> dict_set k v d = d ++ [(k, v)].
Proof.
  induction d as [|[k' v'] d IH]; [reflexivity|].
  simpl. intros Hk. apply not_elem_of_cons in Hk as [Hne Hk].
  destruct (String.eqb_spec k k'); [congruence|].
  rewrite IH by exact Hk. reflexivity.
Qed.

Lemma dict_get_set k v d : dict_get k (dict_set k v d) = Some v.
Proof.
  induction d as [|[k' v'] d IH]; simpl.
  - rewrite String.eqb_refl. reflexivity.
  - destruct (String.eqb_spec k k') as [->|Hne]; simpl.
    + rewrite String.eqb_refl. reflexivity.
    + destruct (String.eqb_spec k k'); [congruence|]. exact IH.
Qed.

Lemma dict_mem_set k v d : dict_mem k (dict_set k v d) = true.
Proof. unfold dict_mem. rewrite dict_get_set. reflexivity. Qed.

Lemma dict_set_keys k v d :
  map fst (dict_set k v d)
  = if dict_mem k d then map fst d else map fst d ++ [k].
Proof.
  unfold dict_mem. induction d as [|[k' v'] d IH]; [reflexivity|].
  simpl. destruct (String.eqb_spec k k') as [->|Hne]; [reflexivity|].
  simpl. rewrite IH. destruct (dict_get k d); reflexivity.
Qed.

Lemma dict_set_NoDup k v d :
  NoDup (map fst d) -> NoDup (map fst (dict_set k v d)).
Proof.
  intros Hnd. rewrite dict_set_keys.
  destruct (dict_mem k d) eqn:E; [exact Hnd|].
  apply dict_mem_false in E. apply NoDup_app. split; [exact Hnd|].
  split; [|apply NoDup_singleton].
  intros x Hx Hin. apply list_elem_of_singleton in Hin. congruence.
Qed.

Lemma dict_set_forallb (P : string * V -> bool) k v d :
  (forall k1 k2, P (k1, v) = P (k2, v)) ->
  P (k, v) = true -> forallb P d = true -> forallb P (dict_set k v d) = true.
Proof.
  intros Hk Hv. induction d as [|[k' v'] d IH]; simpl.
  - rewrite Hv. reflexivity.
  - intros H. apply andb_true_iff in H as [H1 H2].
    destruct (String.eqb k k'); simpl.
    + rewrite (Hk k' k), Hv, H2. reflexivity.
    + rewrite H1, IH by exact H2. reflexivity.
Qed.

Lemma dict_of_pairs_app (acc l : list (string * V)) :
  NoDup (map fst (acc ++ l)) ->
  fold_left (fun d kv => dict_set (fst kv) (snd kv) d) l acc = acc ++ l.
Proof.
  revert acc. induction l as [|[k v] l IH]; intros acc Hnd.
  - simpl. rewrite app_nil_r. reflexivity.
  - simpl. rewrite dict_set_fresh.
    + rewrite IH; rewrite <- app_assoc; [reflexivity|exact Hnd].
    + rewrite map_app in Hnd. apply NoDup_app in Hnd as (_ & Hdis & _).
      intros Hin. apply (Hdis k Hin). simpl. left.
Qed.

(** [dict(pairs)] of pairs with distinct keys is the list itself. *)
Lemma dict_of_pairs_NoDup (l : list (string * V)) :
  NoDup (map fst l) -> dict_of_pairs l = l.
Proof. intros H. unfold dict_of_pairs. rewrite dict_of_pairs_app; auto. Qed.

Lemma dict_of_pairs_inv (P : string * V -> bool) (l acc : list (string * V)) :
  (forall k1 k2 v, P (k1, v) = P (k2, v)) ->
  forallb P l = true -> forallb P acc = true -> NoDup (map fst acc) ->
  let d := fold_left (fun d kv => dict_set (fst kv) (snd kv) d) l acc in
  NoDup (map fst d) /\ forallb P d = true.
Proof.
  intros Hk. revert acc. induction l as [|[k v] l IH]; intros acc Hl Ha Hnd.
  - simpl. auto.
  - simpl in Hl. apply andb_true_iff in Hl as [Hv Hl]. simpl.
    apply IH; [exact Hl| |apply dict_set_NoDup, Hnd].
    apply dict_set_forallb; auto.
Qed.

End DictFacts.

Module JsonRoundTrip.
Import Json JsonFacts.

Lemma parse_value_dumps j : reads_back j.
Proof.
  induction j as [|b|z|s|l IH|d IH] using json_ind';
    intros Hwf n rest Hn Hr;
    try (destruct n as [|n]; [simpl in Hn; lia|];
         apply parse_value_scalar; [exact I|exact Hr]).
  - simpl in Hwf, Hn. destruct n as [|n]; [lia|].
    rewrite dumps_arr, !app_assoc', !app_String, !app_empty_l.
    cbn [parse_value].
    change (Ascii.eqb "[" Py.dquote) with false.
    change (Ascii.eqb "[" "[") with true.
    cbv iota zeta.
    destruct l as [|x l]; [reflexivity|].
    rewrite skip_ws_opens by (apply join_dumps_opens; congruence).
    rewrite expect_opens by (try (apply join_dumps_opens; congruence); auto).
    rewrite parse_elems_dumps; [reflexivity|exact IH|exact Hwf|congruence|].
    unfold elems_weight. lia.
  - simpl in Hwf, Hn. apply andb_true_iff in Hwf as [Hnd Hwf].
    apply bool_decide_eq_true in Hnd.
    destruct n as [|n]; [lia|].
    rewrite dumps_obj, !app_assoc', !app_String, !app_empty_l.
    cbn [parse_value].
    change (Ascii.eqb "{" Py.dquote) with false.
    change (Ascii.eqb "{" "[") with false.
    change (Ascii.eqb "{" "{") with true.
    cbv iota zeta.
    destruct d as [|kv d]; [reflexivity|].
    rewrite skip_ws_opens by (apply join_members_opens; congruence).
    rewrite expect_opens
      by (try (apply join_members_opens; congruence); auto).
    rewrite parse_members_dumps;
      [|exact IH|exact Hwf|congruence|unfold members_weight; lia].
    cbn [and_then]. rewrite dict_of_pairs_NoDup by exact Hnd. reflexivity.
Qed.

Lemma elems_weight_le l :
  Forall (fun x => (weight x <= String.length (dumps x))%nat) l ->
  (elems_weight l <= String.length (Py.join ", " (map dumps l)) + 1)%nat.
Proof.
  induction 1 as [|x l Hx Hl IH]; [simpl; lia|].
  destruct l as [|y l].
  - simpl. lia.
  - change (Py.join ", " (map dumps (x :: y :: l)))
      with (dumps x +:+ ", " +:+ Py.join ", " (map dumps (y :: l))).
    rewrite !length_app'.
    change (elems_weight (x :: y :: l))
      with (S (weight x + elems_weight (y :: l))).
    change (String.length ", ") with 2%nat. lia.
Qed.

Lemma members_weight_le d :
  Forall (fun kv => (weight (snd kv) <= String.length (dumps (snd kv)))%nat) d ->
  (members_weight d <= String.length (Py.join ", " (map dump_member d)) + 1)%nat.
Proof.
  induction 1 as [|[k v] d Hx Hl IH]; [simpl; lia|].
  assert (weight v <= String.length (dump_member (k, v)))%nat as Hm.
  { unfold dump_member. rewrite !length_app'. simpl in Hx. lia. }
  destruct d as [|kv d].
  - change (Py.join ", " (map dump_member [(k, v)]))
      with (dump_member (k, v)).
    simpl members_weight. lia.
  - change (Py.join ", " (map dump_member ((k, v) :: kv :: d)))
      with (dump_member (k, v) +:+ ", "
              +:+ Py.join ", " (map dump_member (kv :: d))).
    rewrite !length_app'.
    change (members_weight ((k, v) :: kv :: d))
      with (S (weight v + members_weight (kv :: d))).
    change (String.length ", ") with 2%nat. lia.
Qed.

Lemma weight_le_length j : (weight j <= String.length (dumps j))%nat.
Proof.
  induction j as [|b|z|s|l IH|d IH] using json_ind'.
  - simpl. lia.
  - destruct b; simpl; lia.
  - pose proof (str_of_int_head z EmptyString) as H.
    rewrite app_empty_r in H. simpl dumps.
    destruct (Py.str_of_int z); simpl in *; [tauto|lia].
  - simpl. lia.
  - rewrite dumps_arr, !length_app'. pose proof (elems_weight_le l IH).
    change (weight (JArr l)) with (S (elems_weight l)).
    change (String.length "[") with 1%nat.
    change (String.length "]") with 1%nat. lia.
  - rewrite dumps_obj, !length_app'. pose proof (members_weight_le d IH).
    change (weight (JObj d)) with (S (members_weight d)).
    change (String.length "{") with 1%nat.
    change (String.length "}") with 1%nat. lia.
Qed.

(** [json.loads(json.dumps(j))] gives [j] back. *)
Lemma loads_dumps j : wf j = true -> loads (dumps j) = Read j.
Proof.
  intros Hwf. unfold loads.
  pose proof (dumps_opens j EmptyString) as Ho. rewrite app_empty_r in Ho.
  rewrite skip_ws_opens by exact Ho.
  pose proof (parse_value_dumps j Hwf (S (String.length (dumps j)))
                EmptyString) as H.
  rewrite app_empty_r in H. rewrite H; [reflexivity| |exact I].
  pose proof (weight_le_length j). lia.
Qed.

(** *** What the parser returns is a well-formed document *)

Lemma and_then_Read {A B} (r : reading A) (k : A -> reading B) b :
  and_then r k = Read b -> exists a, r = Read a /\ k a = Read b.
Proof. destruct r as [a| |]; simpl; [eauto|discriminate|discriminate]. Qed.

Lemma scan_literal_wf s j r : scan_literal s = Read (j, r) -> wf j = true.
Proof.
  unfold scan_literal, scan_number.
  repeat match goal with
         | |- context [match ?x with _ => _ end] => destruct x
         end;
    try discriminate; try (intros H; inversion H; reflexivity);
    intros H; apply and_then_Read in H as ([u r'] & _ & H);
    inversion H; reflexivity.
Qed.

Lemma parse_wf n :
  (forall s j r, parse_value n s = Read (j, r) -> wf j = true) /\
  (forall s l r, parse_elems n s = Read (l, r) -> forallb wf l = true) /\
  (forall s l r, parse_members n s = Read (l, r) ->
     forallb (fun kv => let '(_, v) := kv in wf v) l = true).
Proof.
  induction n as [|n (IHv & IHe & IHm)];
    [split; [|split]; discriminate|].
  split; [|split].
  - intros s j r. cbn [parse_value]. destruct s as [|c s']; [discriminate|].
    destruct (Ascii.eqb c Py.dquote).
    { intros H. apply and_then_Read in H as ([str r'] & _ & H).
      inversion H. reflexivity. }
    destruct (Ascii.eqb c "[").
    { cbv zeta. destruct (expect "]" _).
      - intros H; inversion H. reflexivity.
      - intros H. apply and_then_Read in H as ([l r'] & E & H).
        inversion H. subst. simpl. eapply IHe, E. }
    destruct (Ascii.eqb c "{").
    { cbv zeta. destruct (expect "}" _).
      - intros H; inversion H. reflexivity.
      - intros H. apply and_then_Read in H as ([l r'] & E & H).
        inversion H. subst. simpl.
        destruct (dict_of_pairs_inv
                    (fun kv : string * json => let '(_, v) := kv in wf v)
                    l [] (fun _ _ _ => eq_refl) (IHm _ _ _ E) eq_refl
                    (NoDup_nil_2)) as [Hnd Hall].
        fold (dict_of_pairs l) in Hnd, Hall.
        rewrite Hall, bool_decide_eq_true_2 by exact Hnd. reflexivity. }
    apply scan_literal_wf.
  - intros s l r. cbn [parse_elems]. intros H.
    apply and_then_Read in H as ([v s1] & Ev & H).
    cbv zeta in H. pose proof (IHv _ _ _ Ev) as Hv.
    destruct (expect "]" _).
    { inversion H. simpl. rewrite Hv. reflexivity. }
    destruct (expect "," _); [|discriminate].
    apply and_then_Read in H as ([l' r'] & E & H). inversion H.
    subst. simpl. rewrite Hv. eapply IHe, E.
  - intros s l r. cbn [parse_members].
    destruct (expect Py.dquote s); [|discriminate]. intros H.
    apply and_then_Read in H as ([k s1] & _ & H).
    destruct (expect ":" _); [|discriminate].
    apply and_then_Read in H as ([v s3] & Ev & H).
    cbv zeta in H. pose proof (IHv _ _ _ Ev) as Hv.
    destruct (expect "}" _).
    { inversion H. simpl. rewrite Hv. reflexivity. }
    destruct (expect "," _); [|discriminate].
    apply and_then_Read in H as ([l' r'] & E & H). inversion H.
    subst. simpl. rewrite Hv. eapply IHm, E.
Qed.

Lemma loads_wf s j : loads s = Read j -> wf j = true.
Proof.
  unfold loads. intros H. apply and_then_Read in H as ([j' r] & E & H).
  destruct (skip_ws r); inversion H. subst.
  eapply (proj1 (parse_wf _)), E.
Qed.

End JsonRoundTrip.

(** ** The cache files *)

Section CacheFacts.
Import JsonRoundTrip.

Lemma openCache_pair f w : openCache f w = (fst (openCache f w), w).
Proof.
  unfold openCache. destruct (files w !! f) as [doc|]; [|reflexivity].
  destruct (Json.loads doc); reflexivity.
Qed.

(** Reading a cache depends on the files only. *)
Lemma openCache_files f w w' :
  files w' = files w -> fst (openCache f w') = fst (openCache f w).
Proof.
  intros H. unfold openCache. rewrite H.
  destruct (files w !! f) as [doc|]; [|reflexivity].
  destruct (Json.loads doc); reflexivity.
Qed.

Lemma openCache_wf f w c : fst (openCache f w) = Ok c -> wf c = true.
Proof.
  unfold openCache. destruct (files w !! f) as [doc|].
  - destruct (Json.loads doc) as [j| |] eqn:E; simpl; intros H; inversion H.
    subst. eapply loads_wf, E.
  - simpl. intros H; inversion H. reflexivity.
Qed.

Lemma write_open f doc fs : write f doc (open_w f fs) = <[f := doc]> fs.
Proof.
  unfold write, open_w. rewrite lookup_insert_eq. simpl.
  rewrite app_empty_l. apply insert_insert_eq.
Qed.

Lemma files_written c f w :
  files (written c f w) = <[f := Json.dumps c]> (files w).
Proof. unfold written, closeCache. simpl. apply write_open. Qed.

Lemma openCache_written c f w :
  wf c = true -> fst (openCache f (written c f w)) = Ok c.
Proof.
  intros Hwf. unfold openCache.
  rewrite files_written, lookup_insert_eq, loads_dumps by exact Hwf.
  reflexivity.
Qed.

Lemma substring_all s : String.substring 0 (String.length s) s = s.
Proof. induction s as [|c s IH]; simpl; [reflexivity|]. rewrite IH. reflexivity. Qed.

Lemma prefix_substring k s : String.prefix (String.substring 0 k s) s = true.
Proof.
  revert k. induction s as [|c s IH]; intros [|k]; simpl; try reflexivity.
  destruct (ascii_dec c c); [apply IH|congruence].
Qed.

End CacheFacts.

(** C1 (as amended). [closeCache] overwrites the stored document in place:
    the file is emptied when it is opened and the text of the whole cache
    is then written into it.  Run to its end, it leaves the file with the
    new complete document (nothing else changes); stopped after [k]
    characters, it leaves a prefix of the new document, the empty file
    included.  There is no temporary file and no rename. *)
Theorem closeCache_overwrites_in_place (cache : json) (filename : string)
  (w : world) :
  closeCache cache filename w
  = (Ok tt, set_files (<[filename := Json.dumps cache]> (files w)) w)
  /\ (forall k,
        closeCache_interrupted k cache filename (files w)
        = <[filename := String.substring 0 k (Json.dumps cache)]> (files w)
        /\ String.prefix (String.substring 0 k (Json.dumps cache))
             (Json.dumps cache) = true)
  /\ closeCache_interrupted (String.length (Json.dumps cache)) cache filename
       (files w)
     = files (written cache filename w).
Proof.
  split; [|split].
  - unfold closeCache. rewrite write_open. reflexivity.
  - intros k. split; [apply write_open | apply prefix_substring].
  - unfold closeCache_interrupted. rewrite substring_all, files_written.
    apply write_open.
Qed.

(** C2. A cache written by [closeCache] and read by [openCache] under the
    same name comes back equal. *)
Theorem cache_round_trip (c : json) (filename : string) (w : world) :
  wf c = true ->
  closeCache c filename w = (Ok tt, written c filename w)
  /\ openCache filename (written c filename w) = (Ok c, written c filename w).
Proof.
  intros Hwf. split; [reflexivity|].
  rewrite openCache_pair, openCache_written by exact Hwf. reflexivity.
Qed.

(** C8 (as amended). [openCache] answers the empty mapping when the file is
    absent and fails with the decoder's error when the text is no JSON
    document.  It does not look at the shape of what it decodes: any
    document stored by [dumps], a mapping or not, is returned as it is.
    The world is left as it was. *)
Theorem openCache_outcomes (filename : string) (w : world) :
  (files w !! filename = None ->
   openCache filename w = (Ok (JObj []), w))
  /\ (forall doc, files w !! filename = Some doc -> Json.loads doc = Json.Malformed ->
      openCache filename w = (Raise JSONDecodeError, w))
  /\ (forall doc j, files w !! filename = Some doc -> Json.loads doc = Json.Read j ->
      openCache filename w = (Ok j, w))
  /\ (forall j, wf j = true -> files w !! filename = Some (Json.dumps j) ->
      openCache filename w = (Ok j, w)).
Proof.
  unfold openCache. repeat split.
  - intros ->. reflexivity.
  - intros doc -> ->. reflexivity.
  - intros doc j -> ->. reflexivity.
  - intros j Hwf ->. rewrite JsonRoundTrip.loads_dumps by exact Hwf.
    reflexivity.
Qed.

Section ProgramFacts.
Context `{env : Env}.

Lemma bind_ok {A B} (m : M A) (k : A -> M B) w a w' :
  m w = (Ok a, w') -> bind m k w = k a w'.
Proof. unfold bind. intros ->. reflexivity. Qed.

Lemma bind_raise {A B} (m : M A) (k : A -> M B) w e w' :
  m w = (Raise e, w') -> bind m k w = (Raise e, w').
Proof. unfold bind. intros ->. reflexivity. Qed.

(** C3. With a state directory already in the cache file (its length is
    not zero) [build_state_url_dict] returns the cached document as it is;
    a second call returns the same; neither call opens a URL nor touches a
    file. *)
Theorem build_state_url_dict_cached (w : world) (c : json) (n : Z) :
  fst (openCache STATE_URL_DICT w) = Ok c ->
  py_len c = Ok n -> n <> 0 ->
  let w1 := printed "Using cache" w in
  let w2 := printed "Using cache" w1 in
  build_state_url_dict w = (Ok c, w1)
  /\ build_state_url_dict w1 = (Ok c, w2)
  /\ requests w2 = requests w
  /\ files w2 = files w.
Proof.
  intros Hc Hn Hz.
  assert (forall w0, files w0 = files w ->
            build_state_url_dict w0 = (Ok c, printed "Using cache" w0)) as H.
  { intros w0 Hf. unfold build_state_url_dict.
    erewrite bind_ok
      by (rewrite openCache_pair, (openCache_files _ w w0 Hf), Hc;
          reflexivity).
    erewrite bind_ok by (unfold lift; rewrite Hn; reflexivity).
    destruct (Z.eqb_spec n 0) as [|_]; [contradiction|]. reflexivity. }
  cbv zeta. repeat split.
  - apply H. reflexivity.
  - apply H. reflexivity.
Qed.

End ProgramFacts.

(** ** Trimming *)

Lemma rstrip_head c s :
  Py.isspace c = false -> exists r, Py.rstrip (String c s) = String c r.
Proof.
  intros Hc. simpl. destruct (Py.rstrip s); [rewrite Hc|]; eauto.
Qed.

Lemma lstrip_head s :
  match Py.lstrip s with
  | EmptyString => True
  | String c _ => Py.isspace c = false
  end.
Proof.
  induction s as [|c s IH]; simpl; [exact I|].
  destruct (Py.isspace c) eqn:E; [exact IH | exact E].
Qed.

Lemma rstrip_last s :
  match Py.rstrip s with
  | EmptyString => True
  | String c r => Py.isspace (last_char c r) = false
  end.
Proof.
  induction s as [|c s IH]; simpl; [exact I|].
  destruct (Py.rstrip s) as [|c' r].
  - destruct (Py.isspace c) eqn:E; [exact I | exact E].
  - exact IH.
Qed.

(** [s.strip()] has no whitespace at either end. *)
Lemma strip_trimmed s : is_trimmed (Py.strip s) = true.
Proof.
  unfold Py.strip. pose proof (lstrip_head s) as Hl.
  pose proof (rstrip_last (Py.lstrip s)) as Hr.
  destruct (Py.lstrip s) as [|c t]; [reflexivity|].
  destruct (rstrip_head c t Hl) as [r Hc]. rewrite Hc in *.
  unfold is_trimmed. rewrite Hl, Hr. reflexivity.
Qed.

(** ** Site details *)

Section SiteFacts.
Context `{env : Env}.
Import JsonRoundTrip.

(** C10. On a cache hit [get_site_instance] returns the site made of the
    five stored fields; it opens no URL and writes no file: only the line
    [Using Cache] is printed. *)
Theorem get_site_instance_cached (site_url : string) (w : world)
  (d c : list (string * json)) (v1 v2 v3 v4 v5 : json) :
  fst (openCache SITE_URL_DICT w) = Ok (JObj d) ->
  dict_get site_url d = Some (JObj c) ->
  dict_get "category" c = Some v1 -> dict_get "name" c = Some v2 ->
  dict_get "address" c = Some v3 -> dict_get "zipcode" c = Some v4 ->
  dict_get "phone" c = Some v5 ->
  let w' := printed "Using Cache" w in
  get_site_instance site_url w
  = (Ok (Some (mkNationalSite v1 v2 v3 v4 v5)), w')
  /\ files w' = files w /\ requests w' = requests w.
Proof.
  intros Hc Hd H1 H2 H3 H4 H5. cbv zeta. split; [|split; reflexivity].
  unfold get_site_instance.
  erewrite bind_ok by (rewrite openCache_pair, Hc; reflexivity).
  unfold bind, lift, print, ret, py_contains, py_getitem, dict_mem.
  rewrite Hd, H1, H2, H3, H4, H5. reflexivity.
Qed.

(** The run of [get_site_instance] up to the search of the address block,
    on a page that has its title block. *)
Lemma get_site_instance_miss (site_url : string) (w : world) (c : json)
  (html : string) (tc a sp : node) :
  fst (openCache SITE_URL_DICT w) = Ok c ->
  py_contains site_url c = Ok false ->
  remote (requests w) site_url = Ok html ->
  let bs := BeautifulSoup (Some "html.parser"%string) html in
  Bs4.find "div" [("class", "Hero-titleContainer clearfix")]%string bs
  = Some tc ->
  Bs4.find "a" [] (Bs4.children tc) = Some a ->
  Bs4.find "span" [("class", "Hero-designation")]%string (Bs4.children tc)
  = Some sp ->
  get_site_instance site_url w =
  let w1 := requested site_url (printed "Fetching" w) in
  match Bs4.find "p" [("class", "adr")]%string bs with
  | None => (Ok None, w1)
  | Some adr =>
      (addr <- lift (find_in (Some adr) "span"
                       [("itemprop", "addressLocality")]%string) ;;
       state <- lift (find_in (Some adr) "span"
                        [("itemprop", "addressRegion")]%string) ;;
       postalCode <- lift (find_in (Some adr) "span"
                             [("itemprop", "postalCode")]%string) ;;
       postal_text <- lift (text_of postalCode) ;;
       addr_text <- lift (text_of addr) ;;
       state_text <- lift (text_of state) ;;
       phone_text <-
         lift (text_of (Bs4.find "span" [("itemprop", "telephone")]%string bs)) ;;
       let ns :=
         mkNationalSite (JStr (Bs4.text sp)) (JStr (Bs4.text a))
           (JStr (addr_text +:+ ", " +:+ Py.strip state_text))
           (JStr (Py.strip postal_text)) (JStr (Py.strip phone_text)) in
       cache' <- lift (py_setitem c site_url (site_fields ns)) ;;
       closeCache cache' SITE_URL_DICT ;;;
       ret (Some ns)) w1
  end.
Proof.
  intros Hc Hmiss Hfetch bs Htc Ha Hsp.
  unfold get_site_instance.
  erewrite bind_ok by (rewrite openCache_pair, Hc; reflexivity).
  erewrite bind_ok by (unfold lift; rewrite Hmiss; reflexivity).
  cbv iota.
  erewrite bind_ok by reflexivity.
  erewrite bind_ok
    by (unfold urlopen_read; cbn [requests printed]; rewrite Hfetch;
        reflexivity).
  cbv zeta. fold bs. rewrite Htc.
  erewrite bind_ok by (unfold lift, find_in; rewrite Ha; reflexivity).
  erewrite bind_ok by reflexivity.
  erewrite bind_ok by (unfold lift, find_in; rewrite Hsp; reflexivity).
  erewrite bind_ok by reflexivity.
  destruct (Bs4.find "p" [("class", "adr")]%string bs); reflexivity.
Qed.

(** C4 (as amended). On a cache miss, for a detail page that has its title
    block and no address block, [get_site_instance] returns [None] and
    leaves every file as it was. *)
Theorem get_site_instance_no_address (site_url : string) (w : world)
  (c : json) (html : string) (tc a sp : node) :
  fst (openCache SITE_URL_DICT w) = Ok c ->
  py_contains site_url c = Ok false ->
  remote (requests w) site_url = Ok html ->
  let bs := BeautifulSoup (Some "html.parser"%string) html in
  Bs4.find "div" [("class", "Hero-titleContainer clearfix")]%string bs
  = Some tc ->
  Bs4.find "a" [] (Bs4.children tc) = Some a ->
  Bs4.find "span" [("class", "Hero-designation")]%string (Bs4.children tc)
  = Some sp ->
  Bs4.find "p" [("class", "adr")]%string bs = None ->
  let w' := requested site_url (printed "Fetching" w) in
  get_site_instance site_url w = (Ok None, w')
  /\ files w' = files w
  /\ fst (openCache SITE_URL_DICT w') = Ok c.
Proof.
  intros Hc Hmiss Hfetch bs Htc Ha Hsp Hadr. cbv zeta.
  split; [|split; [reflexivity|]].
  - rewrite (get_site_instance_miss site_url w c html tc a sp)
      by assumption.
    cbv zeta. fold bs. rewrite Hadr. reflexivity.
  - rewrite <- Hc. apply openCache_files. reflexivity.
Qed.

(** C5 (as amended). On a cache miss, for a detail page that has its title
    block, the address block with its city, region and postal-code fields,
    and the telephone field, [get_site_instance] returns a site whose
    address is the city text, a comma and a space, then the region text
    trimmed, and whose zipcode is the postal-code text trimmed: it has no
    whitespace at either end.  The site is stored under its URL and the
    cache file holds the new mapping. *)
Theorem get_site_instance_address (site_url : string) (w : world)
  (d : list (string * json)) (html : string)
  (tc a sp adr city region postal tel : node) :
  fst (openCache SITE_URL_DICT w) = Ok (JObj d) ->
  dict_mem site_url d = false ->
  remote (requests w) site_url = Ok html ->
  let bs := BeautifulSoup (Some "html.parser"%string) html in
  Bs4.find "div" [("class", "Hero-titleContainer clearfix")]%string bs
  = Some tc ->
  Bs4.find "a" [] (Bs4.children tc) = Some a ->
  Bs4.find "span" [("class", "Hero-designation")]%string (Bs4.children tc)
  = Some sp ->
  Bs4.find "p" [("class", "adr")]%string bs = Some adr ->
  Bs4.find "span" [("itemprop", "addressLocality")]%string (Bs4.children adr)
  = Some city ->
  Bs4.find "span" [("itemprop", "addressRegion")]%string (Bs4.children adr)
  = Some region ->
  Bs4.find "span" [("itemprop", "postalCode")]%string (Bs4.children adr)
  = Some postal ->
  Bs4.find "span" [("itemprop", "telephone")]%string bs = Some tel ->
  let ns :=
    mkNationalSite (JStr (Bs4.text sp)) (JStr (Bs4.text a))
      (JStr (Bs4.text city +:+ ", " +:+ Py.strip (Bs4.text region)))
      (JStr (Py.strip (Bs4.text postal)))
      (JStr (Py.strip (Bs4.text tel))) in
  let cache' := JObj (dict_set site_url (site_fields ns) d) in
  let w' :=
    written cache' SITE_URL_DICT (requested site_url (printed "Fetching" w)) in
  get_site_instance site_url w = (Ok (Some ns), w')
  /\ address ns
     = JStr (Bs4.text city +:+ ", " +:+ Py.strip (Bs4.text region))
  /\ zipcode ns = JStr (Py.strip (Bs4.text postal))
  /\ is_trimmed (Py.strip (Bs4.text postal)) = true
  /\ fst (openCache SITE_URL_DICT w') = Ok cache'.
Proof.
  intros Hc Hmiss Hfetch bs Htc Ha Hsp Hadr Hcity Hregion Hpostal Htel.
  cbv zeta. split; [|split; [reflexivity|split; [reflexivity|split]]].
  - rewrite (get_site_instance_miss site_url w (JObj d) html tc a sp);
      try assumption; [|simpl; rewrite Hmiss; reflexivity].
    cbv zeta. fold bs. rewrite Hadr.
    unfold bind, lift, find_in, text_of, ret. rewrite Hcity, Hregion, Hpostal, Htel.
    reflexivity.
  - apply strip_trimmed.
  - apply openCache_written. simpl.
    pose proof (openCache_wf _ _ _ Hc) as Hwf. simpl in Hwf.
    apply andb_true_iff in Hwf as [Hnd Hall].
    apply bool_decide_eq_true in Hnd.
    rewrite bool_decide_eq_true_2 by (apply dict_set_NoDup, Hnd).
    apply dict_set_forallb; auto.
Qed.

End SiteFacts.

(** ** The sites of a state *)

Section CatalogFacts.
Context `{env : Env}.

Lemma rbind_Ok {A B} (r : result A) (k : A -> result B) b :
  rbind r k = Ok b -> exists a, r = Ok a /\ k a = Ok b.
Proof. destruct r as [a|e]; simpl; [eauto|discriminate]. Qed.

Lemma bind_Ok {A B} (m : M A) (k : A -> M B) w b w2 :
  bind m k w = (Ok b, w2) ->
  exists a w1, m w = (Ok a, w1) /\ k a w1 = (Ok b, w2).
Proof.
  unfold bind. destruct (m w) as [[a|e] w1]; [eauto|discriminate].
Qed.

(** The loop of [get_sites_for_state] appends, in order, the sites of the
    asset entries that resolve to one. *)
Lemma sites_of_blocks_resolved blocks :
  forall acc w urls rs w2,
    park_links (List.filter is_asset blocks) = Ok urls ->
    resolve_each urls w = (Ok rs, w2) ->
    sites_of_blocks blocks acc w = (Ok (acc ++ omap id rs), w2).
Proof.
  induction blocks as [|block blocks IH]; intros acc w urls rs w2 Hl Hr.
  - simpl in Hl. inversion Hl. subst. simpl in Hr. inversion Hr. subst.
    simpl. rewrite app_nil_r. reflexivity.
  - simpl in Hl. cbn [sites_of_blocks]. unfold is_asset in Hl at 1.
    destruct (Bs4.get block "id") as [id|]; [|eapply IH; eauto].
    destruct (Py.startswith id "asset"); [|eapply IH; eauto].
    cbn [negb]. cbv iota. cbn [park_links] in Hl.
    apply rbind_Ok in Hl as (u & Hu & Hl).
    apply rbind_Ok in Hl as (us & Hus & Hl). inversion Hl. subst urls.
    cbn [resolve_each] in Hr.
    apply bind_Ok in Hr as (r & w1 & Hr1 & Hr).
    apply bind_Ok in Hr as (rs' & w1' & Hrs & Hr).
    inversion Hr. subst rs w1'.
    unfold park_link in Hu.
    apply rbind_Ok in Hu as (div & Hdiv & Hu).
    apply rbind_Ok in Hu as (h3 & Hh3 & Hu).
    apply rbind_Ok in Hu as (a & Ha & Hu).
    apply rbind_Ok in Hu as (href & Hhref & Hu). inversion Hu. subst u.
    erewrite bind_ok by (unfold lift; rewrite Hdiv; reflexivity).
    erewrite bind_ok by (unfold lift; rewrite Hh3; reflexivity).
    erewrite bind_ok by (unfold lift; rewrite Ha; reflexivity).
    erewrite bind_ok by (unfold lift; rewrite Hhref; reflexivity).
    cbv zeta. erewrite bind_ok by exact Hr1.
    destruct r as [ns|].
    + rewrite (IH _ _ _ _ _ Hus Hrs), <- app_assoc. reflexivity.
    + rewrite (IH _ _ _ _ _ Hus Hrs). reflexivity.
Qed.

(** C6. [get_sites_for_state] returns the sites of the asset entries of the
    state page in document order: the entries whose resolution gives [None]
    are left out, nothing else is (an entry listed twice gives its site
    twice).  With three asset entries of which the second resolves to
    [None], the result is the sites of the first and the third, in that
    order. *)
Theorem get_sites_for_state_order (state_url html : string) (w w2 : world)
  (urls : list string) (rs : list (option NationalSite)) :
  remote (requests w) state_url = Ok html ->
  let blocks :=
    Bs4.find_all "li" [("class", "clearfix")]%string (BeautifulSoup None html)
  in
  park_links (List.filter is_asset blocks) = Ok urls ->
  resolve_each urls (requested state_url w) = (Ok rs, w2) ->
  get_sites_for_state state_url w = (Ok (omap id rs), w2)
  /\ (forall s1 s3, rs = [Some s1; None; Some s3] ->
      get_sites_for_state state_url w = (Ok [s1; s3], w2)).
Proof.
  intros Hfetch blocks Hl Hr.
  assert (get_sites_for_state state_url w = (Ok (omap id rs), w2)) as H.
  { unfold get_sites_for_state.
    erewrite bind_ok by (unfold urlopen_read; rewrite Hfetch; reflexivity).
    cbv zeta. fold blocks.
    apply (sites_of_blocks_resolved blocks [] _ urls rs w2 Hl Hr). }
  split; [exact H|]. intros s1 s3 ->. exact H.
Qed.

End CatalogFacts.

(** ** Nearby places *)

Section NearbyFacts.
Context `{env : Env}.
Import JsonRoundTrip.

(** C7 (as amended). For two sites with the same postal code, when the call
    for the first returns a result, the call for the second returns the
    same result and opens no URL.  The two calls together open one URL when
    the postal code was not in the cache before the first call, and none
    when it was. *)
Theorem get_nearby_places_shared (s1 s2 : NationalSite) (z : string)
  (w w1 : world) (d : json) :
  zipcode s1 = JStr z -> zipcode s2 = JStr z ->
  get_nearby_places s1 w = (Ok d, w1) ->
  exists w2,
    get_nearby_places s2 w1 = (Ok d, w2)
    /\ requests w2 = requests w1
    /\ requests w1
       = (if zip_cached z w then requests w
          else requests w ++ [radius_request z]).
Proof.
  intros Hz1 Hz2. unfold get_nearby_places, zip_cached.
  rewrite Hz1, Hz2. clear Hz1 Hz2 s1 s2. intros H1.
  apply bind_Ok in H1 as (c & w0 & Hc & H1).
  rewrite openCache_pair in Hc. inversion Hc as [[Hc' Hw0]]. subst w0.
  rewrite Hc'. clear Hc.
  apply bind_Ok in H1 as (hit & w0 & Hhit & H1).
  unfold lift in Hhit. inversion Hhit as [[Hhit' Hw0]]. subst w0.
  rewrite Hhit'. clear Hhit. destruct hit.
  - (* served from the cache *)
    apply bind_Ok in H1 as ([] & w0 & Hp & H1).
    unfold print in Hp. inversion Hp as [Hw0]. clear Hp.
    unfold lift in H1. inversion H1 as [[Hd Hw1]]. clear H1.
    subst w0 w1.
    exists (printed "Using Cache" (printed "Using Cache" w)).
    split; [|split; reflexivity].
    erewrite bind_ok
      by (rewrite openCache_pair, (openCache_files _ w) by reflexivity;
          rewrite Hc'; reflexivity).
    erewrite bind_ok by (unfold lift; rewrite Hhit'; reflexivity).
    cbv iota. erewrite bind_ok by reflexivity.
    unfold lift. rewrite Hd. f_equal.
  - (* fetched, stored, then served from the cache *)
    apply bind_Ok in H1 as ([] & w0 & Hp & H1).
    unfold print in Hp. inversion Hp as [Hw0]. clear Hp. subst w0.
    apply bind_Ok in H1 as (js & w3 & Hjs & H1).
    unfold urlopen_read in Hjs. inversion Hjs as [[Hjs' Hw3]]. clear Hjs.
    subst w3. cbn [files requests stdout] in *.
    destruct (Json.loads js) as [d'| |] eqn:Hload; try discriminate.
    apply bind_Ok in H1 as (cache' & w4 & Hset & H1).
    unfold lift in Hset. inversion Hset as [[Hset' Hw4]]. subst w4.
    clear Hset.
    apply bind_Ok in H1 as ([] & w5 & Hclose & H1).
    unfold ret in H1. inversion H1. subst d' w5. clear H1.
    match type of Hclose with closeCache _ _ ?w3 = _ =>
      assert (w1 = written cache' NEARBY_PLACES w3) as Hw1
        by (unfold written; rewrite Hclose; reflexivity)
    end.
    clear Hclose.
    destruct c as [| | | | |dd]; try discriminate.
    simpl in Hset'. inversion Hset'. subst cache'. clear Hset'.
    assert (wf (JObj (dict_set z d dd)) = true) as Hwf.
    { pose proof (openCache_wf _ _ _ Hc') as Hwc. simpl in Hwc.
      apply andb_true_iff in Hwc as [Hnd Hall].
      apply bool_decide_eq_true in Hnd. simpl.
      rewrite bool_decide_eq_true_2 by (apply dict_set_NoDup, Hnd).
      apply dict_set_forallb; auto. eapply loads_wf, Hload. }
    subst w1.
    eexists (printed "Using Cache" (written _ NEARBY_PLACES _)).
    split; [|split; reflexivity].
    erewrite bind_ok
      by (rewrite openCache_pair, openCache_written by exact Hwf;
          reflexivity).
    erewrite bind_ok
      by (unfold lift; cbn [py_contains]; rewrite dict_mem_set; reflexivity).
    cbv iota. erewrite bind_ok by reflexivity.
    unfold lift. cbn [py_getitem]. rewrite dict_get_set. reflexivity.
Qed.

End NearbyFacts.

(** ** The choice of a site *)

Section SelectFacts.

Lemma list_getitem_in {A} (l : list A) (i : Z) :
  0 <= i < Z.of_nat (length l) ->
  exists a, l !! Z.to_nat i = Some a /\ list_getitem l i = Ok a.
Proof.
  intros Hi. unfold list_getitem.
  destruct (Z.ltb_spec i 0); [lia|].
  destruct (Z.ltb_spec i 0); [lia|].
  destruct (Z.leb_spec (Z.of_nat (length l)) i); [lia|]. simpl.
  destruct (lookup_lt_is_Some_2 l (Z.to_nat i)) as [a Ha]; [lia|].
  exists a. rewrite Ha. split; reflexivity.
Qed.

Lemma list_getitem_neg {A} (l : list A) (i : Z) :
  - Z.of_nat (length l) <= i < 0 ->
  exists a, l !! Z.to_nat (Z.of_nat (length l) + i) = Some a
            /\ list_getitem l i = Ok a.
Proof.
  intros Hi.
  destruct (list_getitem_in l (Z.of_nat (length l) + i)) as (a & Ha & Hg);
    [lia|].
  exists a. split; [exact Ha|]. revert Hg. unfold list_getitem.
  destruct (Z.ltb_spec i 0); [|lia].
  destruct (Z.ltb_spec (Z.of_nat (length l) + i) 0); [lia|].
  rewrite (Z.add_comm i). auto.
Qed.

Lemma list_getitem_out {A} (l : list A) (i : Z) :
  i < - Z.of_nat (length l) \/ Z.of_nat (length l) <= i ->
  list_getitem l i = Raise IndexError.
Proof.
  intros Hi. unfold list_getitem.
  destruct (Z.ltb_spec i 0).
  - destruct (Z.ltb_spec (i + Z.of_nat (length l)) 0); [reflexivity|lia].
  - destruct (Z.ltb_spec i 0); [lia|].
    destruct (Z.leb_spec (Z.of_nat (length l)) i); [reflexivity|lia].
Qed.

(** The index test and the lookup of lines 235-238, on their own: the test
    refuses a number exactly when it is above the length of the list; on a
    list that is not empty, a number from [-(length - 1)] to [0] selects a
    site counted from the end ([0] the last one), and a number below
    [-(length - 1)] ends in an [IndexError]. *)
Lemma main_select_range (token : string) (id : Z)
  (nationalStates : list NationalSite) :
  nationalStates <> [] ->
  py_int token = Some id ->
  let n := Z.of_nat (length nationalStates) in
  (main_select token nationalStates = Raise ValueError <-> n < id)
  /\ (- (n - 1) <= id <= 0 ->
      exists ns,
        nationalStates !! Z.to_nat (n + (id - 1)) = Some ns
        /\ main_select token nationalStates = Ok ns)
  /\ (id = 0 ->
      exists ns,
        last nationalStates = Some ns
        /\ main_select token nationalStates = Ok ns)
  /\ (id < - (n - 1) ->
      main_select token nationalStates = Raise IndexError
      /\ caught_by_main IndexError = false).
Proof.
  intros Hne Hid n. unfold main_select. rewrite Hid. fold n.
  assert (0 < n) as Hn.
  { unfold n. destruct nationalStates; [congruence|]. simpl. lia. }
  assert (forall i, - (n - 1) <= i <= 0 ->
            exists ns, nationalStates !! Z.to_nat (n + (i - 1)) = Some ns
                       /\ list_getitem nationalStates (i - 1) = Ok ns) as Hsel.
  { intros i Hi. apply list_getitem_neg. fold n. lia. }
  split; [|split; [|split]].
  - destruct (Z.ltb_spec n id) as [Hlt|Hge]; [tauto|].
    split; [|lia]. intros H. exfalso.
    destruct (Z_lt_le_dec (id - 1) (- n)) as [Hlow|Hlow].
    + rewrite list_getitem_out in H by (fold n; lia). discriminate.
    + destruct (Z_lt_le_dec (id - 1) 0) as [Hneg|Hpos].
      * destruct (list_getitem_neg nationalStates (id - 1)) as (a & _ & Ha);
          [fold n; lia|]. congruence.
      * destruct (list_getitem_in nationalStates (id - 1)) as (a & _ & Ha);
          [fold n; lia|]. congruence.
  - intros Hi. destruct (Z.ltb_spec n id); [lia|]. apply Hsel, Hi.
  - intros ->. destruct (Z.ltb_spec n 0); [lia|].
    destruct (Hsel 0) as (ns & Hns & Hg); [lia|].
    exists ns. split; [|exact Hg].
    rewrite last_lookup. rewrite <- Hns. f_equal. unfold n. lia.
  - intros Hi. destruct (Z.ltb_spec n id); [lia|].
    split; [|reflexivity]. apply list_getitem_out. fold n. lia.
Qed.

End SelectFacts.

(** ** The program on the small web *)

Module Runs.
Import Examples.

(** The decoder on a few texts: whitespace is skipped, a trailing comma and
    a leading zero are errors, a float is outside the embedding, and of two
    members with the same key the later one wins (so the printed form of a
    list with a repeated key does not read back as itself). *)
Example loads_spaced :
  Json.loads " [1 , -20,null ] " = Json.Read (JArr [JInt 1; JInt (-20); JNull]).
Proof. reflexivity. Qed.

Example loads_trailing_comma : Json.loads "[1,]" = Json.Malformed.
Proof. reflexivity. Qed.

Example loads_leading_zero : Json.loads "01" = Json.Malformed.
Proof. reflexivity. Qed.

Example loads_float : Json.loads "[1.5]" = Json.Beyond.
Proof. reflexivity. Qed.

Example loads_repeated_key :
  Json.loads (Json.dumps (JObj [("a", JInt 1); ("b", JNull); ("a", JInt 2)]%string))
  = Json.Read (JObj [("a", JInt 2); ("b", JNull)]%string).
Proof. reflexivity. Qed.

Example dumps_escapes :
  Json.dumps (JStr (String "010" (String "233" "a/b")))
  = String Py.dquote
      (String Py.backslash ("n" +:+ String Py.backslash "u00e9a/b"
         +:+ String Py.dquote EmptyString)).
Proof. reflexivity. Qed.

Example py_int_forms :
  py_int " -1_0 " = Some (-10) /\ py_int "1__0" = None /\ py_int "+7" = Some 7
  /\ py_int "0x10" = None /\ py_int EmptyString = None.
Proof. repeat split. Qed.

(** C1, as stated, fails: stopped right after the file was opened, or after
    twelve characters, [closeCache] leaves a file that holds neither the
    previous document nor the new one, and that [openCache] cannot read. *)
Lemma closeCache_interrupted_corrupt :
  let new := JObj [("michigan", JStr mi_url); ("ohio", JStr mi_url)]%string in
  let old := Json.dumps michigan in
  files with_states !! STATE_URL_DICT = Some old
  /\ (forall k, k = 0%nat \/ k = 12%nat ->
      exists doc,
        closeCache_interrupted k new STATE_URL_DICT (files with_states)
          !! STATE_URL_DICT = Some doc
        /\ doc <> old /\ doc <> Json.dumps new /\ Json.loads doc = Json.Malformed).
Proof.
  cbv zeta. split; [reflexivity|].
  intros k [-> | ->]; eexists; (split; [vm_compute; reflexivity|]);
    repeat split; vm_compute; congruence.
Qed.

Lemma cache_round_trip_witness :
  wf michigan = true
  /\ closeCache michigan STATE_URL_DICT fresh
     = (Ok tt, written michigan STATE_URL_DICT fresh)
  /\ openCache STATE_URL_DICT (written michigan STATE_URL_DICT fresh)
     = (Ok michigan, written michigan STATE_URL_DICT fresh).
Proof.
  split; [reflexivity|].
  apply (cache_round_trip michigan STATE_URL_DICT fresh). reflexivity.
Defined.

Lemma build_state_url_dict_cached_witness :
  fst (openCache STATE_URL_DICT with_states) = Ok michigan
  /\ py_len michigan = Ok 1 /\ 1 <> 0
  /\ build_state_url_dict (env := env0) with_states
     = (Ok michigan, printed "Using cache" with_states)
  /\ build_state_url_dict (env := env0) (printed "Using cache" with_states)
     = (Ok michigan,
        printed "Using cache" (printed "Using cache" with_states))
  /\ requests (printed "Using cache" (printed "Using cache" with_states))
     = requests with_states
  /\ files (printed "Using cache" (printed "Using cache" with_states))
     = files with_states.
Proof.
  split; [vm_compute; reflexivity|]. split; [reflexivity|].
  split; [discriminate|].
  apply (build_state_url_dict_cached (env := env0) with_states michigan 1);
    [vm_compute; reflexivity | reflexivity | discriminate].
Defined.

(** C4, as stated, fails: a page with no address block and no title block
    ends in an [AttributeError], not in [None]. *)
Lemma get_site_instance_no_address_counterexample :
  fst (openCache SITE_URL_DICT fresh) = Ok (JObj [])
  /\ remote (Env := env0) (requests fresh) bare_url = Ok bare_url
  /\ BeautifulSoup (Env := env0) (Some "html.parser"%string) bare_url
     = bare_page
  /\ Bs4.find "p" [("class", "adr")]%string bare_page = None
  /\ fst (get_site_instance (env := env0) bare_url fresh)
     = Raise AttributeError.
Proof. repeat split; vm_compute; reflexivity. Qed.

Lemma get_site_instance_no_address_witness :
  fst (openCache SITE_URL_DICT fresh) = Ok (JObj [])
  /\ py_contains noco_url (JObj []) = Ok false
  /\ remote (Env := env0) (requests fresh) noco_url = Ok noco_url
  /\ Bs4.find "p" [("class", "adr")]%string noco_page = None
  /\ get_site_instance (env := env0) noco_url fresh
     = (Ok None, requested noco_url (printed "Fetching" fresh))
  /\ files (requested noco_url (printed "Fetching" fresh)) = files fresh
  /\ fst (openCache SITE_URL_DICT
            (requested noco_url (printed "Fetching" fresh)))
     = Ok (JObj []).
Proof.
  split; [reflexivity|]. split; [reflexivity|]. split; [reflexivity|].
  split; [reflexivity|].
  apply (get_site_instance_no_address (env := env0) noco_url fresh (JObj [])
           noco_url
           (title_block "North Country" "National Scenic Trail")
           (Tag "a" [("href", "/")]%string [Text "North Country"])
           (Tag "span" [("class", "Hero-designation")]%string
              [Text "National Scenic Trail"]));
    reflexivity.
Defined.

(** C5, as stated, fails: the region text enters the address trimmed, so
    with spaces around the region the address is not the city, a comma and
    a space, and the region text; and a page with its address block ends in
    an [AttributeError] when the telephone or the title block is missing. *)
Lemma get_site_instance_address_counterexample :
  (Bs4.find "p" [("class", "adr")]%string isro_page
   = Some (address_block "Houghton" " MI " " 49931 ")
   /\ fst (get_site_instance (env := env0) isro_url fresh) = Ok (Some isro)
   /\ address isro <> JStr ("Houghton" +:+ ", " +:+ " MI "))
  /\ (Bs4.find "p" [("class", "adr")]%string silent_page
      = Some (address_block "Houghton" "MI" "49931")
      /\ fst (get_site_instance (env := env0) silent_url fresh)
         = Raise AttributeError)
  /\ (Bs4.find "p" [("class", "adr")]%string untitled_page
      = Some (address_block "Houghton" "MI" "49931")
      /\ fst (get_site_instance (env := env0) untitled_url fresh)
         = Raise AttributeError).
Proof.
  repeat split; try (vm_compute; reflexivity). vm_compute. congruence.
Qed.

Lemma get_site_instance_address_witness :
  fst (openCache SITE_URL_DICT fresh) = Ok (JObj [])
  /\ dict_mem isro_url ([] : list (string * json)) = false
  /\ remote (Env := env0) (requests fresh) isro_url = Ok isro_url
  /\ Bs4.find "p" [("class", "adr")]%string isro_page
     = Some (address_block "Houghton" " MI " " 49931 ")
  /\ fst (get_site_instance (env := env0) isro_url fresh) = Ok (Some isro)
  /\ address isro = JStr "Houghton, MI"
  /\ zipcode isro = JStr "49931"
  /\ is_trimmed "49931" = true
  /\ fst (openCache SITE_URL_DICT
            (snd (get_site_instance (env := env0) isro_url fresh)))
     = Ok (JObj [(isro_url, site_fields isro)]).
Proof.
  split; [reflexivity|]. split; [reflexivity|]. split; [reflexivity|].
  split; [reflexivity|].
  destruct (get_site_instance_address (env := env0) isro_url fresh []
              isro_url
              (title_block "Isle Royale" "National Park")
              (Tag "a" [("href", "/")]%string [Text "Isle Royale"])
              (Tag "span" [("class", "Hero-designation")]%string
                 [Text "National Park"])
              (address_block "Houghton" " MI " " 49931 ")
              (span "addressLocality" "Houghton")
              (span "addressRegion" " MI ")
              (span "postalCode" " 49931 ")
              (span "telephone" " (906) 482-0984 ")
              eq_refl eq_refl eq_refl eq_refl eq_refl eq_refl eq_refl
              eq_refl eq_refl eq_refl eq_refl)
    as (Hrun & Haddr & Hzip & Htrim & Hcache).
  rewrite Hrun. split; [reflexivity|]. split; [exact Haddr|].
  split; [exact Hzip|]. split; [exact Htrim|]. exact Hcache.
Defined.

Lemma get_site_instance_cached_witness :
  fst (openCache SITE_URL_DICT with_isro)
  = Ok (JObj [(isro_url, site_fields isro)])
  /\ get_site_instance (env := env0) isro_url with_isro
     = (Ok (Some isro), printed "Using Cache" with_isro)
  /\ files (printed "Using Cache" with_isro) = files with_isro
  /\ requests (printed "Using Cache" with_isro) = requests with_isro.
Proof.
  split; [vm_compute; reflexivity|].
  apply (get_site_instance_cached (env := env0) isro_url with_isro
           [(isro_url, site_fields isro)]
           [("category", category isro); ("name", name isro);
            ("address", address isro); ("zipcode", zipcode isro);
            ("phone", phone isro)]%string
           (category isro) (name isro) (address isro) (zipcode isro)
           (phone isro));
    vm_compute; reflexivity.
Defined.

Lemma get_sites_for_state_order_witness :
  remote (Env := env0) (requests fresh) mi_url = Ok mi_url
  /\ park_links
       (List.filter is_asset
          (Bs4.find_all "li" [("class", "clearfix")]%string mi_page))
     = Ok [isro_url; noco_url; kewe_url]
  /\ fst (resolve_each (env := env0) [isro_url; noco_url; kewe_url]
            (requested mi_url fresh))
     = Ok [Some isro; None; Some kewe]
  /\ fst (get_sites_for_state (env := env0) mi_url fresh) = Ok [isro; kewe].
Proof.
  split; [reflexivity|]. split; [vm_compute; reflexivity|].
  split; [vm_compute; reflexivity|].
  destruct (get_sites_for_state_order (env := env0) mi_url mi_url fresh
              (snd (resolve_each (env := env0)
                      [isro_url; noco_url; kewe_url] (requested mi_url fresh)))
              [isro_url; noco_url; kewe_url] [Some isro; None; Some kewe])
    as [_ H]; [reflexivity | vm_compute; reflexivity
               | vm_compute; reflexivity |].
  rewrite (H isro kewe eq_refl). reflexivity.
Defined.

(** C7, as stated, fails: with the postal code already in the cache the two
    calls return the same result and open no URL at all. *)
Lemma get_nearby_places_shared_counterexample :
  zipcode isro = zipcode centre
  /\ fst (get_nearby_places (env := env0) isro with_places) = Ok places
  /\ fst (get_nearby_places (env := env0) centre
            (snd (get_nearby_places (env := env0) isro with_places)))
     = Ok places
  /\ requests
       (snd (get_nearby_places (env := env0) centre
               (snd (get_nearby_places (env := env0) isro with_places))))
     = [].
Proof. repeat split; vm_compute; reflexivity. Qed.

Lemma get_nearby_places_shared_witness :
  zipcode isro = JStr "49931" /\ zipcode centre = JStr "49931"
  /\ fst (get_nearby_places (env := env0) isro fresh) = Ok places
  /\ zip_cached "49931" fresh = false
  /\ exists w2,
       get_nearby_places (env := env0) centre
         (snd (get_nearby_places (env := env0) isro fresh))
       = (Ok places, w2)
       /\ requests w2 = [radius_request (env := env0) "49931"].
Proof.
  split; [reflexivity|]. split; [reflexivity|].
  split; [vm_compute; reflexivity|]. split; [reflexivity|].
  destruct (get_nearby_places_shared (env := env0) isro centre "49931" fresh
              (snd (get_nearby_places (env := env0) isro fresh)) places
              eq_refl eq_refl)
    as (w2 & Hrun & Hsame & Hone); [vm_compute; reflexivity|].
  exists w2. split; [exact Hrun|]. rewrite Hsame, Hone. reflexivity.
Defined.

(** C8, as stated, fails: a file that holds a JSON list, which is no
    mapping, is read without an error and the list is returned. *)
Lemma openCache_shape_counterexample :
  files with_list !! SITE_URL_DICT = Some "[1]"%string
  /\ openCache SITE_URL_DICT with_list = (Ok (JArr [JInt 1]), with_list).
Proof. split; vm_compute; reflexivity. Qed.

Lemma openCache_outcomes_witness :
  files fresh !! SITE_URL_DICT = None
  /\ openCache SITE_URL_DICT fresh = (Ok (JObj []), fresh)
  /\ files with_list !! SITE_URL_DICT = Some "[1]"%string
  /\ Json.loads "[1]" = Json.Read (JArr [JInt 1])
  /\ openCache SITE_URL_DICT with_list = (Ok (JArr [JInt 1]), with_list)
  /\ files (World {[ SITE_URL_DICT := "{"%string ]} [] []) !! SITE_URL_DICT
     = Some "{"%string
  /\ Json.loads "{" = Json.Malformed
  /\ openCache SITE_URL_DICT (World {[ SITE_URL_DICT := "{"%string ]} [] [])
     = (Raise JSONDecodeError, World {[ SITE_URL_DICT := "{"%string ]} [] []).
Proof.
  split; [reflexivity|].
  split; [apply (proj1 (openCache_outcomes SITE_URL_DICT fresh));
          reflexivity|].
  split; [reflexivity|]. split; [reflexivity|].
  split; [apply (proj1 (proj2 (proj2
                   (openCache_outcomes SITE_URL_DICT with_list)))
                   "[1]"%string (JArr [JInt 1]));
          reflexivity|].
  split; [reflexivity|]. split; [reflexivity|].
  apply (proj1 (proj2
           (openCache_outcomes SITE_URL_DICT
              (World {[ SITE_URL_DICT := "{"%string ]} [] [])))
           "{"%string);
    reflexivity.
Defined.

End Runs.

(** * More of the program *)

(** ** Effects of the steps *)

Section EffectFacts.
Context {A B : Type}.
Implicit Types (m : M A) (k : A -> M B).

Lemma reads_only_bind m k :
  reads_only m -> (forall a, reads_only (k a)) -> reads_only (bind m k).
Proof.
  intros Hm Hk w. unfold bind. specialize (Hm w).
  destruct (m w) as [[a|e] w1]; simpl in *; [|exact Hm].
  rewrite Hk. exact Hm.
Qed.

Lemma fails_clean_bind m k :
  reads_only m -> (forall a, fails_clean (k a)) -> fails_clean (bind m k).
Proof.
  intros Hm Hk w e. unfold bind. specialize (Hm w).
  destruct (m w) as [[a|e'] w1]; simpl in *; [|intros _; exact Hm].
  intros H. rewrite (Hk a w1 e H). exact Hm.
Qed.

Lemma writes_only_bind f m k :
  writes_only f m -> (forall a, writes_only f (k a)) ->
  writes_only f (bind m k).
Proof.
  intros Hm Hk w g Hg. unfold bind. specialize (Hm w g Hg).
  destruct (m w) as [[a|e] w1]; simpl in *; [|exact Hm].
  rewrite Hk by exact Hg. exact Hm.
Qed.

Lemma log_grows_bind m k :
  log_grows m -> (forall a, log_grows (k a)) -> log_grows (bind m k).
Proof.
  intros Hm Hk w. unfold bind. specialize (Hm w).
  destruct (m w) as [[a|e] w1]; simpl in *; [|exact Hm].
  destruct Hm as [H1 H2]. destruct (Hk a w1) as [H3 H4].
  split; etrans; eauto.
Qed.

Lemma offline_bind m k :
  offline m -> (forall a, offline (k a)) -> offline (bind m k).
Proof.
  intros Hm Hk w. unfold bind. specialize (Hm w).
  destruct (m w) as [[a|e] w1]; simpl in *; [|exact Hm].
  rewrite Hk. exact Hm.
Qed.

Lemma reads_only_fails_clean m : reads_only m -> fails_clean m.
Proof. intros H w e _. apply H. Qed.

Lemma reads_only_writes_only f m : reads_only m -> writes_only f m.
Proof. intros H w g _. rewrite H. reflexivity. Qed.

End EffectFacts.

Lemma reads_only_lift {A} (r : result A) : reads_only (lift r).
Proof. intros w. reflexivity. Qed.

Lemma reads_only_ret {A} (a : A) : reads_only (ret a).
Proof. intros w. reflexivity. Qed.

Lemma reads_only_raise {A} (e : exn) : reads_only (raise (A := A) e).
Proof. intros w. reflexivity. Qed.

Lemma reads_only_print line : reads_only (print line).
Proof. intros w. reflexivity. Qed.

Lemma reads_only_openCache f : reads_only (openCache f).
Proof. intros w. rewrite openCache_pair. reflexivity. Qed.

Lemma writes_only_closeCache c f : writes_only f (closeCache c f).
Proof.
  intros w g Hg. fold (written c f w). rewrite files_written.
  apply lookup_insert_ne. congruence.
Qed.

Lemma log_grows_quiet {A} (m : M A) :
  (forall w, requests (snd (m w)) = requests w
             /\ stdout (snd (m w)) = stdout w) ->
  log_grows m.
Proof. intros H w. destruct (H w) as [-> ->]. split; reflexivity. Qed.

Lemma log_grows_lift {A} (r : result A) : log_grows (lift r).
Proof. apply log_grows_quiet. intros w. split; reflexivity. Qed.

Lemma log_grows_ret {A} (a : A) : log_grows (ret a).
Proof. apply log_grows_quiet. intros w. split; reflexivity. Qed.

Lemma log_grows_raise {A} (e : exn) : log_grows (raise (A := A) e).
Proof. apply log_grows_quiet. intros w. split; reflexivity. Qed.

Lemma log_grows_openCache f : log_grows (openCache f).
Proof.
  apply log_grows_quiet. intros w. rewrite openCache_pair.
  split; reflexivity.
Qed.

Lemma log_grows_closeCache c f : log_grows (closeCache c f).
Proof. apply log_grows_quiet. intros w. split; reflexivity. Qed.

Lemma log_grows_print line : log_grows (print line).
Proof.
  intros w. simpl. split; [reflexivity | apply prefix_app_r; reflexivity].
Qed.

Lemma offline_lift {A} (r : result A) : offline (lift r).
Proof. intros w. reflexivity. Qed.

Lemma offline_ret {A} (a : A) : offline (ret a).
Proof. intros w. reflexivity. Qed.

Lemma offline_raise {A} (e : exn) : offline (raise (A := A) e).
Proof. intros w. reflexivity. Qed.

Lemma offline_print line : offline (print line).
Proof. intros w. reflexivity. Qed.

Lemma offline_openCache f : offline (openCache f).
Proof. intros w. rewrite openCache_pair. reflexivity. Qed.

Lemma offline_closeCache c f : offline (closeCache c f).
Proof. intros w. reflexivity. Qed.

Section StepFacts.
Context `{env : Env}.

Lemma reads_only_urlopen_read url : reads_only (urlopen_read url).
Proof. intros w. reflexivity. Qed.

Lemma log_grows_urlopen_read url : log_grows (urlopen_read url).
Proof.
  intros w. simpl. split; [apply prefix_app_r; reflexivity | reflexivity].
Qed.

End StepFacts.

Create HintDb effects.
#[export] Hint Resolve reads_only_lift reads_only_ret reads_only_raise
  reads_only_print reads_only_openCache reads_only_urlopen_read
  log_grows_lift log_grows_ret log_grows_raise log_grows_print
  log_grows_openCache log_grows_closeCache log_grows_urlopen_read
  writes_only_closeCache offline_lift offline_ret offline_raise offline_print
  offline_openCache offline_closeCache : effects.

(** Splits a computation at its binds and branches. *)
Ltac split_effects :=
  repeat first
    [ progress intros
    | apply reads_only_bind | apply writes_only_bind | apply log_grows_bind
    | apply offline_bind
    | solve [auto with effects]
    | solve [apply reads_only_writes_only; auto with effects]
    | match goal with
      | |- context [match ?x with _ => _ end] => destruct x
      | |- context [if ?x then _ else _] => destruct x
      end ].

Section FunctionEffects.
Context `{env : Env}.

Lemma writes_only_get_site_instance u :
  writes_only SITE_URL_DICT (get_site_instance u).
Proof. unfold get_site_instance. split_effects. Qed.

Lemma log_grows_get_site_instance u : log_grows (get_site_instance u).
Proof. unfold get_site_instance. split_effects. Qed.

Lemma writes_only_build_state_url_dict :
  writes_only STATE_URL_DICT build_state_url_dict.
Proof. unfold build_state_url_dict. split_effects. Qed.

Lemma log_grows_build_state_url_dict : log_grows build_state_url_dict.
Proof. unfold build_state_url_dict. split_effects. Qed.

Lemma writes_only_get_nearby_places s :
  writes_only NEARBY_PLACES (get_nearby_places s).
Proof. unfold get_nearby_places. split_effects. Qed.

Lemma log_grows_get_nearby_places s : log_grows (get_nearby_places s).
Proof. unfold get_nearby_places. split_effects. Qed.

Lemma writes_only_sites_of_blocks blocks :
  forall acc, writes_only SITE_URL_DICT (sites_of_blocks blocks acc).
Proof.
  induction blocks as [|b blocks IH]; intros acc; cbn [sites_of_blocks].
  - split_effects.
  - destruct (Bs4.get b "id"); [|apply IH].
    destruct (negb _); [apply IH|].
    do 4 (apply writes_only_bind;
          [apply reads_only_writes_only; auto with effects|intros ?]).
    cbv zeta.
    apply writes_only_bind; [apply writes_only_get_site_instance|].
    intros [ns|]; apply IH.
Qed.

Lemma log_grows_sites_of_blocks blocks :
  forall acc, log_grows (sites_of_blocks blocks acc).
Proof.
  induction blocks as [|b blocks IH]; intros acc; cbn [sites_of_blocks].
  - split_effects.
  - destruct (Bs4.get b "id"); [|apply IH].
    destruct (negb _); [apply IH|].
    do 4 (apply log_grows_bind; [solve [auto with effects]|intros ?]).
    cbv zeta.
    apply log_grows_bind; [apply log_grows_get_site_instance|].
    intros [ns|]; apply IH.
Qed.

End FunctionEffects.

Lemma fails_clean_bind_closeCache {A} c f (a : A) :
  fails_clean (closeCache c f ;;; ret a).
Proof. intros w e. unfold bind, closeCache, ret. simpl. discriminate. Qed.

(** Splits a computation that writes at its very end only. *)
Ltac split_fails_clean :=
  repeat first
    [ progress intros
    | apply fails_clean_bind_closeCache
    | apply fails_clean_bind; [solve [auto with effects]|]
    | solve [apply reads_only_fails_clean; auto with effects]
    | match goal with
      | |- context [match ?x with _ => _ end] => destruct x
      | |- context [if ?x then _ else _] => destruct x
      end ].

Section Effects.
Context `{env : Env}.

(** The three cache files are independent: each function changes no file
    but the one of its own domain. *)
Theorem cache_domains_independent :
  writes_only STATE_URL_DICT build_state_url_dict
  /\ (forall site_url, writes_only SITE_URL_DICT (get_site_instance site_url))
  /\ (forall state_url,
        writes_only SITE_URL_DICT (get_sites_for_state state_url))
  /\ (forall site_object,
        writes_only NEARBY_PLACES (get_nearby_places site_object)).
Proof.
  split; [apply writes_only_build_state_url_dict|].
  split; [apply writes_only_get_site_instance|].
  split; [|apply writes_only_get_nearby_places].
  intros u. unfold get_sites_for_state.
  apply writes_only_bind;
    [apply reads_only_writes_only, reads_only_urlopen_read|].
  intros html. apply writes_only_sites_of_blocks.
Qed.

(** A call that ends in an exception has written nothing: the cache file
    is written as the last step before the result is returned. *)
Theorem no_write_on_failure :
  fails_clean build_state_url_dict
  /\ (forall site_url, fails_clean (get_site_instance site_url))
  /\ (forall site_object, fails_clean (get_nearby_places site_object)).
Proof.
  split; [|split].
  - unfold build_state_url_dict. split_fails_clean.
  - intros u. unfold get_site_instance. split_fails_clean.
  - intros s. unfold get_nearby_places. split_fails_clean.
Qed.

Lemma urlopen_then_offline {B} url (k : string -> M B) w :
  (forall html, offline (k html)) ->
  requests (snd ((html <- urlopen_read url ;; k html) w))
  = requests w ++ [url].
Proof.
  intros Hk. unfold bind, urlopen_read.
  destruct (remote (requests w) url) as [html|e]; [|reflexivity].
  rewrite Hk. reflexivity.
Qed.

Ltac split_offline :=
  repeat first
    [ progress intros
    | apply offline_bind
    | solve [auto with effects]
    | match goal with
      | |- context [match ?x with _ => _ end] => destruct x
      | |- context [if ?x then _ else _] => destruct x
      end ].

Lemma requests_of_get_site_instance (site_url : string) (w : world)
  (c : json) :
  fst (openCache SITE_URL_DICT w) = Ok c ->
  requests (snd (get_site_instance site_url w))
  = match py_contains site_url c with
    | Ok false => requests w ++ [site_url]
    | _ => requests w
    end.
Proof.
  intros Hc.
  unfold get_site_instance. unfold bind at 1. rewrite openCache_pair, Hc.
  cbn [fst snd]. unfold bind at 1, lift at 1.
  destruct (py_contains site_url c) as [[|]|e]; [| |reflexivity].
  - assert (offline
      (c0 <- lift (py_getitem c site_url);;
       print "Using Cache";;;
       c_category <- lift (py_getitem c0 "category");;
       c_name <- lift (py_getitem c0 "name");;
       c_address <- lift (py_getitem c0 "address");;
       c_zipcode <- lift (py_getitem c0 "zipcode");;
       c_phone <- lift (py_getitem c0 "phone");;
       ret (Some (mkNationalSite c_category c_name c_address c_zipcode
                    c_phone)))) as H by split_offline.
    apply H.
  - unfold bind at 1, print at 1. cbn [fst snd].
    rewrite urlopen_then_offline; [reflexivity|]. split_offline.
Qed.

(** When the site cache is read (there is no file, or the file holds
    a document), [get_site_instance] opens a URL exactly on a miss, and
    then exactly one: the URL of the site, whatever becomes of the page.
    When the decoder refuses the file, no URL is opened. *)
Theorem get_site_instance_requests (site_url : string) (w : world) :
  (forall cache,
     fst (openCache SITE_URL_DICT w) = Ok cache ->
     requests (snd (get_site_instance site_url w))
     = match py_contains site_url cache with
       | Ok false => requests w ++ [site_url]
       | _ => requests w
       end)
  /\ (fst (openCache SITE_URL_DICT w) = Raise JSONDecodeError ->
      requests (snd (get_site_instance site_url w)) = requests w).
Proof.
  split.
  - intros cache Hc. apply requests_of_get_site_instance, Hc.
  - intros Hc. unfold get_site_instance. unfold bind at 1.
    rewrite openCache_pair, Hc. reflexivity.
Qed.

(** When the places cache is read (there is no file, or the file
    holds a document), [get_nearby_places] opens a URL exactly when the
    postal code is not in it, and then exactly one: the radius search for
    that postal code.  When the decoder refuses the file, no URL is
    opened. *)
Theorem get_nearby_places_requests (site_object : NationalSite) (z : string)
  (w : world) :
  zipcode site_object = JStr z ->
  (forall cache,
     fst (openCache NEARBY_PLACES w) = Ok cache ->
     requests (snd (get_nearby_places site_object w))
     = match py_contains z cache with
       | Ok false => requests w ++ [radius_request z]
       | _ => requests w
       end)
  /\ (fst (openCache NEARBY_PLACES w) = Raise JSONDecodeError ->
      requests (snd (get_nearby_places site_object w)) = requests w).
Proof.
  intros Hz. unfold get_nearby_places. rewrite Hz. split.
  - intros c Hc. unfold bind at 1. rewrite openCache_pair, Hc.
    cbn [fst snd]. unfold bind at 1, lift at 1.
    destruct (py_contains z c) as [[|]|e]; [reflexivity| |reflexivity].
    unfold bind at 1, print at 1. cbn [fst snd].
    rewrite urlopen_then_offline; [reflexivity|]. split_offline.
  - intros Hc. unfold bind at 1. rewrite openCache_pair, Hc. reflexivity.
Qed.

Lemma requests_of_build_state_url_dict (w : world) :
  requests (snd (build_state_url_dict w))
  = match fst (openCache STATE_URL_DICT w) with
    | Ok cache =>
        match py_len cache with
        | Ok 0 => requests w ++ [TARGET_URL]
        | _ => requests w
        end
    | Raise _ => requests w
    end.
Proof.
  unfold build_state_url_dict. unfold bind at 1. rewrite openCache_pair.
  destruct (fst (openCache STATE_URL_DICT w)) as [c|e]; [|reflexivity].
  cbn [fst snd]. unfold bind at 1, lift at 1.
  destruct (py_len c) as [n|e]; [|reflexivity].
  destruct n as [|p|p]; try reflexivity.
  cbn [Z.eqb negb]. unfold bind at 1, print at 1. cbn [fst snd].
  rewrite urlopen_then_offline; [reflexivity|]. split_offline.
Qed.

(** [build_state_url_dict] opens a URL exactly when the cache it could
    read is empty, and then exactly one: the directory page. *)
Theorem build_state_url_dict_requests (w : world) :
  requests (snd (build_state_url_dict w))
  = match fst (openCache STATE_URL_DICT w) with
    | Ok cache =>
        match py_len cache with
        | Ok 0 => requests w ++ [TARGET_URL]
        | _ => requests w
        end
    | Raise _ => requests w
    end.
Proof. apply requests_of_build_state_url_dict. Qed.

(** The list of a state is never taken from a cache: every call of
    [get_sites_for_state] opens the state page first, and nothing that was
    requested or printed before is lost. *)
Theorem get_sites_for_state_live (state_url : string) (w : world) :
  exists rest,
    requests (snd (get_sites_for_state state_url w))
    = requests w ++ state_url :: rest.
Proof.
  unfold get_sites_for_state, bind, urlopen_read.
  destruct (remote (requests w) state_url) as [html|e].
  - cbv zeta.
    match goal with |- context [sites_of_blocks ?b ?a ?w0] =>
      destruct (log_grows_sites_of_blocks b a w0) as [[rest Hr] _]
    end.
    exists rest. rewrite Hr. simpl. rewrite <- app_assoc. reflexivity.
  - exists []. reflexivity.
Qed.

End Effects.

Section DictMore.
Context {V : Type}.
Implicit Types (d : list (string * V)) (k : string) (v : V).

Lemma dict_get_set_ne k k' v d :
  k' <> k -> dict_get k' (dict_set k v d) = dict_get k' d.
Proof.
  intros Hne. induction d as [|[k0 v0] d IH]; simpl.
  - destruct (String.eqb_spec k' k); [congruence|reflexivity].
  - destruct (String.eqb_spec k k0) as [->|Hk]; simpl.
    + destruct (String.eqb_spec k' k0); [congruence|reflexivity].
    + destruct (String.eqb_spec k' k0); [reflexivity|exact IH].
Qed.

End DictMore.

Lemma wf_dict_set k v d :
  wf (JObj d) = true -> wf v = true -> wf (JObj (dict_set k v d)) = true.
Proof.
  intros Hd Hv. simpl in *. apply andb_true_iff in Hd as [Hnd Hall].
  apply bool_decide_eq_true in Hnd.
  rewrite bool_decide_eq_true_2 by (apply dict_set_NoDup, Hnd).
  apply dict_set_forallb; auto.
Qed.

Section SiteMore.
Context `{env : Env}.

(** A hit, for any entry that has the five fields. *)
Lemma get_site_instance_hit site_url w d c ns :
  fst (openCache SITE_URL_DICT w) = Ok (JObj d) ->
  dict_get site_url d = Some c ->
  holds_site c ns ->
  get_site_instance site_url w = (Ok (Some ns), printed "Using Cache" w).
Proof.
  intros Hc Hd (H1 & H2 & H3 & H4 & H5). unfold get_site_instance.
  erewrite bind_ok by (rewrite openCache_pair, Hc; reflexivity).
  unfold bind, lift, print, ret, py_contains, dict_mem.
  cbn [py_getitem]. rewrite Hd, H1, H2, H3, H4, H5.
  destruct ns; reflexivity.
Qed.

Lemma lift_Ok {A} (r : result A) w a w1 :
  lift r w = (Ok a, w1) -> r = Ok a /\ w1 = w.
Proof. unfold lift. intros H; inversion H. auto. Qed.

(** What a call that returns a site leaves behind. *)
Lemma get_site_instance_Some site_url w ns w1 :
  get_site_instance site_url w = (Ok (Some ns), w1) ->
  exists d d1 c,
    fst (openCache SITE_URL_DICT w) = Ok (JObj d)
    /\ fst (openCache SITE_URL_DICT w1) = Ok (JObj d1)
    /\ dict_get site_url d1 = Some c /\ holds_site c ns
    /\ (forall u, u <> site_url -> dict_get u d1 = dict_get u d)
    /\ (dict_mem site_url d = true -> w1 = printed "Using Cache" w)
    /\ (dict_mem site_url d = false ->
        requests w1 = requests w ++ [site_url]
        /\ exists n c a z p,
             ns = mkNationalSite (JStr c) (JStr n) (JStr a) (JStr z) (JStr p)
             /\ is_trimmed z = true /\ is_trimmed p = true).
Proof.
  unfold get_site_instance. intros H.
  apply bind_Ok in H as (c & w0 & Hc & H).
  rewrite openCache_pair in Hc. inversion Hc as [[Hc' Hw0]]. subst w0.
  clear Hc.
  apply bind_Ok in H as (hit & w0 & Hhit & H).
  apply lift_Ok in Hhit as [Hhit ->]. destruct hit.
  - apply bind_Ok in H as (c0 & w0 & H0 & H). apply lift_Ok in H0 as [H0 ->].
    apply bind_Ok in H as ([] & w0 & Hp & H). inversion Hp. subst w0.
    clear Hp.
    apply bind_Ok in H as (v1 & w0 & H1 & H). apply lift_Ok in H1 as [H1 ->].
    apply bind_Ok in H as (v2 & w0 & H2 & H). apply lift_Ok in H2 as [H2 ->].
    apply bind_Ok in H as (v3 & w0 & H3 & H). apply lift_Ok in H3 as [H3 ->].
    apply bind_Ok in H as (v4 & w0 & H4 & H). apply lift_Ok in H4 as [H4 ->].
    apply bind_Ok in H as (v5 & w0 & H5 & H). apply lift_Ok in H5 as [H5 ->].
    inversion H. subst ns w1. clear H.
    destruct c as [| | | | |d]; try discriminate.
    simpl in H0. destruct (dict_get site_url d) as [c|] eqn:Hd;
      inversion H0. subst c0.
    exists d, d, c. split; [exact Hc'|]. split.
    { rewrite <- Hc'. apply openCache_files. reflexivity. }
    split; [exact Hd|]. split; [repeat split; assumption|].
    split; [reflexivity|]. split; [reflexivity|].
    simpl in Hhit. congruence.
  - apply bind_Ok in H as ([] & w0 & Hp & H). inversion Hp. subst w0.
    clear Hp.
    apply bind_Ok in H as (html & w0 & Hf & H).
    unfold urlopen_read in Hf. inversion Hf as [[Hf' Hw0]]. subst w0.
    clear Hf. cbv zeta in H.
    apply bind_Ok in H as (ta & w0 & H1 & H). apply lift_Ok in H1 as [H1 ->].
    apply bind_Ok in H as (nm & w0 & H2 & H). apply lift_Ok in H2 as [H2 ->].
    apply bind_Ok in H as (ds & w0 & H3 & H). apply lift_Ok in H3 as [H3 ->].
    apply bind_Ok in H as (ct & w0 & H4 & H). apply lift_Ok in H4 as [H4 ->].
    destruct (Bs4.find "p" _ _) as [adr|]; [|discriminate].
    apply bind_Ok in H as (x1 & w0 & G1 & H). apply lift_Ok in G1 as [G1 ->].
    apply bind_Ok in H as (x2 & w0 & G2 & H). apply lift_Ok in G2 as [G2 ->].
    apply bind_Ok in H as (x3 & w0 & G3 & H). apply lift_Ok in G3 as [G3 ->].
    apply bind_Ok in H as (x4 & w0 & G4 & H). apply lift_Ok in G4 as [G4 ->].
    apply bind_Ok in H as (x5 & w0 & G5 & H). apply lift_Ok in G5 as [G5 ->].
    apply bind_Ok in H as (x6 & w0 & G6 & H). apply lift_Ok in G6 as [G6 ->].
    apply bind_Ok in H as (x7 & w0 & G7 & H). apply lift_Ok in G7 as [G7 ->].
    cbv zeta in H.
    apply bind_Ok in H as (cache' & w0 & G8 & H).
    apply lift_Ok in G8 as [G8 ->].
    apply bind_Ok in H as ([] & w0 & Hcl & H). inversion H. subst ns w0.
    clear H.
    match type of Hcl with closeCache _ _ ?w3 = _ =>
      assert (w1 = written cache' SITE_URL_DICT w3) as Hw1
        by (unfold written; rewrite Hcl; reflexivity)
    end.
    clear Hcl.
    destruct c as [| | | | |d]; try discriminate.
    simpl in G8. inversion G8. subst cache'. clear G8.
    assert (dict_mem site_url d = false) as Hmem
      by (simpl in Hhit; congruence).
    clear Hhit.
    eexists d, _, _. split; [exact Hc'|]. split.
    { rewrite Hw1. apply openCache_written. apply wf_dict_set.
      - eapply openCache_wf, Hc'.
      - reflexivity. }
    split; [apply dict_get_set|]. split; [repeat split; reflexivity|].
    split; [intros u Hu; apply dict_get_set_ne, Hu|].
    split; [congruence|]. intros _. split; [rewrite Hw1; reflexivity|].
    eexists _, _, _, _, _. split; [reflexivity|].
    split; apply strip_trimmed.
Qed.

(** What a call that returns [None] has done: it was a miss, the page
    was fetched, and nothing else happened. *)
Lemma get_site_instance_None site_url w w1 :
  get_site_instance site_url w = (Ok None, w1) ->
  w1 = requested site_url (printed "Fetching" w)
  /\ exists c, fst (openCache SITE_URL_DICT w) = Ok c
               /\ py_contains site_url c = Ok false.
Proof.
  unfold get_site_instance. intros H.
  apply bind_Ok in H as (c & w0 & Hc & H).
  rewrite openCache_pair in Hc. inversion Hc as [[Hc' Hw0]]. subst w0.
  clear Hc.
  apply bind_Ok in H as (hit & w0 & Hhit & H).
  apply lift_Ok in Hhit as [Hhit ->]. destruct hit.
  - apply bind_Ok in H as (c0 & w0 & H0 & H). apply lift_Ok in H0 as [H0 ->].
    apply bind_Ok in H as ([] & w0 & Hp & H).
    apply bind_Ok in H as (v1 & w2 & H1 & H).
    apply bind_Ok in H as (v2 & w3 & H2 & H).
    apply bind_Ok in H as (v3 & w4 & H3 & H).
    apply bind_Ok in H as (v4 & w5 & H4 & H).
    apply bind_Ok in H as (v5 & w6 & H5 & H). inversion H.
  - apply bind_Ok in H as ([] & w0 & Hp & H). inversion Hp. subst w0.
    clear Hp.
    apply bind_Ok in H as (html & w0 & Hf & H).
    unfold urlopen_read in Hf. inversion Hf as [[Hf' Hw0]]. subst w0.
    clear Hf. cbv zeta in H.
    apply bind_Ok in H as (ta & w0 & H1 & H). apply lift_Ok in H1 as [H1 ->].
    apply bind_Ok in H as (nm & w0 & H2 & H). apply lift_Ok in H2 as [H2 ->].
    apply bind_Ok in H as (ds & w0 & H3 & H). apply lift_Ok in H3 as [H3 ->].
    apply bind_Ok in H as (ct & w0 & H4 & H). apply lift_Ok in H4 as [H4 ->].
    destruct (Bs4.find "p" _ _) as [adr|].
    + apply bind_Ok in H as (x1 & w0 & G1 & H).
      apply bind_Ok in H as (x2 & w2 & G2 & H).
      apply bind_Ok in H as (x3 & w3 & G3 & H).
      apply bind_Ok in H as (x4 & w4 & G4 & H).
      apply bind_Ok in H as (x5 & w5 & G5 & H).
      apply bind_Ok in H as (x6 & w6 & G6 & H).
      apply bind_Ok in H as (x7 & w7 & G7 & H). cbv zeta in H.
      apply bind_Ok in H as (x8 & w8 & G8 & H).
      apply bind_Ok in H as (x9 & w9 & G9 & H). inversion H.
    + inversion H. split; [reflexivity|]. eauto.
Qed.

(** A site that was returned is in the cache: asked again, the same site
    comes back from the cache file and no URL is opened. *)
Theorem get_site_instance_again (site_url : string) (w w1 : world)
  (ns : NationalSite) :
  get_site_instance site_url w = (Ok (Some ns), w1) ->
  get_site_instance site_url w1 = (Ok (Some ns), printed "Using Cache" w1)
  /\ requests (printed "Using Cache" w1) = requests w1.
Proof.
  intros H. split; [|reflexivity].
  apply get_site_instance_Some in H
    as (d & d1 & c & _ & Hc1 & Hd1 & Hs & _).
  eapply get_site_instance_hit; eassumption.
Qed.

(** A site without an address block is never remembered: the call that
    returned [None] wrote nothing, and the next call for the same URL
    fetches the page again. *)
Theorem get_site_instance_none_refetched (site_url : string) (w w1 : world) :
  get_site_instance site_url w = (Ok None, w1) ->
  files w1 = files w
  /\ requests w1 = requests w ++ [site_url]
  /\ requests (snd (get_site_instance site_url w1))
     = requests w1 ++ [site_url].
Proof.
  intros H. apply get_site_instance_None in H as (-> & c & Hc & Hmiss).
  split; [reflexivity|]. split; [reflexivity|].
  rewrite (requests_of_get_site_instance _ _ c)
    by (rewrite (openCache_files _ w) by reflexivity; exact Hc).
  rewrite Hmiss. reflexivity.
Qed.

(** Resolving a site keeps every other entry of the site cache. *)
Theorem get_site_instance_keeps_entries (site_url : string) (w w1 : world)
  (r : option NationalSite) (d : list (string * json)) :
  get_site_instance site_url w = (Ok r, w1) ->
  fst (openCache SITE_URL_DICT w) = Ok (JObj d) ->
  exists d1,
    fst (openCache SITE_URL_DICT w1) = Ok (JObj d1)
    /\ forall u, u <> site_url -> dict_get u d1 = dict_get u d.
Proof.
  intros H Hc. destruct r as [ns|].
  - apply get_site_instance_Some in H
      as (d0 & d1 & c & Hc0 & Hc1 & _ & _ & Hfr & _).
    rewrite Hc in Hc0. inversion Hc0. subst d0. eauto.
  - apply get_site_instance_None in H as (-> & _).
    exists d. split; [|reflexivity]. rewrite <- Hc.
    apply openCache_files. reflexivity.
Qed.

End SiteMore.

Section DictMem.
Context {V : Type}.
Implicit Types (d : list (string * V)) (k : string) (v : V).

Lemma dict_mem_set_ne k k' v d :
  k' <> k -> dict_mem k' (dict_set k v d) = dict_mem k' d.
Proof. intros H. unfold dict_mem. rewrite dict_get_set_ne by exact H. reflexivity. Qed.

End DictMem.

Section DirectoryFacts.
Context `{env : Env}.

(** The loop over the areas, from any mapping built so far. *)
Lemma state_links_from areas :
  forall rd0 rd,
    state_links areas rd0 = Ok rd ->
    (wf (JObj rd0) = true -> wf (JObj rd) = true)
    /\ forall k,
         (dict_mem k rd = true <->
          dict_mem k rd0 = true
          \/ exists area alt,
               area ∈ areas /\ Bs4.get area "alt" = Some alt
               /\ Py.lower alt = k)
         /\ (forall v, dict_get k rd = Some v ->
             dict_get k rd0 = Some v
             \/ exists area alt href,
                  area ∈ areas /\ Bs4.get area "alt" = Some alt
                  /\ Bs4.get area "href" = Some href
                  /\ Py.lower alt = k /\ v = JStr (BASE_URL +:+ href)).
Proof.
  induction areas as [|area areas IH]; intros rd0 rd H.
  - simpl in H. inversion H. subst. split; [auto|]. intros k. split.
    + split; [auto|]. intros [?|(a & ? & Ha & _)]; [assumption|].
      inversion Ha.
    + auto.
  - cbn [state_links] in H.
    apply rbind_Ok in H as (alt & Halt & H).
    apply rbind_Ok in H as (href & Hhref & H).
    unfold attr_of in Halt, Hhref.
    destruct (Bs4.get area "alt") as [alt'|] eqn:Ea; inversion Halt.
    subst alt'.
    destruct (Bs4.get area "href") as [href'|] eqn:Eh; inversion Hhref.
    subst href'.
    apply IH in H as [Hwf Hk]. split.
    { intros H0. apply Hwf, wf_dict_set; [exact H0|reflexivity]. }
    intros k. destruct (Hk k) as [Hm Hg]. split.
    + rewrite Hm. destruct (String.eqb_spec k (Py.lower alt)) as [->|Hne].
      * rewrite dict_mem_set. split; [intros _|auto].
        right. exists area, alt. split; [left|auto].
      * rewrite dict_mem_set_ne by exact Hne. split.
        -- intros [?|(a & al & Ha & ? & ?)]; [auto|].
           right. exists a, al. split; [right; exact Ha|auto].
        -- intros [?|(a & al & Ha & Hal & Hl)]; [auto|].
           apply elem_of_cons in Ha as [->|Ha].
           ++ rewrite Ea in Hal. inversion Hal. subst. congruence.
           ++ right. exists a, al. auto.
    + intros v Hv. destruct (Hg v Hv) as [H0|(a & al & hr & Ha & ?)].
      * destruct (String.eqb_spec k (Py.lower alt)) as [->|Hne].
        -- rewrite dict_get_set in H0. inversion H0. subst v.
           right. exists area, alt, href. split; [left|auto].
        -- rewrite dict_get_set_ne in H0 by exact Hne. auto.
      * right. exists a, al, hr. split; [right; exact Ha|assumption].
Qed.

(** The directory built from the areas of the page has a state exactly
    when some area carries its name, lower-cased, and every link in it is
    the link of such an area put after the base URL. *)
Theorem state_links_lookup (areas : list node) (rd : list (string * json))
  (k : string) :
  state_links areas [] = Ok rd ->
  (dict_mem k rd = true <->
   exists area alt,
     area ∈ areas /\ Bs4.get area "alt" = Some alt /\ Py.lower alt = k)
  /\ (forall v, dict_get k rd = Some v ->
      exists area alt href,
        area ∈ areas /\ Bs4.get area "alt" = Some alt
        /\ Bs4.get area "href" = Some href
        /\ Py.lower alt = k /\ v = JStr (BASE_URL +:+ href)).
Proof.
  intros H. apply state_links_from in H as [_ Hk].
  destruct (Hk k) as [Hm Hg]. split.
  - rewrite Hm. split; [intros [H0|H0]; [discriminate|exact H0] | auto].
  - intros v Hv. destruct (Hg v Hv) as [H0|H0]; [discriminate|exact H0].
Qed.

(** The loop fails only with [KeyError], and only on an area without its
    [alt] or without its [href]. *)
Theorem state_links_failure (areas : list node) (rd0 : list (string * json))
  (e : exn) :
  state_links areas rd0 = Raise e ->
  e = KeyError
  /\ exists area,
       area ∈ areas
       /\ (Bs4.get area "alt" = None \/ Bs4.get area "href" = None).
Proof.
  revert rd0. induction areas as [|area areas IH]; intros rd0 H.
  - discriminate.
  - cbn [state_links] in H. unfold attr_of in H.
    destruct (Bs4.get area "alt") as [alt|] eqn:Ea.
    + destruct (Bs4.get area "href") as [href|] eqn:Eh.
      * simpl in H. apply IH in H as (-> & a & Ha & Hno).
        split; [reflexivity|]. exists a. split; [right; exact Ha|exact Hno].
      * simpl in H. inversion H. split; [reflexivity|].
        exists area. split; [left|auto].
    + simpl in H. inversion H. split; [reflexivity|].
      exists area. split; [left|auto].
Qed.

(** With nothing in the cache, the directory is fetched once, returned
    and written to the cache file.  A directory that is not empty serves
    the next call; an empty one does not: the next call opens the
    directory page again. *)
Theorem build_state_url_dict_fetch (w : world) (c : json) (html : string)
  (rd : list (string * json)) :
  fst (openCache STATE_URL_DICT w) = Ok c ->
  py_len c = Ok 0 ->
  remote (requests w) TARGET_URL = Ok html ->
  state_links
    (Bs4.find_all "area" [] (BeautifulSoup (Some "html.parser"%string) html))
    [] = Ok rd ->
  let w1 :=
    written (JObj rd) STATE_URL_DICT
      (requested TARGET_URL (printed "Fetching" w)) in
  build_state_url_dict w = (Ok (JObj rd), w1)
  /\ fst (openCache STATE_URL_DICT w1) = Ok (JObj rd)
  /\ (rd <> [] ->
      build_state_url_dict w1 = (Ok (JObj rd), printed "Using cache" w1))
  /\ (rd = [] ->
      requests (snd (build_state_url_dict w1)) = requests w1 ++ [TARGET_URL]).
Proof.
  intros Hc Hn Hf Hl. cbv zeta.
  assert (fst (openCache STATE_URL_DICT
                 (written (JObj rd) STATE_URL_DICT
                    (requested TARGET_URL (printed "Fetching" w))))
          = Ok (JObj rd)) as Hc1.
  { apply openCache_written.
    apply state_links_from in Hl as [Hwf _]. apply Hwf. reflexivity. }
  split; [|split; [exact Hc1|split]].
  - unfold build_state_url_dict.
    erewrite bind_ok by (rewrite openCache_pair, Hc; reflexivity).
    erewrite bind_ok by (unfold lift; rewrite Hn; reflexivity).
    cbn [Z.eqb negb].
    erewrite bind_ok by reflexivity.
    erewrite bind_ok
      by (unfold urlopen_read; cbn [requests]; rewrite Hf; reflexivity).
    cbv zeta.
    erewrite bind_ok by (unfold lift; rewrite Hl; reflexivity).
    reflexivity.
  - intros Hne. unfold build_state_url_dict.
    erewrite bind_ok by (rewrite openCache_pair, Hc1; reflexivity).
    erewrite bind_ok by reflexivity.
    destruct rd; [congruence|]. reflexivity.
  - intros ->. rewrite requests_of_build_state_url_dict, Hc1. reflexivity.
Qed.

End DirectoryFacts.

Section NearbyMore.
Context `{env : Env}.
Import JsonRoundTrip.

(** A result that was returned is in the cache under the postal code, and
    the entries of the other postal codes are as before. *)
Theorem get_nearby_places_stored (site_object : NationalSite) (z : string)
  (w w1 : world) (d : json) :
  zipcode site_object = JStr z ->
  get_nearby_places site_object w = (Ok d, w1) ->
  exists dd dd1,
    fst (openCache NEARBY_PLACES w) = Ok (JObj dd)
    /\ fst (openCache NEARBY_PLACES w1) = Ok (JObj dd1)
    /\ dict_get z dd1 = Some d
    /\ forall z', z' <> z -> dict_get z' dd1 = dict_get z' dd.
Proof.
  intros Hz. unfold get_nearby_places. rewrite Hz. intros H.
  apply bind_Ok in H as (c & w0 & Hc & H).
  rewrite openCache_pair in Hc. inversion Hc as [[Hc' Hw0]]. subst w0.
  clear Hc.
  apply bind_Ok in H as (hit & w0 & Hhit & H).
  apply lift_Ok in Hhit as [Hhit ->]. destruct hit.
  - apply bind_Ok in H as ([] & w0 & Hp & H). inversion Hp. subst w0.
    clear Hp. apply lift_Ok in H as [Hd ->].
    destruct c as [| | | | |dd]; try discriminate.
    simpl in Hd. destruct (dict_get z dd) as [v|] eqn:E; inversion Hd.
    subst v. exists dd, dd. split; [exact Hc'|]. split.
    { rewrite <- Hc'. apply openCache_files. reflexivity. }
    split; [exact E|reflexivity].
  - apply bind_Ok in H as ([] & w0 & Hp & H). inversion Hp. subst w0.
    clear Hp.
    apply bind_Ok in H as (js & w0 & Hf & H).
    unfold urlopen_read in Hf. inversion Hf as [[Hf' Hw0]]. subst w0.
    clear Hf.
    destruct (Json.loads js) as [d'| |] eqn:Hload; try discriminate.
    apply bind_Ok in H as (cache' & w0 & Hset & H).
    apply lift_Ok in Hset as [Hset ->].
    apply bind_Ok in H as ([] & w0 & Hcl & H). inversion H. subst d' w0.
    clear H.
    match type of Hcl with closeCache _ _ ?w3 = _ =>
      assert (w1 = written cache' NEARBY_PLACES w3) as Hw1
        by (unfold written; rewrite Hcl; reflexivity)
    end.
    clear Hcl.
    destruct c as [| | | | |dd]; try discriminate.
    simpl in Hset. inversion Hset. subst cache'. clear Hset.
    exists dd, (dict_set z d dd). split; [exact Hc'|]. split.
    { rewrite Hw1. apply openCache_written, wf_dict_set.
      - eapply openCache_wf, Hc'.
      - eapply loads_wf, Hload. }
    split; [apply dict_get_set|].
    intros z' Hz'. apply dict_get_set_ne, Hz'.
Qed.

End NearbyMore.

(** ** The text of a site *)

Lemma py_add_Ok a b v :
  py_add a b = Ok v ->
  exists x y, a = Ok (JStr x) /\ b = JStr y /\ v = JStr (x +:+ y).
Proof.
  destruct a as [[| | |x| |]|e], b as [| | |y| |]; simpl; intros H;
    inversion H. eauto.
Qed.

Lemma py_add_Raise a b e :
  py_add a b = Raise e -> e = TypeError \/ a = Raise e.
Proof.
  destruct a as [[| | |x| |]|e'], b as [| | |y| |]; simpl; intros H;
    inversion H; auto.
Qed.

Lemma info_Ok_text self v :
  info self = Ok v ->
  exists n c a z,
    name self = JStr n /\ category self = JStr c
    /\ address self = JStr a /\ zipcode self = JStr z.
Proof.
  unfold info. intros H.
  apply py_add_Ok in H as (x1 & z & H & Hz & _).
  apply py_add_Ok in H as (x2 & y2 & H & _ & _).
  apply py_add_Ok in H as (x3 & a & H & Ha & _).
  apply py_add_Ok in H as (x4 & y4 & H & _ & _).
  apply py_add_Ok in H as (x5 & c & H & Hc & _).
  apply py_add_Ok in H as (n & y6 & H & _ & _).
  inversion H. eauto 10.
Qed.

(** [info] gives the name, the category in brackets, the address and the
    postal code when these four are text, and ends in a [TypeError] when
    one of them is not; the telephone plays no part. *)
Theorem info_text (self : NationalSite) :
  (forall n c a z,
     name self = JStr n -> category self = JStr c ->
     address self = JStr a -> zipcode self = JStr z ->
     info self = Ok (JStr (n +:+ " (" +:+ c +:+ "): " +:+ a +:+ " " +:+ z)))
  /\ (forall v, info self = Ok v ->
      exists n c a z,
        name self = JStr n /\ category self = JStr c
        /\ address self = JStr a /\ zipcode self = JStr z)
  /\ (forall e, info self = Raise e -> e = TypeError).
Proof.
  unfold info. split; [|split].
  - intros n c a z -> -> -> ->. simpl. rewrite !app_assoc'. reflexivity.
  - apply info_Ok_text.
  - intros e H.
    repeat (apply py_add_Raise in H as [H|H]; [exact H|]).
    discriminate.
Qed.

Section FetchedSite.
Context `{env : Env}.

(** A site built from a page has five text fields, the postal code and
    the telephone without whitespace around them, so that [info] gives its
    line. *)
Theorem get_site_instance_fetched_text (site_url : string) (w w1 : world)
  (d : list (string * json)) (ns : NationalSite) :
  fst (openCache SITE_URL_DICT w) = Ok (JObj d) ->
  dict_mem site_url d = false ->
  get_site_instance site_url w = (Ok (Some ns), w1) ->
  exists n c a z p,
    ns = mkNationalSite (JStr c) (JStr n) (JStr a) (JStr z) (JStr p)
    /\ is_trimmed z = true /\ is_trimmed p = true
    /\ info ns = Ok (JStr (n +:+ " (" +:+ c +:+ "): " +:+ a +:+ " " +:+ z)).
Proof.
  intros Hc Hmiss H.
  apply get_site_instance_Some in H
    as (d0 & d1 & c0 & Hc0 & _ & _ & _ & _ & _ & Hm).
  rewrite Hc in Hc0. inversion Hc0. subst d0.
  destruct (Hm Hmiss) as (_ & n & c & a & z & p & -> & Hz & Hp).
  exists n, c, a, z, p. split; [reflexivity|]. split; [exact Hz|].
  split; [exact Hp|].
  unfold info. simpl. rewrite !app_assoc'. reflexivity.
Qed.

(** A cache file that is no JSON document stops each function at once:
    the decoder's error is raised and the world is as before (no request,
    no line, no write), so that the next call ends the same way. *)
Theorem corrupt_cache_blocks (w : world) :
  (forall doc, files w !! STATE_URL_DICT = Some doc ->
     Json.loads doc = Json.Malformed ->
     build_state_url_dict w = (Raise JSONDecodeError, w))
  /\ (forall doc site_url, files w !! SITE_URL_DICT = Some doc ->
        Json.loads doc = Json.Malformed ->
        get_site_instance site_url w = (Raise JSONDecodeError, w))
  /\ (forall doc site_object z, files w !! NEARBY_PLACES = Some doc ->
        Json.loads doc = Json.Malformed ->
        zipcode site_object = JStr z ->
        get_nearby_places site_object w = (Raise JSONDecodeError, w)).
Proof.
  split; [|split].
  - intros doc Hf Hl. unfold build_state_url_dict.
    apply bind_raise. unfold openCache. rewrite Hf, Hl. reflexivity.
  - intros doc u Hf Hl. unfold get_site_instance.
    apply bind_raise. unfold openCache. rewrite Hf, Hl. reflexivity.
  - intros doc s z Hf Hl Hz. unfold get_nearby_places. rewrite Hz.
    apply bind_raise. unfold openCache. rewrite Hf, Hl. reflexivity.
Qed.

End FetchedSite.

(** The last document written under a name is the one the file holds;
    writing under one name leaves what is read under another. *)
Theorem closeCache_last_wins (c1 c2 : json) (f g : string) (w : world) :
  written c2 f (written c1 f w) = written c2 f w
  /\ (f <> g ->
      written c1 f (written c2 g w) = written c2 g (written c1 f w)
      /\ fst (openCache g (written c1 f w)) = fst (openCache g w)).
Proof.
  split; [|intros Hne; split].
  - unfold written, closeCache. cbn [snd]. unfold set_files.
    cbn [files requests stdout]. rewrite !write_open.
    rewrite insert_insert_eq. reflexivity.
  - unfold written, closeCache. cbn [snd]. unfold set_files.
    cbn [files requests stdout]. rewrite !write_open.
    rewrite insert_insert_ne by exact Hne. reflexivity.
  - unfold openCache. rewrite files_written.
    rewrite lookup_insert_ne by exact Hne.
    destruct (files w !! g) as [doc|]; [|reflexivity].
    destruct (Json.loads doc); reflexivity.
Qed.

(** ** Typed input *)

Module InputFacts.
Import JsonFacts.

Lemma isspace_lower c : Py.isspace (Py.lower_char c) = Py.isspace c.
Proof. all_chars c; reflexivity. Qed.

Lemma lower_char_idem c : Py.lower_char (Py.lower_char c) = Py.lower_char c.
Proof. all_chars c; reflexivity. Qed.

Lemma lower_idem s : Py.lower (Py.lower s) = Py.lower s.
Proof.
  induction s as [|c s IH]; simpl; [reflexivity|].
  rewrite lower_char_idem, IH. reflexivity.
Qed.

Lemma lstrip_lower s : Py.lstrip (Py.lower s) = Py.lower (Py.lstrip s).
Proof.
  induction s as [|c s IH]; simpl; [reflexivity|].
  rewrite isspace_lower. destruct (Py.isspace c); [exact IH|reflexivity].
Qed.

Lemma rstrip_lower s : Py.rstrip (Py.lower s) = Py.lower (Py.rstrip s).
Proof.
  induction s as [|c s IH]; simpl; [reflexivity|].
  rewrite IH, isspace_lower.
  destruct (Py.rstrip s); simpl; [destruct (Py.isspace c)|]; reflexivity.
Qed.

Lemma strip_lower s : Py.strip (Py.lower s) = Py.lower (Py.strip s).
Proof. unfold Py.strip. rewrite lstrip_lower, rstrip_lower. reflexivity. Qed.

Lemma rstrip_idem s : Py.rstrip (Py.rstrip s) = Py.rstrip s.
Proof.
  induction s as [|c s IH]; simpl; [reflexivity|].
  destruct (Py.rstrip s) as [|c' r] eqn:E.
  - destruct (Py.isspace c) eqn:Ec; simpl; [reflexivity|].
    rewrite Ec. reflexivity.
  - simpl in *. rewrite IH. reflexivity.
Qed.

Lemma lstrip_trimmed s :
  match s with
  | EmptyString => True
  | String c _ => Py.isspace c = false
  end ->
  Py.lstrip s = s.
Proof. destruct s as [|c s]; simpl; [reflexivity|]. intros ->. reflexivity. Qed.

Lemma strip_idem s : Py.strip (Py.strip s) = Py.strip s.
Proof.
  unfold Py.strip. pose proof (lstrip_head s) as Hl.
  rewrite (lstrip_trimmed (Py.rstrip (Py.lstrip s))).
  - apply rstrip_idem.
  - destruct (Py.lstrip s) as [|c t]; [exact I|].
    destruct (rstrip_head c t Hl) as [r ->]. exact Hl.
Qed.

(** Cleaning a line twice is cleaning it once. *)
Lemma clean_idem line :
  Py.lower (Py.strip (Py.lower (Py.strip line))) = Py.lower (Py.strip line).
Proof. rewrite strip_lower, strip_idem, lower_idem. reflexivity. Qed.

(** *** [int(str(n))] *)

Lemma int_digits_acc u acc :
  int_digits (Z.pos acc) true (NilEmpty.string_of_uint u)
  = Some (Z.pos (Pos.of_uint_acc u acc)).
Proof.
  revert acc. induction u; intros acc; simpl NilEmpty.string_of_uint;
    [reflexivity|..];
    cbn [int_digits Pos.of_uint_acc];
    match goal with
    | |- context [digit_val ?c] =>
        let v := eval vm_compute in (digit_val c) in
        change (digit_val c) with v
    end; cbv iota beta;
    match goal with
    | |- int_digits ?a _ _ = Some (Z.pos (Pos.of_uint_acc _ ?b)) =>
        replace a with (Z.pos b) by lia
    end; apply IHu.
Qed.

Lemma int_digits_uint u b :
  u <> Decimal.Nil ->
  int_digits 0 b (NilEmpty.string_of_uint u) = Some (Z.of_N (Pos.of_uint u)).
Proof.
  revert b. induction u; intros b Hu; [congruence|..];
    simpl NilEmpty.string_of_uint; cbn [int_digits];
    match goal with
    | |- context [digit_val ?c] =>
        let v := eval vm_compute in (digit_val c) in
        change (digit_val c) with v
    end; cbv iota beta; cbn [Pos.of_uint]; cbn [Z.mul Z.add];
    try apply int_digits_acc.
  destruct u; [reflexivity|..]; apply IHu; congruence.
Qed.

Lemma digits_nonspace u :
  match NilEmpty.string_of_uint u with
  | EmptyString => True
  | String c _ => Py.isspace c = false
  end.
Proof. destruct u; simpl; auto. Qed.

Lemma rstrip_digits u :
  Py.rstrip (NilEmpty.string_of_uint u) = NilEmpty.string_of_uint u.
Proof.
  induction u; simpl; [reflexivity|..]; rewrite IHu;
    destruct (NilEmpty.string_of_uint u); reflexivity.
Qed.

Lemma strip_digits u :
  Py.strip (NilEmpty.string_of_uint u) = NilEmpty.string_of_uint u.
Proof.
  unfold Py.strip. rewrite lstrip_trimmed by apply digits_nonspace.
  apply rstrip_digits.
Qed.

Lemma digits_head u :
  u <> Decimal.Nil ->
  exists c s, NilEmpty.string_of_uint u = String c s
              /\ c <> "-"%char /\ c <> "+"%char.
Proof.
  intros Hu. destruct u; [congruence|..]; simpl; eexists _, _;
    (split; [reflexivity|split; discriminate]).
Qed.

(** A number printed by [str] is read back by [int]. *)
Lemma py_int_str n : py_int (Py.str_of_int n) = Some n.
Proof.
  unfold Py.str_of_int, py_int.
  pose proof (DecimalZ.of_to n) as Hz.
  destruct n as [|p|p]; simpl Z.to_int in *; [reflexivity| |].
  - change (NilZero.string_of_int (Decimal.Pos ?u))
      with (NilZero.string_of_uint u).
    rewrite string_of_uint_nonnil
      by apply DecimalPos.Unsigned.to_uint_nonnil.
    rewrite strip_digits.
    destruct (digits_head (Pos.to_uint p)) as (c & s & E & H1 & H2);
      [apply DecimalPos.Unsigned.to_uint_nonnil|].
    assert (forall X Y Z0 : option Z,
              match String c s with
              | String "-" s' => X
              | String "+" s' => Y
              | _ => Z0
              end = Z0) as Hm.
    { intros. all_chars c; try reflexivity; congruence. }
    rewrite E. 
    transitivity (int_digits 0 false (String c s)).
    { all_chars c; try reflexivity; congruence. }
    rewrite <- E, int_digits_uint
      by apply DecimalPos.Unsigned.to_uint_nonnil.
    rewrite DecimalPos.Unsigned.of_to. reflexivity.
  - change (NilZero.string_of_int (Decimal.Neg ?u))
      with (String "-" (NilZero.string_of_uint u)).
    rewrite string_of_uint_nonnil
      by apply DecimalPos.Unsigned.to_uint_nonnil.
    assert (Py.strip (String "-" (NilEmpty.string_of_uint (Pos.to_uint p)))
            = String "-" (NilEmpty.string_of_uint (Pos.to_uint p))) as ->.
    { unfold Py.strip. change (Py.lstrip (String "-" ?t)) with (String "-" t).
      simpl Py.rstrip. rewrite rstrip_digits.
      destruct (NilEmpty.string_of_uint (Pos.to_uint p)); reflexivity. }
    rewrite int_digits_uint by apply DecimalPos.Unsigned.to_uint_nonnil.
    rewrite DecimalPos.Unsigned.of_to. reflexivity.
Qed.

End InputFacts.

(** ** The lines of a search result *)

Lemma field_or_dict f key placeholder :
  field_or (JObj f) key placeholder =
  match dict_get key f with
  | None | Some JNull | Some (JStr EmptyString) => Ok (JStr placeholder)
  | Some v => Ok v
  end.
Proof.
  unfold field_or. cbn [py_contains py_getitem rbind]. unfold dict_mem.
  destruct (dict_get key f) as [[| | |[|c s]| |]|]; reflexivity.
Qed.

Lemma field_or_textual f key placeholder :
  textual f key ->
  field_or (JObj f) key placeholder = Ok (JStr (slot f key placeholder)).
Proof.
  unfold textual, slot. rewrite field_or_dict.
  destruct (dict_get key f) as [[| | |[|c s]| |]|]; tauto.
Qed.

(** A search result whose name is a text and whose category, address and
    city are each a text, [None] or missing is shown as the name, the
    category in brackets, then the address and the city; a slot without a
    text shows its placeholder, so that no slot is ever empty. *)
Theorem place_line_slots (res fields : list (string * json)) (n : string) :
  dict_get "fields" res = Some (JObj fields) ->
  dict_get "name" res = Some (JStr n) ->
  textual fields "group_sic_code_name" -> textual fields "address" ->
  textual fields "city" ->
  let category := slot fields "group_sic_code_name" "no category" in
  let address := slot fields "address" "no address" in
  let city := slot fields "city" "no city" in
  place_line (JObj res)
  = Ok (JStr (n +:+ " (" +:+ category +:+ "): " +:+ address +:+ ", " +:+ city))
  /\ category <> EmptyString /\ address <> EmptyString
  /\ city <> EmptyString.
Proof.
  intros Hf Hn H1 H2 H3. cbv zeta. split.
  - unfold place_line. cbn [py_getitem]. rewrite Hf, Hn. cbn [rbind].
    rewrite !field_or_textual by assumption. cbn [rbind py_add].
    rewrite !app_assoc'. reflexivity.
  - unfold slot.
    repeat split;
      match goal with
      | |- context [dict_get ?k fields] =>
          destruct (dict_get k fields) as [[| | |[|c s]| |]|]
      end; discriminate.
Qed.

(** A line is made only of texts. *)
Lemma field_or_Ok f key placeholder :
  exists x, field_or (JObj f) key placeholder = Ok x
            /\ forall v, dict_get key f = Some v ->
                 match v with JStr _ | JNull => False | _ => True end ->
                 x = v.
Proof.
  rewrite field_or_dict.
  destruct (dict_get key f) as [[| | |[|c s]| |]|]; eexists;
    (split; [reflexivity|]); intros v Hv Hbad; inversion Hv; subst;
    simpl in Hbad; tauto.
Qed.

(** A category, address or city that is there and is neither a text nor
    [None] (a number, say) ends the line in a [TypeError]. *)
Lemma place_line_type_error (res fields : list (string * json))
  (key : string) (v nm : json) :
  dict_get "fields" res = Some (JObj fields) ->
  dict_get "name" res = Some nm ->
  key = "group_sic_code_name"%string \/ key = "address"%string
  \/ key = "city"%string ->
  dict_get key fields = Some v ->
  match v with JStr _ | JNull => False | _ => True end ->
  place_line (JObj res) = Raise TypeError.
Proof.
  intros Hf Hn Hkey Hv Hbad.
  unfold place_line. cbn [py_getitem]. rewrite Hf, Hn. cbn [rbind].
  destruct (field_or_Ok fields "group_sic_code_name" "no category")
    as (c & -> & Hc).
  destruct (field_or_Ok fields "address" "no address") as (a & -> & Ha).
  destruct (field_or_Ok fields "city" "no city") as (t & -> & Ht).
  cbn [rbind].
  assert (match c with JStr _ => False | _ => True end
          \/ match a with JStr _ => False | _ => True end
          \/ match t with JStr _ => False | _ => True end) as Hone.
  { destruct Hkey as [->|[->| ->]];
      [left; rewrite (Hc v Hv Hbad)
      |right; left; rewrite (Ha v Hv Hbad)
      |right; right; rewrite (Ht v Hv Hbad)];
      destruct v; simpl in Hbad; tauto. }
  destruct nm as [| | |n| |], c as [| | |c'| |], a as [| | |a'| |],
    t as [| | |t'| |]; try reflexivity; simpl in Hone; tauto.
Qed.

(** ** The loops of main *)

Lemma printed_all_nil w : printed_all [] w = w.
Proof. destruct w. unfold printed_all. simpl. rewrite app_nil_r. reflexivity. Qed.

Lemma printed_all_app l1 l2 w :
  printed_all l2 (printed_all l1 w) = printed_all (l1 ++ l2) w.
Proof. unfold printed_all. simpl. rewrite app_assoc. reflexivity. Qed.

Lemma py_int_not_word token id :
  py_int token = Some id -> token <> "back"%string /\ token <> "exit"%string.
Proof. intros H. split; intros ->; discriminate. Qed.

Section MainFacts.
Context `{env : Env}.
Import InputFacts.

(** Spaces around a typed line and the case of its letters make no
    difference, at either prompt. *)
Theorem main_loop_cleans_input (state_dict : json)
  (listed : option (list NationalSite)) (line : string)
  (rest : list string) (w : world) :
  main_loop state_dict listed (line :: rest) w
  = main_loop state_dict listed (Py.lower (Py.strip line) :: rest) w.
Proof. cbn [main_loop]. rewrite clean_idem. reflexivity. Qed.

(** At the prompt for a state, names that are not in the directory are
    answered with one line each; no URL is opened and no file is written,
    and the prompt comes back. *)
Theorem main_loop_wrong_names (state_dict : json) (lines rest : list string)
  (w : world) :
  Forall (fun line =>
            let token := Py.lower (Py.strip line) in
            token <> "exit"%string
            /\ py_contains token state_dict = Ok false) lines ->
  main_loop state_dict None (lines ++ rest) w
  = main_loop state_dict None rest
      (printed_all
         (replicate (length lines) "[Error] Enter proper state name"%string)
         w).
Proof.
  intros H. revert w. induction H as [|line lines [Hne Hno] _ IH]; intros w.
  - simpl. rewrite printed_all_nil. reflexivity.
  - cbn [app main_loop length replicate]. cbv zeta in Hne, Hno.
    destruct (String.eqb_spec (Py.lower (Py.strip line)) "exit");
      [congruence|].
    rewrite Hno, IH.
    change (snd (print ?l w)) with (printed_all [l] w).
    rewrite printed_all_app. reflexivity.
Qed.

Lemma try_detail_search_invalid token l w :
  main_select token l = Raise ValueError ->
  try_detail_search token l w = (Ok tt, printed_all invalid_input_lines w).
Proof.
  intros H.
  assert (detail_search token l w = (Raise ValueError, w)) as Hd.
  { unfold detail_search. apply bind_raise. unfold lift. rewrite H.
    reflexivity. }
  unfold try_detail_search. rewrite Hd.
  cbn [caught_by_main]. unfold bind, print, printed_all. simpl.
  rewrite <- !app_assoc. reflexivity.
Qed.

Lemma main_select_above token id (l : list NationalSite) :
  py_int token = Some id -> Z.of_nat (length l) < id ->
  main_select token l = Raise ValueError.
Proof.
  intros H Hid. unfold main_select. rewrite H.
  destruct (Z.ltb_spec (Z.of_nat (length l)) id); [reflexivity|lia].
Qed.

Lemma main_select_not_int token (l : list NationalSite) :
  py_int token = None -> main_select token l = Raise ValueError.
Proof. intros H. unfold main_select. rewrite H. reflexivity. Qed.

(** At the prompt for a number, what is no number and what is above the
    length of the list is answered with the three lines of the invalid
    input; no URL is opened and no file is written, and the prompt comes
    back with the same list. *)
Theorem main_loop_wrong_numbers (state_dict : json)
  (nationalStates : list NationalSite) (lines rest : list string)
  (w : world) :
  Forall (fun line =>
            let token := Py.lower (Py.strip line) in
            (token <> "back"%string /\ token <> "exit"%string
             /\ py_int token = None)
            \/ exists id, py_int token = Some id
                          /\ Z.of_nat (length nationalStates) < id) lines ->
  main_loop state_dict (Some nationalStates) (lines ++ rest) w
  = main_loop state_dict (Some nationalStates) rest
      (printed_all
         (concat (replicate (length lines) invalid_input_lines)) w).
Proof.
  intros H. revert w. induction H as [|line lines Hline _ IH]; intros w.
  - simpl. rewrite printed_all_nil. reflexivity.
  - cbn [app main_loop length replicate concat]. cbv zeta in Hline.
    assert (Py.lower (Py.strip line) <> "back"%string
            /\ Py.lower (Py.strip line) <> "exit"%string
            /\ main_select (Py.lower (Py.strip line)) nationalStates
               = Raise ValueError) as (Hb & He & Hsel).
    { destruct Hline as [(Hb & He & Hn)|(id & Hid & Hgt)].
      - auto using main_select_not_int.
      - destruct (py_int_not_word _ _ Hid). eauto using main_select_above. }
    destruct (String.eqb_spec (Py.lower (Py.strip line)) "back");
      [congruence|].
    destruct (String.eqb_spec (Py.lower (Py.strip line)) "exit");
      [congruence|].
    rewrite try_detail_search_invalid by exact Hsel.
    rewrite IH, printed_all_app. reflexivity.
Qed.

(** A number at or below minus the length of the list (any number up to
    [0] when the list is empty) ends [main] with an [IndexError]: the
    [except] clause does not catch it.  Nothing was requested, printed or
    written for it. *)
Theorem main_loop_index_error (state_dict : json)
  (nationalStates : list NationalSite) (line : string) (id : Z)
  (rest : list string) (w : world) :
  py_int (Py.lower (Py.strip line)) = Some id ->
  id <= - Z.of_nat (length nationalStates) ->
  main_loop state_dict (Some nationalStates) (line :: rest) w
  = (Uncaught IndexError, w).
Proof.
  intros Hid Hlow. cbn [main_loop].
  destruct (py_int_not_word _ _ Hid) as [Hb He].
  destruct (String.eqb_spec (Py.lower (Py.strip line)) "back");
    [congruence|].
  destruct (String.eqb_spec (Py.lower (Py.strip line)) "exit");
    [congruence|].
  assert (detail_search (Py.lower (Py.strip line)) nationalStates w
          = (Raise IndexError, w)) as Hd.
  { unfold detail_search. apply bind_raise.
    unfold lift, main_select. rewrite Hid.
    destruct (Z.ltb_spec (Z.of_nat (length nationalStates)) id); [lia|].
    rewrite list_getitem_out by lia. reflexivity. }
  unfold try_detail_search. rewrite Hd. reflexivity.
Qed.

(** With a nearby-places cache file that is no JSON document, choosing any
    listed site is answered as an invalid input: the decoder's error is a
    [ValueError] and the [except] clause takes it.  No URL is opened and
    the prompt comes back. *)
Theorem main_loop_corrupt_places_cache (state_dict : json)
  (nationalStates : list NationalSite) (line doc z : string)
  (ns : NationalSite) (rest : list string) (w : world) :
  let token := Py.lower (Py.strip line) in
  main_select token nationalStates = Ok ns ->
  zipcode ns = JStr z ->
  files w !! NEARBY_PLACES = Some doc ->
  Json.loads doc = Json.Malformed ->
  main_loop state_dict (Some nationalStates) (line :: rest) w
  = main_loop state_dict (Some nationalStates) rest
      (printed_all invalid_input_lines w).
Proof.
  intros token Hsel Hz Hf Hl. cbn [main_loop]. fold token.
  assert (token <> "back"%string /\ token <> "exit"%string) as [Hb He].
  { unfold main_select in Hsel.
    destruct (py_int token) as [id|] eqn:E; [|discriminate].
    eapply py_int_not_word, E. }
  destruct (String.eqb_spec token "back"); [congruence|].
  destruct (String.eqb_spec token "exit"); [congruence|].
  assert (try_detail_search token nationalStates w
          = (Ok tt, printed_all invalid_input_lines w)) as ->;
    [|reflexivity].
  assert (detail_search token nationalStates w
          = (Raise JSONDecodeError, w)) as Hd.
  { unfold detail_search.
    erewrite bind_ok by (unfold lift; rewrite Hsel; reflexivity).
    unfold search_near.
    apply bind_raise. unfold get_nearby_places. rewrite Hz.
    apply bind_raise. unfold openCache. rewrite Hf, Hl. reflexivity. }
  unfold try_detail_search. rewrite Hd.
  cbn [caught_by_main]. unfold bind, print, printed_all. simpl.
  rewrite <- !app_assoc. reflexivity.
Qed.

(** *** A number at the prompt *)


(** The [try] around a site that was selected: what the search for its
    places does, with the [except] clause on top. *)
Lemma try_detail_search_selected token l ns w :
  main_select token l = Ok ns ->
  try_detail_search token l w
  = match search_near ns w with
    | (Raise e, w') =>
        if caught_by_main e
        then (Ok tt, printed_all invalid_input_lines w')
        else (Raise e, w')
    | (Ok u, w') => (Ok u, w')
    end.
Proof.
  intros H. unfold try_detail_search, detail_search.
  erewrite bind_ok by (unfold lift; rewrite H; reflexivity).
  destruct (search_near ns w) as [[u|e] w']; [reflexivity|].
  destruct (caught_by_main e); [|reflexivity].
  unfold bind, print, printed_all. simpl.
  rewrite <- !app_assoc. reflexivity.
Qed.


(** *** A search result that is no text *)

(** The loop over the results prints the lines up to the first result
    whose line cannot be made, and ends there. *)
Lemma print_places_stops shown texts bad later e :
  Forall2 (fun r text => place_line r = Ok (JStr text)) shown texts ->
  place_line bad = Raise e ->
  forall w,
    print_places (shown ++ bad :: later) w
    = (Raise e, printed_all (map (String.append "- ") texts) w).
Proof.
  intros Hshown Hbad.
  induction Hshown as [|r text shown texts Hr _ IH]; intros w.
  - cbn [app print_places map]. rewrite printed_all_nil.
    apply bind_raise. unfold lift. rewrite Hbad. reflexivity.
  - cbn [app print_places map].
    erewrite bind_ok by (unfold lift; rewrite Hr; reflexivity).
    erewrite bind_ok by reflexivity.
    erewrite bind_ok by reflexivity.
    rewrite IH.
    change (printed_all ?ls
              {| files := files w; requests := requests w;
                 stdout := stdout w ++ [?l] |})
      with (printed_all ls (printed_all [l] w)).
    rewrite printed_all_app. reflexivity.
Qed.

(** A search result whose category, address or city is there and is
    neither a text nor [None] (a number, say) ends [main]: its line raises
    a [TypeError], which the [except ValueError] clause does not catch.
    The heading and the lines of the results before it have been
    printed. *)
Theorem main_loop_place_type_error (state_dict : json)
  (nationalStates : list NationalSite) (line n : string)
  (ns : NationalSite) (rest : list string) (w w1 : world)
  (near res fields : list (string * json)) (shown later : list json)
  (texts : list string) (key : string) (v nm : json) :
  main_select (Py.lower (Py.strip line)) nationalStates = Ok ns ->
  name ns = JStr n ->
  get_nearby_places ns w = (Ok (JObj near), w1) ->
  dict_get "searchResults" near = Some (JArr (shown ++ JObj res :: later)) ->
  Forall2 (fun r text => place_line r = Ok (JStr text)) shown texts ->
  dict_get "fields" res = Some (JObj fields) ->
  dict_get "name" res = Some nm ->
  key = "group_sic_code_name"%string \/ key = "address"%string
  \/ key = "city"%string ->
  dict_get key fields = Some v ->
  match v with JStr _ | JNull => False | _ => True end ->
  main_loop state_dict (Some nationalStates) (line :: rest) w
  = (Uncaught TypeError,
     printed_all
       ([SEPERATOR; "Places near" +:+ " " +:+ n; SEPERATOR]
          ++ map (String.append "- ") texts) w1).
Proof.
  intros Hsel Hn Hnear Hres Hshown Hf Hnm Hkey Hv Hbad.
  cbn [main_loop].
  assert (Py.lower (Py.strip line) <> "back"%string
          /\ Py.lower (Py.strip line) <> "exit"%string) as [Hb He].
  { unfold main_select in Hsel.
    destruct (py_int (Py.lower (Py.strip line))) as [id|] eqn:E;
      [|discriminate].
    eapply py_int_not_word, E. }
  destruct (String.eqb_spec (Py.lower (Py.strip line)) "back");
    [congruence|].
  destruct (String.eqb_spec (Py.lower (Py.strip line)) "exit");
    [congruence|].
  rewrite (try_detail_search_selected _ _ ns) by exact Hsel.
  assert (search_near ns w
          = (Raise TypeError,
             printed_all
               ([SEPERATOR; "Places near" +:+ " " +:+ n; SEPERATOR]
                  ++ map (String.append "- ") texts) w1)) as ->;
    [|reflexivity].
  unfold search_near.
  erewrite bind_ok by exact Hnear.
  erewrite bind_ok by reflexivity.
  rewrite Hn.
  erewrite bind_ok by reflexivity.
  erewrite bind_ok by reflexivity.
  erewrite bind_ok by reflexivity.
  assert (dict_mem "searchResults" near = true) as Hmem
    by (unfold dict_mem; rewrite Hres; reflexivity).
  erewrite bind_ok
    by (unfold lift; cbn [py_contains]; rewrite Hmem; reflexivity).
  cbn [negb].
  erewrite bind_ok
    by (unfold lift; cbn [py_getitem]; rewrite Hres; reflexivity).
  erewrite bind_ok by reflexivity.
  rewrite (print_places_stops shown texts (JObj res) later TypeError Hshown)
    by (eapply place_line_type_error; eassumption).
  unfold printed_all. cbn [files requests stdout].
  rewrite <- !app_assoc. reflexivity.
Qed.

(** The list of the sites: site [i] is printed with the number [i + 1]. *)
Lemma print_sites_lines l :
  forall k w w',
    print_sites k l w = (Ok tt, w') ->
    exists lines,
      w' = printed_all lines w /\ length lines = length l
      /\ forall i ns, l !! i = Some ns ->
           exists text,
             info ns = Ok (JStr text)
             /\ lines !! i
                = Some ("[" +:+ Py.str_of_int (k + Z.of_nat i + 1) +:+ "]"
                          +:+ " " +:+ text).
Proof.
  induction l as [|ns0 l IH]; intros k w w' H.
  - simpl in H. inversion H. subst. exists [].
    split; [rewrite printed_all_nil; reflexivity|]. split; [reflexivity|].
    intros i ns Hi. inversion Hi.
  - cbn [print_sites] in H.
    apply bind_Ok in H as (line & w0 & H1 & H). apply lift_Ok in H1 as [H1 ->].
    apply bind_Ok in H as (text & w0 & H2 & H). apply lift_Ok in H2 as [H2 ->].
    apply bind_Ok in H as ([] & w0 & Hp & H). inversion Hp. subst w0.
    clear Hp. destruct line as [| | |t| |]; try discriminate.
    inversion H2. subst t. clear H2.
    apply IH in H as (lines & -> & Hlen & Hl).
    eexists (_ :: lines). split; [|split; [simpl; rewrite Hlen; reflexivity|]].
    { unfold printed_all. cbn [files requests stdout].
      rewrite <- app_assoc. reflexivity. }
    intros [|i] ns Hi.
    + inversion Hi. subst ns0. exists text. split; [exact H1|].
      simpl. rewrite Z.add_0_r. reflexivity.
    + destruct (Hl i ns Hi) as (t & Ht & Hline). exists t.
      split; [exact Ht|]. simpl. rewrite Hline. do 4 f_equal. lia.
Qed.

(** The number printed beside a site is the number that chooses it: when
    the list was printed, line [i] shows site [i] under the number [i + 1]
    and that number, typed at the prompt, selects this site. *)
Theorem listed_number_selects (nationalStates : list NationalSite)
  (w w' : world) (i : nat) (ns : NationalSite) :
  print_sites 0 nationalStates w = (Ok tt, w') ->
  nationalStates !! i = Some ns ->
  exists text,
    info ns = Ok (JStr text)
    /\ stdout w' !! (length (stdout w) + i)%nat
       = Some ("[" +:+ Py.str_of_int (Z.of_nat i + 1) +:+ "]" +:+ " "
                 +:+ text)
    /\ main_select (Py.str_of_int (Z.of_nat i + 1)) nationalStates = Ok ns.
Proof.
  intros Hp Hi. apply print_sites_lines in Hp as (lines & -> & _ & Hl).
  destruct (Hl i ns Hi) as (text & Ht & Hline). exists text.
  split; [exact Ht|]. split.
  - unfold printed_all. cbn [stdout].
    rewrite lookup_app_r by lia.
    replace (length (stdout w) + i - length (stdout w))%nat with i by lia.
    exact Hline.
  - unfold main_select. rewrite InputFacts.py_int_str.
    pose proof (lookup_lt_Some _ _ _ Hi) as Hlt.
    destruct (Z.ltb_spec (Z.of_nat (length nationalStates))
                (Z.of_nat i + 1)); [lia|].
    destruct (list_getitem_in nationalStates (Z.of_nat i + 1 - 1))
      as (a & Ha & Hg); [lia|].
    rewrite Hg. f_equal.
    replace (Z.to_nat (Z.of_nat i + 1 - 1)) with i in Ha by lia.
    congruence.
Qed.

End MainFacts.

Section ListingFacts.
Context `{env : Env}.

(** Every site that is offered for selection has a text for its name, its
    category, its address and its postal code: a site without them ends
    the listing in a [TypeError] before the prompt for a number is
    reached. *)
Theorem list_state_sites_are_text (state_dict : json) (token : string)
  (w w' : world) (nationalStates : list NationalSite) :
  list_state state_dict token w = (Ok nationalStates, w') ->
  Forall (fun ns =>
            exists n c a z,
              name ns = JStr n /\ category ns = JStr c
              /\ address ns = JStr a /\ zipcode ns = JStr z)
         nationalStates.
Proof.
  unfold list_state. intros H.
  apply bind_Ok in H as (url & w0 & _ & H).
  apply bind_Ok in H as (l & w1 & _ & H).
  apply bind_Ok in H as ([] & w2 & _ & H).
  apply bind_Ok in H as ([] & w3 & _ & H).
  apply bind_Ok in H as ([] & w4 & _ & H).
  apply bind_Ok in H as ([] & w5 & Hp & H).
  inversion H. subst l w5. clear H.
  apply print_sites_lines in Hp as (lines & _ & _ & Hl).
  apply Forall_lookup. intros i ns Hi.
  destruct (Hl i ns Hi) as (text & Ht & _).
  eapply info_Ok_text, Ht.
Qed.

(** The loop over the blocks when every detail is in the cache. *)
Lemma sites_of_blocks_cached d blocks :
  forall acc w urls,
    park_links (List.filter is_asset blocks) = Ok urls ->
    fst (openCache SITE_URL_DICT w) = Ok (JObj d) ->
    Forall (fun u => exists c ns, dict_get u d = Some c /\ holds_site c ns)
           urls ->
    exists sites w',
      sites_of_blocks blocks acc w = (Ok (acc ++ sites), w')
      /\ files w' = files w /\ requests w' = requests w
      /\ Forall2 (fun u ns =>
                    exists c, dict_get u d = Some c /\ holds_site c ns)
                 urls sites.
Proof.
  induction blocks as [|block blocks IH]; intros acc w urls Hl Hc Hall.
  - simpl in Hl. inversion Hl. subst. exists [], w. simpl.
    rewrite app_nil_r. repeat split; constructor.
  - simpl in Hl. cbn [sites_of_blocks]. unfold is_asset in Hl at 1.
    destruct (Bs4.get block "id") as [id|]; [|eapply IH; eauto].
    destruct (Py.startswith id "asset"); [|eapply IH; eauto].
    cbn [negb]. cbv iota. cbn [park_links] in Hl.
    apply rbind_Ok in Hl as (u & Hu & Hl).
    apply rbind_Ok in Hl as (us & Hus & Hl). inversion Hl. subst urls.
    unfold park_link in Hu.
    apply rbind_Ok in Hu as (div & Hdiv & Hu).
    apply rbind_Ok in Hu as (h3 & Hh3 & Hu).
    apply rbind_Ok in Hu as (a & Ha & Hu).
    apply rbind_Ok in Hu as (href & Hhref & Hu). inversion Hu. subst u.
    erewrite bind_ok by (unfold lift; rewrite Hdiv; reflexivity).
    erewrite bind_ok by (unfold lift; rewrite Hh3; reflexivity).
    erewrite bind_ok by (unfold lift; rewrite Ha; reflexivity).
    erewrite bind_ok by (unfold lift; rewrite Hhref; reflexivity).
    cbv zeta. inversion Hall as [|? ? (c & ns & Hd & Hs) Hrest]. subst.
    erewrite bind_ok by (eapply get_site_instance_hit; eassumption).
    destruct (IH (acc ++ [ns]) (printed "Using Cache" w) us Hus)
      as (sites & w' & Hrun & Hf & Hr & H2); [|exact Hrest|].
    { rewrite <- Hc. apply openCache_files. reflexivity. }
    exists (ns :: sites), w'. rewrite Hrun, <- app_assoc.
    split; [reflexivity|]. split; [exact Hf|]. split; [exact Hr|].
    constructor; [eauto|exact H2].
Qed.

(** With the detail of every listed site in the cache, listing a state
    opens the state page and nothing else, writes no file, and returns
    the cached sites in the order of the page. *)
Theorem get_sites_for_state_all_cached (state_url html : string) (w : world)
  (d : list (string * json)) (urls : list string) :
  remote (requests w) state_url = Ok html ->
  park_links
    (List.filter is_asset
       (Bs4.find_all "li" [("class", "clearfix")]%string
          (BeautifulSoup None html))) = Ok urls ->
  fst (openCache SITE_URL_DICT w) = Ok (JObj d) ->
  Forall (fun u => exists c ns, dict_get u d = Some c /\ holds_site c ns)
         urls ->
  exists sites w',
    get_sites_for_state state_url w = (Ok sites, w')
    /\ requests w' = requests w ++ [state_url]
    /\ files w' = files w
    /\ Forall2 (fun u ns =>
                  exists c, dict_get u d = Some c /\ holds_site c ns)
               urls sites.
Proof.
  intros Hf Hl Hc Hall. unfold get_sites_for_state.
  erewrite bind_ok by (unfold urlopen_read; rewrite Hf; reflexivity).
  cbv zeta.
  match goal with |- context [sites_of_blocks ?b [] ?w0] =>
    destruct (sites_of_blocks_cached d b [] w0 urls Hl) as
      (sites & w' & Hrun & Hfiles & Hreq & H2); [|exact Hall|]
  end.
  { rewrite <- Hc. apply openCache_files. reflexivity. }
  exists sites, w'. rewrite Hrun. auto.
Qed.

End ListingFacts.

(** ** More runs on the small web *)

Module MoreRuns.
Import Examples Sessions.

Lemma get_site_instance_requests_witness :
  fst (openCache SITE_URL_DICT fresh) = Ok (JObj [])
  /\ requests (snd (get_site_instance (env := env0) isro_url fresh))
     = [isro_url]
  /\ fst (openCache SITE_URL_DICT with_isro)
     = Ok (JObj [(isro_url, site_fields isro)])
  /\ requests (snd (get_site_instance (env := env0) isro_url with_isro)) = []
  /\ fst (openCache SITE_URL_DICT with_broken_caches) = Raise JSONDecodeError
  /\ requests
       (snd (get_site_instance (env := env0) isro_url with_broken_caches))
     = [].
Proof.
  split; [reflexivity|]. split.
  { rewrite (proj1 (get_site_instance_requests (env := env0) isro_url fresh)
               (JObj []) eq_refl).
    reflexivity. }
  assert (fst (openCache SITE_URL_DICT with_isro)
          = Ok (JObj [(isro_url, site_fields isro)])) as Hc
    by (vm_compute; reflexivity).
  split; [exact Hc|]. split.
  { rewrite (proj1 (get_site_instance_requests (env := env0) isro_url
                      with_isro) _ Hc).
    vm_compute. reflexivity. }
  split; [reflexivity|].
  apply (proj2 (get_site_instance_requests (env := env0) isro_url
                  with_broken_caches)).
  reflexivity.
Defined.

Lemma get_nearby_places_requests_witness :
  zipcode isro = JStr "49931"
  /\ fst (openCache NEARBY_PLACES fresh) = Ok (JObj [])
  /\ requests (snd (get_nearby_places (env := env0) isro fresh))
     = [radius_request (env := env0) "49931"]
  /\ fst (openCache NEARBY_PLACES with_places)
     = Ok (JObj [("49931"%string, places)])
  /\ requests (snd (get_nearby_places (env := env0) isro with_places)) = []
  /\ fst (openCache NEARBY_PLACES with_broken_caches) = Raise JSONDecodeError
  /\ requests (snd (get_nearby_places (env := env0) isro with_broken_caches))
     = [].
Proof.
  split; [reflexivity|]. split; [reflexivity|]. split.
  { rewrite (proj1 (get_nearby_places_requests (env := env0) isro "49931"
                      fresh eq_refl) (JObj []) eq_refl).
    reflexivity. }
  assert (fst (openCache NEARBY_PLACES with_places)
          = Ok (JObj [("49931"%string, places)])) as Hc
    by (vm_compute; reflexivity).
  split; [exact Hc|]. split.
  { rewrite (proj1 (get_nearby_places_requests (env := env0) isro "49931"
                      with_places eq_refl) _ Hc).
    vm_compute. reflexivity. }
  split; [reflexivity|].
  apply (proj2 (get_nearby_places_requests (env := env0) isro "49931"
                  with_broken_caches eq_refl)).
  reflexivity.
Defined.

Lemma get_site_instance_again_witness :
  fst (get_site_instance (env := env0) isro_url fresh) = Ok (Some isro)
  /\ let w1 := snd (get_site_instance (env := env0) isro_url fresh) in
     get_site_instance (env := env0) isro_url w1
     = (Ok (Some isro), printed "Using Cache" w1)
     /\ requests (printed "Using Cache" w1) = requests w1.
Proof.
  split; [vm_compute; reflexivity|]. cbv zeta.
  apply (get_site_instance_again (env := env0) isro_url fresh).
  vm_compute. reflexivity.
Defined.

Lemma get_site_instance_none_refetched_witness :
  fst (get_site_instance (env := env0) noco_url fresh) = Ok None
  /\ let w1 := snd (get_site_instance (env := env0) noco_url fresh) in
     files w1 = files fresh
     /\ requests w1 = requests fresh ++ [noco_url]
     /\ requests (snd (get_site_instance (env := env0) noco_url w1))
        = requests w1 ++ [noco_url].
Proof.
  split; [vm_compute; reflexivity|]. cbv zeta.
  apply (get_site_instance_none_refetched (env := env0) noco_url fresh).
  vm_compute. reflexivity.
Defined.

Lemma get_site_instance_keeps_entries_witness :
  fst (get_site_instance (env := env0) kewe_url with_isro) = Ok (Some kewe)
  /\ fst (openCache SITE_URL_DICT with_isro)
     = Ok (JObj [(isro_url, site_fields isro)])
  /\ exists d1,
       fst (openCache SITE_URL_DICT
              (snd (get_site_instance (env := env0) kewe_url with_isro)))
       = Ok (JObj d1)
       /\ forall u, u <> kewe_url ->
            dict_get u d1 = dict_get u [(isro_url, site_fields isro)].
Proof.
  split; [vm_compute; reflexivity|]. split; [vm_compute; reflexivity|].
  apply (get_site_instance_keeps_entries (env := env0) kewe_url with_isro
           _ (Some kewe));
    vm_compute; reflexivity.
Defined.

Lemma state_links_lookup_witness :
  state_links (Bs4.find_all "area" [] directory_page) [] = Ok directory
  /\ (dict_mem "michigan" directory = true <->
      exists area alt,
        area ∈ Bs4.find_all "area" [] directory_page
        /\ Bs4.get area "alt" = Some alt
        /\ Py.lower alt = "michigan"%string)
  /\ (forall v, dict_get "michigan" directory = Some v ->
      exists area alt href,
        area ∈ Bs4.find_all "area" [] directory_page
        /\ Bs4.get area "alt" = Some alt
        /\ Bs4.get area "href" = Some href
        /\ Py.lower alt = "michigan"%string
        /\ v = JStr (BASE_URL +:+ href)).
Proof.
  split; [reflexivity|].
  apply (state_links_lookup (Bs4.find_all "area" [] directory_page) directory
           "michigan").
  reflexivity.
Defined.

Lemma state_links_failure_witness :
  state_links broken_areas [] = Raise KeyError
  /\ KeyError = KeyError
  /\ exists area,
       area ∈ broken_areas
       /\ (Bs4.get area "alt" = None \/ Bs4.get area "href" = None).
Proof.
  split; [reflexivity|].
  apply (state_links_failure broken_areas [] KeyError). reflexivity.
Defined.

Lemma build_state_url_dict_fetch_witness :
  fst (openCache STATE_URL_DICT fresh) = Ok (JObj [])
  /\ py_len (JObj []) = Ok 0
  /\ remote (Env := env1) (requests fresh) TARGET_URL = Ok TARGET_URL
  /\ state_links
       (Bs4.find_all "area" []
          (BeautifulSoup (Env := env1) (Some "html.parser"%string) TARGET_URL))
       [] = Ok directory
  /\ let w1 :=
       written (JObj directory) STATE_URL_DICT
         (requested TARGET_URL (printed "Fetching" fresh)) in
     build_state_url_dict (env := env1) fresh = (Ok (JObj directory), w1)
     /\ fst (openCache STATE_URL_DICT w1) = Ok (JObj directory)
     /\ build_state_url_dict (env := env1) w1
        = (Ok (JObj directory), printed "Using cache" w1).
Proof.
  split; [reflexivity|]. split; [reflexivity|]. split; [reflexivity|].
  split; [reflexivity|]. cbv zeta.
  destruct (build_state_url_dict_fetch (env := env1) fresh (JObj [])
              TARGET_URL directory eq_refl eq_refl eq_refl eq_refl)
    as (H1 & H2 & H3 & _).
  split; [exact H1|]. split; [exact H2|]. apply H3. discriminate.
Defined.

Lemma get_nearby_places_stored_witness :
  zipcode isro = JStr "49931"
  /\ fst (get_nearby_places (env := env0) isro fresh) = Ok places
  /\ exists dd dd1,
       fst (openCache NEARBY_PLACES fresh) = Ok (JObj dd)
       /\ fst (openCache NEARBY_PLACES
                 (snd (get_nearby_places (env := env0) isro fresh)))
          = Ok (JObj dd1)
       /\ dict_get "49931" dd1 = Some places
       /\ forall z', z' <> "49931"%string -> dict_get z' dd1 = dict_get z' dd.
Proof.
  split; [reflexivity|]. split; [vm_compute; reflexivity|].
  apply (get_nearby_places_stored (env := env0) isro "49931" fresh);
    [reflexivity | vm_compute; reflexivity].
Defined.

Lemma info_text_witness :
  name isro = JStr "Isle Royale" /\ category isro = JStr "National Park"
  /\ address isro = JStr "Houghton, MI" /\ zipcode isro = JStr "49931"
  /\ info isro = Ok (JStr "Isle Royale (National Park): Houghton, MI 49931").
Proof.
  repeat (split; [reflexivity|]).
  apply (proj1 (info_text isro) "Isle Royale" "National Park" "Houghton, MI"
           "49931");
    reflexivity.
Defined.

Lemma get_site_instance_fetched_text_witness :
  fst (openCache SITE_URL_DICT fresh) = Ok (JObj [])
  /\ dict_mem isro_url ([] : list (string * json)) = false
  /\ fst (get_site_instance (env := env0) isro_url fresh) = Ok (Some isro)
  /\ exists n c a z p,
       isro = mkNationalSite (JStr c) (JStr n) (JStr a) (JStr z) (JStr p)
       /\ is_trimmed z = true /\ is_trimmed p = true
       /\ info isro
          = Ok (JStr (n +:+ " (" +:+ c +:+ "): " +:+ a +:+ " " +:+ z)).
Proof.
  split; [reflexivity|]. split; [reflexivity|].
  split; [vm_compute; reflexivity|].
  apply (get_site_instance_fetched_text (env := env0) isro_url fresh
           (snd (get_site_instance (env := env0) isro_url fresh)) []);
    [reflexivity | reflexivity | vm_compute; reflexivity].
Defined.

Lemma corrupt_cache_blocks_witness :
  files with_broken_caches !! STATE_URL_DICT = Some "{"%string
  /\ Json.loads "{" = Json.Malformed
  /\ build_state_url_dict (env := env0) with_broken_caches
     = (Raise JSONDecodeError, with_broken_caches)
  /\ files with_broken_caches !! SITE_URL_DICT = Some "[1,"%string
  /\ Json.loads "[1," = Json.Malformed
  /\ get_site_instance (env := env0) isro_url with_broken_caches
     = (Raise JSONDecodeError, with_broken_caches)
  /\ files with_broken_caches !! NEARBY_PLACES = Some "nul"%string
  /\ Json.loads "nul" = Json.Malformed
  /\ get_nearby_places (env := env0) isro with_broken_caches
     = (Raise JSONDecodeError, with_broken_caches).
Proof.
  destruct (corrupt_cache_blocks (env := env0) with_broken_caches)
    as (H1 & H2 & H3).
  split; [reflexivity|]. split; [reflexivity|].
  split; [apply (H1 "{"%string); reflexivity|].
  split; [reflexivity|]. split; [reflexivity|].
  split; [apply (H2 "[1,"%string); reflexivity|].
  split; [reflexivity|]. split; [reflexivity|].
  apply (H3 "nul"%string isro "49931"); reflexivity.
Defined.

Lemma closeCache_last_wins_witness :
  written michigan STATE_URL_DICT (written (JObj []) STATE_URL_DICT fresh)
  = written michigan STATE_URL_DICT fresh
  /\ STATE_URL_DICT <> SITE_URL_DICT
  /\ written (JObj []) STATE_URL_DICT (written michigan SITE_URL_DICT fresh)
     = written michigan SITE_URL_DICT (written (JObj []) STATE_URL_DICT fresh)
  /\ fst (openCache SITE_URL_DICT (written (JObj []) STATE_URL_DICT fresh))
     = fst (openCache SITE_URL_DICT fresh).
Proof.
  destruct (closeCache_last_wins (JObj []) michigan STATE_URL_DICT
              SITE_URL_DICT fresh) as [_ H].
  split;
    [apply (proj1 (closeCache_last_wins (JObj []) michigan STATE_URL_DICT
                     SITE_URL_DICT fresh))|].
  split; [discriminate|]. apply H. discriminate.
Defined.

Lemma place_line_slots_witness :
  dict_get "fields" diner = Some (JObj diner_fields)
  /\ dict_get "name" diner = Some (JStr "Diner")
  /\ textual diner_fields "group_sic_code_name"
  /\ textual diner_fields "address" /\ textual diner_fields "city"
  /\ place_line (JObj diner) = Ok (JStr "Diner (Food): no address, no city").
Proof.
  split; [reflexivity|]. split; [reflexivity|].
  split; [exact I|]. split; [exact I|]. split; [exact I|].
  apply (proj1 (place_line_slots diner diner_fields "Diner"
                  eq_refl eq_refl I I I)).
Defined.

Lemma main_loop_place_type_error_witness :
  main_select (Py.lower (Py.strip "1")) [isro; kewe] = Ok isro
  /\ name isro = JStr "Isle Royale"
  /\ get_nearby_places (env := env0) isro with_odd_places
     = (Ok (JObj odd_places), printed "Using Cache" with_odd_places)
  /\ dict_get "searchResults" odd_places
     = Some (JArr ([JObj diner] ++ JObj odd :: []))
  /\ place_line (JObj diner) = Ok (JStr "Diner (Food): no address, no city")
  /\ dict_get "address" odd_fields = Some (JInt 3)
  /\ main_loop (env := env0) michigan (Some [isro; kewe])
       ["1"; "exit"]%string with_odd_places
     = (Uncaught TypeError,
        printed_all
          ["Using Cache"; SEPERATOR; "Places near Isle Royale"; SEPERATOR;
           "- Diner (Food): no address, no city"]%string
          with_odd_places).
Proof.
  assert (get_nearby_places (env := env0) isro with_odd_places
          = (Ok (JObj odd_places), printed "Using Cache" with_odd_places))
    as Hnear by (vm_compute; reflexivity).
  split; [reflexivity|]. split; [reflexivity|]. split; [exact Hnear|].
  split; [reflexivity|]. split; [reflexivity|]. split; [reflexivity|].
  assert (Forall2 (fun r text => place_line r = Ok (JStr text))
            [JObj diner] ["Diner (Food): no address, no city"]%string)
    as Hshown by (repeat constructor).
  rewrite (main_loop_place_type_error (env := env0) michigan [isro; kewe]
             "1" "Isle Royale" isro ["exit"]%string with_odd_places
             (printed "Using Cache" with_odd_places) odd_places odd
             odd_fields [JObj diner] []
             ["Diner (Food): no address, no city"]%string "address"
             (JInt 3) (JStr "Odd") eq_refl eq_refl Hnear eq_refl
             Hshown eq_refl eq_refl
             (or_intror (or_introl eq_refl)) eq_refl I).
  reflexivity.
Defined.

Lemma main_loop_wrong_names_witness :
  Forall (fun line =>
            let token := Py.lower (Py.strip line) in
            token <> "exit"%string
            /\ py_contains token michigan = Ok false)
         ["x"; " Texas "]%string
  /\ main_loop (env := env0) michigan None ["x"; " Texas "; "exit"]%string
       fresh
     = (Returned,
        printed_all ["[Error] Enter proper state name";
                     "[Error] Enter proper state name"]%string fresh).
Proof.
  assert (Forall (fun line =>
            let token := Py.lower (Py.strip line) in
            token <> "exit"%string
            /\ py_contains token michigan = Ok false)
         ["x"; " Texas "]%string) as H.
  { repeat constructor; discriminate. }
  split; [exact H|].
  exact (main_loop_wrong_names (env := env0) michigan
           ["x"; " Texas "]%string ["exit"]%string fresh H).
Defined.

Lemma main_loop_wrong_numbers_witness :
  Forall (fun line =>
            let token := Py.lower (Py.strip line) in
            (token <> "back"%string /\ token <> "exit"%string
             /\ py_int token = None)
            \/ exists id, py_int token = Some id
                          /\ Z.of_nat (length [isro; kewe]) < id)
         ["one"; " 3 "]%string
  /\ main_loop (env := env0) michigan (Some [isro; kewe])
       ["one"; " 3 "; "exit"]%string fresh
     = (Returned,
        printed_all (invalid_input_lines ++ invalid_input_lines) fresh).
Proof.
  assert (Forall (fun line =>
            let token := Py.lower (Py.strip line) in
            (token <> "back"%string /\ token <> "exit"%string
             /\ py_int token = None)
            \/ exists id, py_int token = Some id
                          /\ Z.of_nat (length [isro; kewe]) < id)
         ["one"; " 3 "]%string) as H.
  { constructor; [left; repeat split; discriminate|].
    constructor; [|constructor].
    right. exists 3. split; reflexivity. }
  split; [exact H|].
  exact (main_loop_wrong_numbers (env := env0) michigan [isro; kewe]
           ["one"; " 3 "]%string ["exit"]%string fresh H).
Defined.

Lemma main_loop_index_error_witness :
  py_int (Py.lower (Py.strip "-2")) = Some (-2)
  /\ -2 <= - Z.of_nat (length [isro; kewe])
  /\ main_loop (env := env0) michigan (Some [isro; kewe])
       ["-2"; "exit"]%string fresh
     = (Uncaught IndexError, fresh).
Proof.
  split; [reflexivity|]. split; [discriminate|].
  apply (main_loop_index_error (env := env0) michigan [isro; kewe] "-2" (-2));
    [reflexivity | discriminate].
Defined.

Lemma main_loop_corrupt_places_cache_witness :
  main_select (Py.lower (Py.strip "1")) [isro; kewe] = Ok isro
  /\ zipcode isro = JStr "49931"
  /\ files with_broken_caches !! NEARBY_PLACES = Some "nul"%string
  /\ Json.loads "nul" = Json.Malformed
  /\ main_loop (env := env0) michigan (Some [isro; kewe])
       ["1"; "exit"]%string with_broken_caches
     = (Returned, printed_all invalid_input_lines with_broken_caches).
Proof.
  split; [reflexivity|]. split; [reflexivity|]. split; [reflexivity|].
  split; [reflexivity|].
  exact (main_loop_corrupt_places_cache (env := env0) michigan
           [isro; kewe] "1" "nul" "49931" isro ["exit"]%string
           with_broken_caches eq_refl eq_refl eq_refl eq_refl).
Defined.

Lemma listed_number_selects_witness :
  fst (print_sites 0 [isro; kewe] fresh) = Ok tt
  /\ [isro; kewe] !! 1%nat = Some kewe
  /\ exists text,
       info kewe = Ok (JStr text)
       /\ stdout (snd (print_sites 0 [isro; kewe] fresh))
            !! (length (stdout fresh) + 1)%nat
          = Some ("[" +:+ Py.str_of_int (Z.of_nat 1 + 1) +:+ "]" +:+ " "
                    +:+ text)
       /\ main_select (Py.str_of_int (Z.of_nat 1 + 1)) [isro; kewe]
          = Ok kewe.
Proof.
  split; [reflexivity|]. split; [reflexivity|].
  apply (listed_number_selects [isro; kewe] fresh
           (snd (print_sites 0 [isro; kewe] fresh)) 1 kewe);
    reflexivity.
Defined.

Lemma list_state_sites_are_text_witness :
  fst (list_state (env := env0) michigan "michigan" fresh) = Ok [isro; kewe]
  /\ Forall (fun ns =>
               exists n c a z,
                 name ns = JStr n /\ category ns = JStr c
                 /\ address ns = JStr a /\ zipcode ns = JStr z)
            [isro; kewe].
Proof.
  split; [vm_compute; reflexivity|].
  apply (list_state_sites_are_text (env := env0) michigan "michigan" fresh
           (snd (list_state (env := env0) michigan "michigan" fresh))).
  vm_compute. reflexivity.
Defined.

Lemma get_sites_for_state_all_cached_witness :
  remote (Env := env1) (requests with_both) up_url = Ok up_url
  /\ park_links
       (List.filter is_asset
          (Bs4.find_all "li" [("class", "clearfix")]%string
             (BeautifulSoup (Env := env1) None up_url)))
     = Ok [isro_url; kewe_url]
  /\ fst (openCache SITE_URL_DICT with_both) = Ok (JObj both)
  /\ exists sites w',
       get_sites_for_state (env := env1) up_url with_both = (Ok sites, w')
       /\ requests w' = requests with_both ++ [up_url]
       /\ files w' = files with_both
       /\ Forall2 (fun u ns =>
                     exists c, dict_get u both = Some c /\ holds_site c ns)
                  [isro_url; kewe_url] sites.
Proof.
  split; [reflexivity|]. split; [vm_compute; reflexivity|].
  split; [vm_compute; reflexivity|].
  apply (get_sites_for_state_all_cached (env := env1) up_url up_url with_both
           both [isro_url; kewe_url]);
    [reflexivity | vm_compute; reflexivity | vm_compute; reflexivity |].
  constructor; [|constructor; [|constructor]].
  - exists (site_fields isro), isro.
    split; [reflexivity|repeat split; reflexivity].
  - exists (site_fields kewe), kewe.
    split; [reflexivity|repeat split; reflexivity].
Defined.



End MoreRuns.
